(** * SwiftBasket (Django eCommerce application): cart, checkout, review,
      password-reset and catalogue handlers

    A shallow embedding of the request handlers of [online_store] and the
    properties of their state transitions.

    Conventions of the embedding
    - A database table is the list of its rows, oldest first.  A queryset
      is a [filter] over that list; [objects.get] raises [DoesNotExist] on
      no row and [MultipleObjectsReturned] on several.
    - [DecimalField(decimal_places=2)] values are integers counting cents.
    - UUID primary keys are strings, in the spelling [str(uuid)] gives;
      [uuid4()] is an input of the handler that draws one.  A key from a
      URL has passed the [<uuid:pk>] converter and is of that spelling.  A
      key from the session or from POST data goes through [to_uuid]
      ([UUIDField.to_python]) in [merge_cart] and [update_db_cart];
      [add_item_db_cart] is modelled for posted keys of the stored
      spelling.
    - Auto-increment keys come from one sequence kept in the database.
    - Handlers run in autocommit mode (no [transaction.atomic] appears in
      the source): an exception keeps the writes made before it.
    - Library functions whose code is not part of the repository ([int],
      [sha1], the parsing of UUIDs, form and serializer validation) are
      the fields of the [Framework] class.
    - [auto_now_add] timestamps, the image upload and the text of e-mails
      and tweets play no part in any transition and are left out. *)

From Stdlib Require Import List String Ascii ZArith Bool Arith Lia.
Import ListNotations.
Local Open Scope string_scope.
Local Open Scope list_scope.
Local Open Scope Z_scope.

(* ===================================================================== *)
(** * Data model ([models.py]) *)
(* ===================================================================== *)

Definition uuid := string.
Definition pk := nat.
Bind Scope nat_scope with pk.
Definition Decimal := Z.

(** [django.contrib.auth.models.User], with the effective permission set
    that [has_perm] consults and the names of the groups of the user. *)
Module User.
Record t := mk {
  id : pk;
  username : string;
  email : string;
  password : option string;
  groups : list string;
  permissions : list string
}.
End User.

Module Store.
Record t := mk {
  store_id : uuid;
  owner : pk;
  store_name : string;
  description : string
}.
End Store.

Module Product.
Record t := mk {
  store : option uuid;
  product_id : uuid;
  product_name : string;
  price : Decimal;
  image : option string;
  description : string
}.
End Product.

Module Cart.
Record t := mk { id : pk; user : pk }.
End Cart.

Module CartItem.
Record t := mk { id : pk; cart : pk; items : uuid; quantity : Z }.
End CartItem.

Module Review.
Record t := mk {
  id : pk;
  user : pk;
  product : option uuid;
  rating : Z;
  comment : string;
  is_verified : bool
}.
End Review.

Module Order.
Record t := mk { id : pk; user : pk; total_price : Decimal }.
End Order.

(** [OrderItem.product] is a [CharField]: the name of the product. *)
Module OrderItem.
Record t := mk {
  id : pk;
  order : pk;
  product : string;
  quantity : Z;
  price : Decimal
}.
End OrderItem.

Module ResetToken.
Record t := mk {
  id : pk;
  user : pk;
  token : string;
  expiry_date : Z;
  used : bool
}.
End ResetToken.

Record DB := mkDB {
  users : list User.t;
  stores : list Store.t;
  products : list Product.t;
  carts : list Cart.t;
  cart_items : list CartItem.t;
  reviews : list Review.t;
  orders : list Order.t;
  order_items : list OrderItem.t;
  reset_tokens : list ResetToken.t;
  sequence : pk
}.

Definition set_users (f : list User.t -> list User.t) (d : DB) : DB :=
  mkDB (f (users d)) (stores d) (products d) (carts d) (cart_items d)
       (reviews d) (orders d) (order_items d) (reset_tokens d) (sequence d).
Definition set_stores (f : list Store.t -> list Store.t) (d : DB) : DB :=
  mkDB (users d) (f (stores d)) (products d) (carts d) (cart_items d)
       (reviews d) (orders d) (order_items d) (reset_tokens d) (sequence d).
Definition set_products (f : list Product.t -> list Product.t) (d : DB) : DB :=
  mkDB (users d) (stores d) (f (products d)) (carts d) (cart_items d)
       (reviews d) (orders d) (order_items d) (reset_tokens d) (sequence d).
Definition set_carts (f : list Cart.t -> list Cart.t) (d : DB) : DB :=
  mkDB (users d) (stores d) (products d) (f (carts d)) (cart_items d)
       (reviews d) (orders d) (order_items d) (reset_tokens d) (sequence d).
Definition set_cart_items (f : list CartItem.t -> list CartItem.t) (d : DB) : DB :=
  mkDB (users d) (stores d) (products d) (carts d) (f (cart_items d))
       (reviews d) (orders d) (order_items d) (reset_tokens d) (sequence d).
Definition set_reviews (f : list Review.t -> list Review.t) (d : DB) : DB :=
  mkDB (users d) (stores d) (products d) (carts d) (cart_items d)
       (f (reviews d)) (orders d) (order_items d) (reset_tokens d) (sequence d).
Definition set_orders (f : list Order.t -> list Order.t) (d : DB) : DB :=
  mkDB (users d) (stores d) (products d) (carts d) (cart_items d)
       (reviews d) (f (orders d)) (order_items d) (reset_tokens d) (sequence d).
Definition set_order_items (f : list OrderItem.t -> list OrderItem.t) (d : DB) : DB :=
  mkDB (users d) (stores d) (products d) (carts d) (cart_items d)
       (reviews d) (orders d) (f (order_items d)) (reset_tokens d) (sequence d).
Definition set_reset_tokens (f : list ResetToken.t -> list ResetToken.t) (d : DB) : DB :=
  mkDB (users d) (stores d) (products d) (carts d) (cart_items d)
       (reviews d) (orders d) (order_items d) (f (reset_tokens d)) (sequence d).
Definition bump (d : DB) : DB :=
  mkDB (users d) (stores d) (products d) (carts d) (cart_items d)
       (reviews d) (orders d) (order_items d) (reset_tokens d) (S (sequence d)).

(* ===================================================================== *)
(** * Requests, sessions, responses *)
(* ===================================================================== *)

(** A Python [dict] with string keys: insertion-ordered, one entry per key. *)
Definition dict (V : Type) := list (string * V).

Fixpoint dict_get {V} (d : dict V) (k : string) : option V :=
  match d with
  | [] => None
  | (k', v) :: d' => if String.eqb k' k then Some v else dict_get d' k
  end.

(** [d[k] = v]: overwrite in place, or append a new entry. *)
Fixpoint dict_set {V} (d : dict V) (k : string) (v : V) : dict V :=
  match d with
  | [] => [(k, v)]
  | (k', v') :: d' =>
      if String.eqb k' k then (k, v) :: d' else (k', v') :: dict_set d' k v
  end.

(** The keys ["cart"], ["user"] and ["token"] that the handlers keep in
    [request.session]; [None] is an absent key. *)
Record Session := mkSession {
  s_cart : option (dict Z);
  s_user : option string;
  s_token : option string
}.

Inductive Method := GET | POST.

Definition QueryDict := dict string.

(** [request.user] is [None] for [AnonymousUser]. *)
Record Request := mkRequest {
  req_user : option User.t;
  method : Method;
  POST_data : QueryDict
}.

(** Values of a template context. *)
Inductive ctx_value :=
| VStr (s : string)
| VForm (errors : list (string * string))
| VCartItems (l : list CartItem.t)
| VDecimal (d : Decimal)
| VProduct (p : Product.t)
| VResetToken (t : ResetToken.t).

Inductive HttpResponse :=
| redirect (to : string)
| redirect_pk (to : string) (arg : uuid)
| render (template : string) (context : list (string * ctx_value))
| HttpResponseBadRequest (content : string)
| HttpResponseNotAllowed
| JsonResponse (status : nat) (data : list (string * string)).

Inductive exn :=
| Http404
| DoesNotExist (model : string)
| MultipleObjectsReturned (model : string)
| IntegrityError
| ValueError
| MultiValueDictKeyError
| TypeError
| SMTPException
| ValidationError
| InvalidOperation.

Inductive level := ERROR | SUCCESS.

(** What a request reads and writes: the database, the session of the
    client and the queue of flash messages. *)
Record World := mkWorld {
  db : DB;
  session : Session;
  messages : list (level * string)
}.

(* ===================================================================== *)
(** * The handler monad: state with exceptions, no rollback *)
(* ===================================================================== *)

Inductive result (A : Type) :=
| Return (a : A)
| Raise (e : exn).
Arguments Return {A} a.
Arguments Raise {A} e.

Definition M (A : Type) := World -> result A * World.

Definition ret {A} (a : A) : M A := fun w => (Return a, w).
Definition raise {A} (e : exn) : M A := fun w => (Raise e, w).
Definition bind {A B} (m : M A) (k : A -> M B) : M B :=
  fun w => match m w with
           | (Return a, w') => k a w'
           | (Raise e, w') => (Raise e, w')
           end.
Definition lift {A} (r : result A) : M A := fun w => (r, w).

Declare Scope handler_scope.
Delimit Scope handler_scope with handler.
Notation "x <- m ;; k" := (bind m (fun x => k))
  (at level 61, m at next level, right associativity) : handler_scope.
Notation "m ;;; k" := (bind m (fun _ => k))
  (at level 61, right associativity) : handler_scope.
Local Open Scope handler_scope.

Definition get_db : M DB := fun w => (Return (db w), w).
Definition modify_db (f : DB -> DB) : M unit :=
  fun w => (Return tt, mkWorld (f (db w)) (session w) (messages w)).
Definition get_session : M Session := fun w => (Return (session w), w).
Definition put_session (s : Session) : M unit :=
  fun w => (Return tt, mkWorld (db w) s (messages w)).
Definition add_message (l : level) (text : string) : M unit :=
  fun w => (Return tt, mkWorld (db w) (session w) (messages w ++ [(l, text)])).

(** [for x in l: body(x)] *)
Fixpoint for_each {A} (l : list A) (body : A -> M unit) : M unit :=
  match l with
  | [] => ret tt
  | x :: l' => body x ;;; for_each l' body
  end.

(** Next value of the auto-increment sequence. *)
Definition next_id : M pk :=
  d <- get_db ;; modify_db bump ;;; ret (sequence d).

(* ===================================================================== *)
(** * ORM primitives *)
(* ===================================================================== *)

(** [Model.objects.get(...)] over the rows that satisfy the lookup. *)
Definition objects_get {A} (model : string) (rows : list A) (p : A -> bool)
  : result A :=
  match filter p rows with
  | [] => Raise (DoesNotExist model)
  | [x] => Return x
  | _ => Raise (MultipleObjectsReturned model)
  end.

(** [get_object_or_404]: only [DoesNotExist] becomes [Http404]. *)
Definition get_object_or_404 {A} (model : string) (rows : list A)
  (p : A -> bool) : result A :=
  match objects_get model rows p with
  | Raise (DoesNotExist _) => Raise Http404
  | r => r
  end.

(** [queryset.exists()] *)
Definition exists_ {A} (rows : list A) (p : A -> bool) : bool :=
  existsb p rows.

(** [user.has_perm(name)] *)
Definition has_perm (u : User.t) (name : string) : bool :=
  existsb (String.eqb name) (User.permissions u).

(** The user of the request when [request.user.has_perm(name)] holds;
    [AnonymousUser] has no permission. *)
Definition permitted (request : Request) (name : string) : option User.t :=
  match req_user request with
  | Some u => if has_perm u name then Some u else None
  | None => None
  end.

(** [user.groups.filter(name=g).exists()] *)
Definition in_group (u : User.t) (g : string) : bool :=
  existsb (String.eqb g) (User.groups u).

Definition is_authenticated (u : option User.t) : bool :=
  match u with Some _ => true | None => false end.

(** Cleaned fields of [ProductForm] and [ProductSerializer]. *)
Record ProductFields := mkProductFields {
  f_product_name : string;
  f_price : Decimal;
  f_description : string;
  f_image : option string
}.

(** Library functions the handlers call. *)
Class Framework := {
  (** [int(s)] on a string; [None] stands for [ValueError]. *)
  py_int : string -> option Z;
  (** [sha1(s.encode()).hexdigest()] *)
  sha1_hexdigest : string -> string;
  (** [UUIDField.to_python(s)] on a string: the key that [s] spells, in
      the stored spelling; [None] stands for [ValidationError]. *)
  to_uuid : string -> option uuid;
  (** [StoreForm(data).is_valid()]: the cleaned [store_name] and
      [description], or the errors by field. *)
  StoreForm_clean : QueryDict -> (string * string) + list (string * string);
  (** [ProductForm(data, files).is_valid()]: the cleaned fields, or the
      errors by field. *)
  ProductForm_clean : QueryDict -> ProductFields + list (string * string);
  StoreSerializer_clean :
    QueryDict -> (string * string) + list (string * string);
  ProductSerializer_clean :
    QueryDict -> ProductFields + list (string * string)
}.

(** [Model.objects.get(pk=k)]: the primary key is unique in the table. *)
Definition get_product (d : DB) (k : uuid) : option Product.t :=
  find (fun p => String.eqb (Product.product_id p) k) (products d).

Definition get_store (d : DB) (k : uuid) : option Store.t :=
  find (fun s => String.eqb (Store.store_id s) k) (stores d).

(** [Cart.objects.get_or_create(user=u)] *)
Definition get_or_create_cart (u : User.t) : M Cart.t :=
  d <- get_db ;;
  match objects_get "Cart" (carts d)
          (fun c => Nat.eqb (Cart.user c) (User.id u)) with
  | Return c => ret c
  | Raise (DoesNotExist _) =>
      i <- next_id ;;
      let c := Cart.mk i (User.id u) in
      modify_db (set_carts (fun l => l ++ [c])) ;;;
      ret c
  | Raise e => raise e
  end.

Definition item_of (c : pk) (p : uuid) (r : CartItem.t) : bool :=
  Nat.eqb (CartItem.cart r) c && String.eqb (CartItem.items r) p.

(** [CartItem.objects.get_or_create(cart=c, items=p,
    defaults={"quantity": q})] *)
Definition get_or_create_cart_item (c : Cart.t) (p : Product.t) (q : Z)
  : M (CartItem.t * bool) :=
  d <- get_db ;;
  match objects_get "CartItem" (cart_items d)
          (item_of (Cart.id c) (Product.product_id p)) with
  | Return r => ret (r, false)
  | Raise (DoesNotExist _) =>
      i <- next_id ;;
      let r := CartItem.mk i (Cart.id c) (Product.product_id p) q in
      modify_db (set_cart_items (fun l => l ++ [r])) ;;;
      ret (r, true)
  | Raise e => raise e
  end.

(** [cart_item.save()] of a row read in the same request: an update of
    the row with that primary key. *)
Definition save_cart_item (r : CartItem.t) : M unit :=
  modify_db (set_cart_items
    (map (fun r' => if Nat.eqb (CartItem.id r') (CartItem.id r)
                    then r else r'))).

Definition set_quantity (r : CartItem.t) (q : Z) : CartItem.t :=
  CartItem.mk (CartItem.id r) (CartItem.cart r) (CartItem.items r) q.

(* ===================================================================== *)
(** * Cart views ([views/cart_views.py]) *)
(* ===================================================================== *)

Section CartViews.
Context {fw : Framework}.

(** [int(request.POST.get("quantity", 1))]; [None] stands for
    [ValueError]. *)
Definition int_quantity (request : Request) : option Z :=
  match dict_get (POST_data request) "quantity" with
  | None => Some 1
  | Some s => py_int s
  end.

(** The quantity [add_item_db_cart] works with: a parsed value below 1
    and a [ValueError] both become 1. *)
Definition coerced_quantity (request : Request) : Z :=
  match int_quantity request with
  | Some n => if n <? 1 then 1 else n
  | None => 1
  end.

(** [add_item_db_cart], under [@require_POST] and [@login_required]
    (which sends an anonymous user to the login page).  The posted
    [item] is looked up as it is: the model is for an id in the stored
    spelling. *)
Definition add_item_db_cart (request : Request) : M HttpResponse :=
  match method request with
  | GET => ret HttpResponseNotAllowed
  | POST =>
    match req_user request with
    | None => ret (redirect "login")
    | Some user =>
      let product_id := dict_get (POST_data request) "item" in
      let quantity := coerced_quantity request in
      d <- get_db ;;
      match product_id with
      | None => raise Http404
      | Some k =>
        match get_product d k with
        | None => raise Http404
        | Some product =>
          cart <- get_or_create_cart user ;;
          ic <- get_or_create_cart_item cart product quantity ;;
          let '(cart_item, created) := ic in
          (if created then ret tt
           else save_cart_item
                  (set_quantity cart_item
                     (CartItem.quantity cart_item + quantity))) ;;;
          ret (redirect "view_cart")
        end
      end
    end
  end.

(** [add_item_to_cart]: database cart when logged in, session cart
    otherwise. *)
Definition add_item_to_cart (request : Request) : M HttpResponse :=
  if is_authenticated (req_user request) then
    add_item_db_cart request ;;;
    ret (redirect "view_cart")
  else
    match int_quantity request with
    | None => ret (HttpResponseBadRequest "Quantity must be at least 1")
    | Some quantity =>
      if quantity <? 1 then ret (HttpResponseBadRequest "Invalid quantity")
      else
        match dict_get (POST_data request) "item" with
        | None | Some "" => ret (HttpResponseBadRequest "No item specified")
        | Some item =>
          s <- get_session ;;
          let cart := match s_cart s with Some c => c | None => [] end in
          let cart :=
            match dict_get cart item with
            | Some old => dict_set cart item (old + quantity)
            | None => dict_set cart item quantity
            end in
          put_session (mkSession (Some cart) (s_user s) (s_token s)) ;;;
          ret (redirect "view_cart")
        end
    end.

(** The value of a string in a lookup on a UUID column; the
    [ValidationError] of an ill-formed one is no [DoesNotExist], no
    [ValueError] and no [TypeError]. *)
Definition lookup_key (s : string) : M uuid :=
  match to_uuid s with
  | Some k => ret k
  | None => raise ValidationError
  end.

(** One iteration of the loop of [merge_cart]:
    [Product.objects.get(pk=product_id)] under
    [except Product.DoesNotExist: continue]. *)
Definition merge_entry (cart : Cart.t) (entry : string * Z) : M unit :=
  let '(product_id, quantity) := entry in
  k <- lookup_key product_id ;;
  d <- get_db ;;
  match get_product d k with
  | None => ret tt
  | Some product =>
    ic <- get_or_create_cart_item cart product quantity ;;
    let '(cart_item, created) := ic in
    if created then ret tt
    else save_cart_item
           (set_quantity cart_item (CartItem.quantity cart_item + quantity))
  end.

(** [merge_cart], the receiver of [user_logged_in]; [login] has set
    [request.user] to the user who logs in. *)
Definition merge_cart (user : User.t) : M unit :=
  if negb (in_group user "Buyers") then ret tt
  else
    s <- get_session ;;
    let session_cart := match s_cart s with Some c => c | None => [] end in
    cart <- get_or_create_cart user ;;
    for_each session_cart (merge_entry cart) ;;;
    s <- get_session ;;
    put_session (mkSession (Some []) (s_user s) (s_token s)).

End CartViews.

(* ===================================================================== *)
(** * Checkout ([views/order_views.py]) *)
(* ===================================================================== *)

(** The rows of [cart.cartitem_set.all()] with [item.items] resolved; the
    queryset and the related products are read once and cached. *)
Fixpoint resolve_items (d : DB) (l : list CartItem.t)
  : result (list (CartItem.t * Product.t)) :=
  match l with
  | [] => Return []
  | item :: l' =>
      match get_product d (CartItem.items item) with
      | None => Raise (DoesNotExist "Product")
      | Some p =>
          match resolve_items d l' with
          | Return rest => Return ((item, p) :: rest)
          | Raise e => Raise e
          end
      end
  end.

(** [sum(item.items.price * item.quantity for item in cart_items)] *)
Definition sum_prices (lines : list (CartItem.t * Product.t)) : Decimal :=
  fold_left
    (fun acc line => acc + Product.price (snd line) * CartItem.quantity (fst line))
    lines 0.

(** [email.send(fail_silently=False)]; the transport decides. *)
Definition send_email (delivered : bool) : M unit :=
  if delivered then ret tt else raise SMTPException.

(** [OrderItem.objects.create(...)] for one cart line. *)
Definition create_order_item (order : Order.t)
  (line : CartItem.t * Product.t) : M unit :=
  let '(item, product) := line in
  i <- next_id ;;
  modify_db (set_order_items (fun l => l ++
    [OrderItem.mk i (Order.id order) (Product.product_name product)
       (CartItem.quantity item)
       (Product.price product * CartItem.quantity item)])).

Definition checkout (delivered : bool) (request : Request)
  : M HttpResponse :=
  match req_user request with
  | None => ret (redirect "login_buyer")
  | Some user =>
    d <- get_db ;;
    cart <- lift (get_object_or_404 "Cart" (carts d)
                    (fun c => Nat.eqb (Cart.user c) (User.id user))) ;;
    let in_cart := fun r => Nat.eqb (CartItem.cart r) (Cart.id cart) in
    lines <- lift (resolve_items d (filter in_cart (cart_items d))) ;;
    let total_price := sum_prices lines in
    match method request with
    | POST =>
      if negb (exists_ (cart_items d) in_cart) then ret (redirect "view_cart")
      else
        i <- next_id ;;
        let order := Order.mk i (User.id user) total_price in
        modify_db (set_orders (fun l => l ++ [order])) ;;;
        for_each lines (create_order_item order) ;;;
        send_email delivered ;;;
        modify_db (set_cart_items (filter (fun r => negb (in_cart r)))) ;;;
        ret (redirect "buyer_home")
    | GET =>
      ret (render "online_store/checkout.html"
             [("cart_items", VCartItems (map fst lines));
              ("total_price", VDecimal total_price)])
    end
  end.

(* ===================================================================== *)
(** * Reviews ([views/review_views.py]) *)
(* ===================================================================== *)

Definition option_uuid_eqb (a b : option uuid) : bool :=
  match a, b with
  | Some x, Some y => String.eqb x y
  | None, None => true
  | _, _ => false
  end.

(** The lookup [order__user=user] on an [OrderItem]. *)
Definition order_user_is (d : DB) (u : pk) (oi : OrderItem.t) : bool :=
  match find (fun o => Nat.eqb (Order.id o) (OrderItem.order oi)) (orders d) with
  | Some o => Nat.eqb (Order.user o) u
  | None => false
  end.

(** [OrderItem.objects.filter(order__user=user, product=product).exists()].
    [OrderItem.product] is a [CharField]; the lookup value is prepared
    with [str(product)], which is [product.product_name]. *)
Definition has_purchased (d : DB) (user : User.t) (product : Product.t)
  : bool :=
  exists_ (order_items d)
    (fun oi => order_user_is d (User.id user) oi
               && String.eqb (OrderItem.product oi)
                             (Product.product_name product)).

Definition reviewed_by (u : pk) (p : uuid) (r : Review.t) : bool :=
  Nat.eqb (Review.user r) u && option_uuid_eqb (Review.product r) (Some p).

Section ReviewViews.
Context {fw : Framework}.

Definition create_review (request : Request) (pk : uuid)
  : M HttpResponse :=
  d <- get_db ;;
  match get_product d pk with
  | None => raise Http404
  | Some product =>
    match req_user request with
    | None => raise TypeError
    | Some user =>
      if exists_ (reviews d)
           (reviewed_by (User.id user) (Product.product_id product))
      then
        add_message ERROR "You have already submitted a review." ;;;
        ret (redirect_pk "product_reviews_view" (Product.product_id product))
      else
        let has_purchased := has_purchased d user product in
        match method request with
        | POST =>
          match dict_get (POST_data request) "rating" with
          | None => raise MultiValueDictKeyError
          | Some r =>
            match py_int r with
            | None => raise ValueError
            | Some rating =>
              match dict_get (POST_data request) "comment" with
              | None => raise MultiValueDictKeyError
              | Some comment =>
                i <- next_id ;;
                modify_db (set_reviews (fun l => l ++
                  [Review.mk i (User.id user)
                     (Some (Product.product_id product))
                     rating comment has_purchased])) ;;;
                add_message SUCCESS "Your review has been submitted." ;;;
                ret (redirect_pk "product_reviews_view"
                       (Product.product_id product))
              end
            end
          end
        | GET =>
          ret (render "online_store/create_review.html"
                 [("product", VProduct product)])
        end
    end
  end.

End ReviewViews.

(* ===================================================================== *)
(** * Password reset ([views/password_reset_views.py]) *)
(* ===================================================================== *)

(** [not x] for a session value: absent or empty. *)
Definition falsy (x : option string) : bool :=
  match x with
  | None | Some "" => true
  | Some _ => false
  end.

Definition option_string_eqb (a b : option string) : bool :=
  match a, b with
  | Some x, Some y => String.eqb x y
  | None, None => true
  | _, _ => false
  end.

Definition set_password (u : User.t) (new_password : option string)
  : User.t :=
  User.mk (User.id u) (User.username u) (User.email u) new_password
          (User.groups u) (User.permissions u).

(** [change_user_password]: [set_password(None)] leaves an unusable
    password, kept as [None]. *)
Definition change_user_password (username : string)
  (new_password : option string) : M unit :=
  d <- get_db ;;
  user <- lift (objects_get "User" (users d)
                  (fun u => String.eqb (User.username u) username)) ;;
  modify_db (set_users
    (map (fun u' => if Nat.eqb (User.id u') (User.id user)
                    then set_password user new_password else u'))).

Section PasswordReset.
Context {fw : Framework}.

Definition has_token (hashed : string) (t : ResetToken.t) : bool :=
  String.eqb (ResetToken.token t) hashed.

(** [reset_user_password] at the time [now] of [datetime.now()]. *)
Definition reset_user_password (now : Z) (request : Request)
  (token : string) : M HttpResponse :=
  d <- get_db ;;
  let hashed_token := sha1_hexdigest token in
  match objects_get "ResetToken" (reset_tokens d) (has_token hashed_token) with
  | Raise (DoesNotExist _) =>
    ret (render "online_store/password_reset.html"
           [("error", VStr "Invalid or expired reset token");
            ("token", VStr token)])
  | Raise e => raise e
  | Return user_token =>
    if ResetToken.expiry_date user_token <? now then
      modify_db (set_reset_tokens
        (filter (fun t => negb (Nat.eqb (ResetToken.id t)
                                        (ResetToken.id user_token))))) ;;;
      ret (render "online_store/password_reset.html"
             [("error", VStr "This reset link has expired.");
              ("token", VStr token)])
    else
      match find (fun u => Nat.eqb (User.id u) (ResetToken.user user_token))
                 (users d) with
      | None => raise (DoesNotExist "User")
      | Some u =>
        s <- get_session ;;
        put_session (mkSession (s_cart s) (Some (User.username u))
                               (Some token)) ;;;
        ret (render "online_store/password_reset.html"
               [("user_token", VResetToken user_token);
                ("token", VStr token)])
      end
  end.

Definition reset_password (request : Request) : M HttpResponse :=
  match method request with
  | POST =>
    s <- get_session ;;
    if falsy (s_user s) || falsy (s_token s) then
      ret (render "online_store/password_reset.html"
             [("errors", VStr "Session expired or invalid reset link")])
    else
      let username := match s_user s with Some x => x | None => "" end in
      let token := match s_token s with Some x => x | None => "" end in
      let password := dict_get (POST_data request) "password" in
      let password_conf := dict_get (POST_data request) "password_conf" in
      if option_string_eqb password password_conf then
        change_user_password username password ;;;
        modify_db (set_reset_tokens
          (filter (fun t => negb (has_token (sha1_hexdigest token) t)))) ;;;
        s <- get_session ;;
        put_session (mkSession (s_cart s) None None) ;;;
        d <- get_db ;;
        match objects_get "User" (users d)
                (fun u => String.eqb (User.username u) username) with
        | Return user =>
          if in_group user "Vendors" then ret (redirect "login_vendor")
          else if in_group user "Buyers" then ret (redirect "login_buyer")
          else ret (redirect "home")
        | Raise (DoesNotExist _) => ret (redirect "home")
        | Raise e => raise e
        end
      else
        ret (render "online_store/password_reset.html"
               [("error", VStr "Passwords do not match.")])
  | GET => ret (render "online_store/password_reset.html" [])
  end.

End PasswordReset.

(* ===================================================================== *)
(** * Catalogue ([views/store_views.py], [views/product_views.py],
      [api/views.py]) *)
(* ===================================================================== *)

(** [INSERT] into [Store]: unique primary key, and [owner] is a
    [OneToOneField]. *)
Definition insert_store (s : Store.t) : M unit :=
  d <- get_db ;;
  if exists_ (stores d)
       (fun s' => String.eqb (Store.store_id s') (Store.store_id s)
                  || Nat.eqb (Store.owner s') (Store.owner s))
  then raise IntegrityError
  else modify_db (set_stores (fun l => l ++ [s])).

(** [INSERT] into [Product]: unique primary key. *)
Definition insert_product (p : Product.t) : M unit :=
  d <- get_db ;;
  if exists_ (products d)
       (fun p' => String.eqb (Product.product_id p') (Product.product_id p))
  then raise IntegrityError
  else modify_db (set_products (fun l => l ++ [p])).

Definition mem (k : uuid) (l : list uuid) : bool := existsb (String.eqb k) l.

(** Deletion of the products that satisfy [doomed], with the [CASCADE] to
    their cart items and reviews. *)
Definition delete_products (doomed : Product.t -> bool) (d : DB) : DB :=
  let gone := map Product.product_id (filter doomed (products d)) in
  set_products (filter (fun p => negb (doomed p)))
    (set_cart_items (filter (fun r => negb (mem (CartItem.items r) gone)))
       (set_reviews
          (filter (fun r => match Review.product r with
                            | Some k => negb (mem k gone)
                            | None => true
                            end)) d)).

(** [store.delete()], with the [CASCADE] to its products. *)
Definition delete_store_row (k : uuid) (d : DB) : DB :=
  set_stores (filter (fun s => negb (String.eqb (Store.store_id s) k)))
    (delete_products (fun p => option_uuid_eqb (Product.store p) (Some k)) d).

Definition default_image : string := "product_images/default.webp".

(** The uploaded image, or the default of the model field. *)
Definition image_or_default (i : option string) : option string :=
  match i with
  | Some i => Some i
  | None => Some default_image
  end.

(** The image of a product after [update_product]: the uploaded file;
    without an upload the form is bound to the stored file, which stays,
    and the view sets the default only when the product has none. *)
Definition image_after_update (uploaded stored : option string)
  : option string :=
  match uploaded, stored with
  | Some i, _ => Some i
  | None, Some "" => Some default_image
  | None, Some i => Some i
  | None, None => Some default_image
  end.

(** [Product.objects.filter(product_name=n, store=s).exclude(pk=k)
    .exists()] *)
Definition name_taken (d : DB) (n : string) (s : option uuid) (k : uuid)
  : bool :=
  exists_ (products d)
    (fun p => String.eqb (Product.product_name p) n
              && option_uuid_eqb (Product.store p) s
              && negb (String.eqb (Product.product_id p) k)).

Definition duplicate_name_error : list (string * string) :=
  [("product_name", "Another product with this same name already exists.")].

Section Catalogue.
Context {fw : Framework}.

Definition store_form : string := "online_store/store_form.html".
Definition product_form : string := "online_store/product_form.html".

(** [create_store]; [new_id] is the [uuid4()] default of the new row.
    A view that falls off its end returns [None]. *)
Definition create_store (new_id : uuid) (request : Request)
  : M (option HttpResponse) :=
  match permitted request "online_store.add_store" with
  | Some user =>
    match method request with
    | POST =>
      match StoreForm_clean (POST_data request) with
      | inl (store_name, description) =>
        insert_store (Store.mk new_id (User.id user) store_name description) ;;;
        ret (Some (redirect "seller_home"))
      | inr errors => ret (Some (render store_form [("form", VForm errors)]))
      end
    | GET => ret (Some (render store_form [("form", VForm [])]))
    end
  | None => ret None
  end.

Definition update_store (request : Request) (pk : uuid)
  : M (option HttpResponse) :=
  match permitted request "online_store.change_store" with
  | Some user =>
    d <- get_db ;;
    match get_store d pk with
    | None => raise Http404
    | Some store =>
      match method request with
      | POST =>
        match StoreForm_clean (POST_data request) with
        | inl (store_name, description) =>
          modify_db (set_stores
            (map (fun s' => if String.eqb (Store.store_id s') pk
                            then Store.mk pk (Store.owner store)
                                          store_name description
                            else s'))) ;;;
          ret (Some (redirect "seller_home"))
        | inr errors =>
          ret (Some (render store_form [("form", VForm errors)]))
        end
      | GET => ret (Some (render store_form [("form", VForm [])]))
      end
    end
  | None => ret None
  end.

Definition delete_store (request : Request) (pk : uuid)
  : M (option HttpResponse) :=
  match permitted request "online_store.delete_store" with
  | Some user =>
    d <- get_db ;;
    match get_store d pk with
    | None => raise Http404
    | Some store =>
      modify_db (delete_store_row (Store.store_id store)) ;;;
      ret (Some (redirect "seller_home"))
    end
  | None => ret None
  end.

Definition update_product (request : Request) (pk : uuid)
  : M (option HttpResponse) :=
  match permitted request "online_store.change_product" with
  | Some user =>
    d <- get_db ;;
    match get_product d pk with
    | None => raise Http404
    | Some product =>
      match method request with
      | POST =>
        match ProductForm_clean (POST_data request) with
        | inl f =>
          let product_name := f_product_name f in
          let store := Product.store product in
          let image := image_after_update (f_image f) (Product.image product) in
          if name_taken d product_name store (Product.product_id product)
          then ret (Some (render product_form
                            [("form", VForm duplicate_name_error)]))
          else
            modify_db (set_products
              (map (fun p' =>
                      if String.eqb (Product.product_id p') pk
                      then Product.mk store pk product_name (f_price f)
                                      image (f_description f)
                      else p'))) ;;;
            ret (Some (redirect "seller_home"))
        | inr errors =>
          ret (Some (render product_form [("form", VForm errors)]))
        end
      | GET => ret (Some (render product_form [("form", VForm [])]))
      end
    end
  | None => ret None
  end.

Definition delete_product (request : Request) (pk : uuid)
  : M (option HttpResponse) :=
  match permitted request "online_store.delete_product" with
  | Some user =>
    d <- get_db ;;
    match get_product d pk with
    | None => raise Http404
    | Some product =>
      modify_db (delete_products
        (fun p => String.eqb (Product.product_id p)
                             (Product.product_id product))) ;;;
      ret (Some (redirect "seller_home"))
    end
  | None => ret None
  end.

Definition owned_by (u : User.t) (s : Store.t) : bool :=
  Nat.eqb (Store.owner s) (User.id u).

(** [create_product]; [new_id] is the [uuid4()] default of the new
    row. *)
Definition create_product (new_id : uuid) (request : Request)
  : M (option HttpResponse) :=
  match permitted request "online_store.add_product" with
  | Some user =>
    match method request with
    | POST =>
      match ProductForm_clean (POST_data request) with
      | inl f =>
        let product_name := f_product_name f in
        d <- get_db ;;
        store <- lift (objects_get "Store" (stores d) (owned_by user)) ;;
        if name_taken d product_name (Some (Store.store_id store)) new_id
        then ret (Some (render product_form
                          [("form", VForm duplicate_name_error)]))
        else
          (* [request.user.store], whose absence is an AttributeError *)
          match objects_get "Store" (stores d) (owned_by user) with
          | Return user_store =>
            insert_product
              (Product.mk (Some (Store.store_id user_store)) new_id
                 product_name (f_price f) (image_or_default (f_image f))
                 (f_description f)) ;;;
            ret (Some (redirect "seller_home"))
          | Raise _ =>
            ret (Some (render product_form
              [("form", VForm [("__all__",
                 "You do not have a store assigned to your account.")])]))
          end
      | inr errors =>
        ret (Some (render product_form [("form", VForm errors)]))
      end
    | GET => ret (Some (render product_form [("form", VForm [])]))
    end
  | None => ret None
  end.

(** [api.views.add_store], under [@api_view(["POST"])], basic
    authentication and [IsAuthenticated].  The framework authenticates
    and checks the permission classes before it looks for the handler of
    the method. *)
Definition add_store (new_id : uuid) (request : Request)
  : M HttpResponse :=
  match req_user request with
  | None => ret (JsonResponse 401
                   [("detail", "Authentication credentials were not provided.")])
  | Some user =>
    match method request with
    | GET => ret (JsonResponse 405 [("detail", "Method not allowed.")])
    | POST =>
      if negb (has_perm user "online_store.add_store") then
        ret (JsonResponse 403
               [("detail", "You do not permission to add a store")])
      else
        d <- get_db ;;
        if exists_ (stores d) (owned_by user) then
          ret (JsonResponse 400
                 [("error", "Each user may only own one store")])
        else
          match StoreSerializer_clean (POST_data request) with
          | inl (store_name, description) =>
            insert_store
              (Store.mk new_id (User.id user) store_name description) ;;;
            ret (JsonResponse 201
                   [("store_id", new_id); ("store_name", store_name);
                    ("description", description)])
          | inr errors => ret (JsonResponse 400 errors)
          end
    end
  end.

(** [api.views.add_product], under the same decorators; the permission
    it asks for is [add_store] (its docstring: used as proxy here). *)
Definition add_product (new_id : uuid) (request : Request)
  : M HttpResponse :=
  match req_user request with
  | None => ret (JsonResponse 401
                   [("detail", "Authentication credentials were not provided.")])
  | Some user =>
    match method request with
    | GET => ret (JsonResponse 405 [("detail", "Method not allowed.")])
    | POST =>
      if negb (has_perm user "online_store.add_store") then
        ret (JsonResponse 403
               [("detail", "You do not have permission to create a product")])
      else
        d <- get_db ;;
        if negb (exists_ (stores d) (owned_by user)) then
          ret (JsonResponse 400 [("detail", "User does not own a Store")])
        else
          match ProductSerializer_clean (POST_data request) with
          | inl f =>
            store <- lift (objects_get "Store" (stores d) (owned_by user)) ;;
            let taken :=
              match dict_get (POST_data request) "product_name" with
              | Some product_name =>
                  exists_ (products d)
                    (fun p => String.eqb (Product.product_name p) product_name
                              && option_uuid_eqb (Product.store p)
                                   (Some (Store.store_id store)))
              | None => false
              end in
            if taken then
              ret (JsonResponse 400
                [("error", "Store already has a product with that name.")])
            else
              insert_product
                (Product.mk (Some (Store.store_id store)) new_id
                   (f_product_name f) (f_price f)
                   (image_or_default (f_image f)) (f_description f)) ;;;
              ret (JsonResponse 201
                     [("product_id", new_id);
                      ("product_name", f_product_name f);
                      ("description", f_description f)])
          | inr errors => ret (JsonResponse 400 errors)
          end
    end
  end.

End Catalogue.

(* ===================================================================== *)
(** * Vocabulary of the statements *)
(* ===================================================================== *)

(** The session cart, [request.session.get("cart", {})]. *)
Definition session_cart (w : World) : dict Z :=
  match s_cart (session w) with
  | Some c => c
  | None => []
  end.

(** [d.get(k, 0)] *)
Definition quantity_in (c : dict Z) (k : string) : Z :=
  match dict_get c k with
  | Some q => q
  | None => 0
  end.

(** Rows of [CartItem] for the cart [c] and the product [p]. *)
Definition rows_of (d : DB) (c : pk) (p : uuid) : list CartItem.t :=
  filter (item_of c p) (cart_items d).

(** Total quantity of the product [p] in the persisted cart [c]. *)
Definition cart_quantity (d : DB) (c : pk) (p : uuid) : Z :=
  fold_right (fun r acc => CartItem.quantity r + acc) 0 (rows_of d c p).

(** Integrity of [CartItem]: primary keys are distinct and below the
    sequence, and no two rows share their (cart, product) pair — the state
    that [get_or_create] maintains. *)
Definition cart_items_wf (d : DB) : Prop :=
  NoDup (map CartItem.id (cart_items d))
  /\ NoDup (map (fun r => (CartItem.cart r, CartItem.items r)) (cart_items d))
  /\ Forall (fun r => (CartItem.id r < sequence d)%nat) (cart_items d).

(** The world with the rows of [CartItem] and the sequence blanked: two
    worlds that agree on it differ at most there. *)
Definition besides_cart_items (w : World) : World :=
  mkWorld
    (mkDB (users (db w)) (stores (db w)) (products (db w)) (carts (db w)) []
          (reviews (db w)) (orders (db w)) (order_items (db w))
          (reset_tokens (db w)) 0)
    (session w) (messages w).

(** The cart [c] holds exactly one row for the product [p], of quantity
    [q]: "CartItem(p, q)". *)
Definition cart_item_is (d : DB) (c : pk) (p : uuid) (q : Z) : Prop :=
  exists r, rows_of d c p = [r] /\ CartItem.quantity r = q.

(** [Cart.user] is a [OneToOneField]. *)
Definition carts_wf (d : DB) : Prop := NoDup (map Cart.user (carts d)).

(** The cart of the user [u], when the user has exactly one. *)
Definition cart_of (d : DB) (u : User.t) : option Cart.t :=
  match objects_get "Cart" (carts d)
          (fun c => Nat.eqb (Cart.user c) (User.id u)) with
  | Return c => Some c
  | Raise _ => None
  end.

(** The [OrderItem] rows that checkout writes for the cart lines, with
    primary keys from [first] on. *)
Fixpoint order_lines (first order : pk)
  (lines : list (CartItem.t * Product.t)) : list OrderItem.t :=
  match lines with
  | [] => []
  | (item, product) :: rest =>
      OrderItem.mk first order (Product.product_name product)
        (CartItem.quantity item)
        (Product.price product * CartItem.quantity item)
      :: order_lines (S first) order rest
  end.

(** The rows of [CartItem] in the cart [c]: [cart.cartitem_set.all()]. *)
Definition cartitem_set (d : DB) (c : Cart.t) : list CartItem.t :=
  filter (fun r => Nat.eqb (CartItem.cart r) (Cart.id c)) (cart_items d).

(** The login page [reset_password] redirects to. *)
Definition login_page (u : User.t) : string :=
  if in_group u "Vendors" then "login_vendor"
  else if in_group u "Buyers" then "login_buyer"
  else "home".

(** The rows of [ResetToken] that store the hash of the raw token. *)
Definition tokens_for {fw : Framework} (d : DB) (raw : string)
  : list ResetToken.t :=
  filter (has_token (sha1_hexdigest raw)) (reset_tokens d).

(** The accounts with the user name [name]. *)
Definition users_named (d : DB) (name : string) : list User.t :=
  filter (fun u => String.eqb (User.username u) name) (users d).

Definition password_reset_page (context : list (string * ctx_value))
  : HttpResponse :=
  render "online_store/password_reset.html" context.

(** The reset handshake kept in the session. *)
Definition handshake (w : World) : option string * option string :=
  (s_user (session w), s_token (session w)).

(** The catalogue mutations: the six web views and the two API
    endpoints, with the [uuid4()] drawn or the key from the URL. *)
Inductive catalogue_op :=
| CreateStore (new_id : uuid)
| UpdateStore (pk : uuid)
| DeleteStore (pk : uuid)
| CreateProduct (new_id : uuid)
| UpdateProduct (pk : uuid)
| DeleteProduct (pk : uuid)
| ApiAddStore (new_id : uuid)
| ApiAddProduct (new_id : uuid).

Definition run_op {fw : Framework} (op : catalogue_op) (request : Request)
  : M (option HttpResponse) :=
  match op with
  | CreateStore i => create_store i request
  | UpdateStore k => update_store request k
  | DeleteStore k => delete_store request k
  | CreateProduct i => create_product i request
  | UpdateProduct k => update_product request k
  | DeleteProduct k => delete_product request k
  | ApiAddStore i => bind (add_store i request) (fun r => ret (Some r))
  | ApiAddProduct i => bind (add_product i request) (fun r => ret (Some r))
  end.

(** The permission that goes with the operation by its name: Django's
    add / change / delete permission of the model. *)
Definition named_permission (op : catalogue_op) : string :=
  match op with
  | CreateStore _ | ApiAddStore _ => "online_store.add_store"
  | UpdateStore _ => "online_store.change_store"
  | DeleteStore _ => "online_store.delete_store"
  | CreateProduct _ | ApiAddProduct _ => "online_store.add_product"
  | UpdateProduct _ => "online_store.change_product"
  | DeleteProduct _ => "online_store.delete_product"
  end.

(** The permission the handler passes to [has_perm]. *)
Definition checked_permission (op : catalogue_op) : string :=
  match op with
  | ApiAddProduct _ => "online_store.add_store"
  | _ => named_permission op
  end.

Definition is_api (op : catalogue_op) : bool :=
  match op with
  | ApiAddStore _ | ApiAddProduct _ => true
  | _ => false
  end.

(** A response that redirects, or denies with 401, 403 or 405. *)
Definition redirect_or_denial (r : result (option HttpResponse)) : Prop :=
  match r with
  | Return (Some (redirect _)) | Return (Some (redirect_pk _ _)) => True
  | Return (Some HttpResponseNotAllowed) => True
  | Return (Some (JsonResponse status _)) =>
      status = 401%nat \/ status = 403%nat \/ status = 405%nat
  | _ => False
  end.

(** The permission gate as the specification words it: without the
    permission named after the operation, no write and a redirect or a
    denial. *)
Definition gate_by_named_permission (fw : Framework) : Prop :=
  forall op request w,
    permitted request (named_permission op) = None ->
    db (snd (run_op op request w)) = db w
    /\ redirect_or_denial (fst (run_op op request w)).

(** A product of the store [s] has the name [n]. *)
Definition store_has_name (d : DB) (s : uuid) (n : string) : Prop :=
  exists p, In p (products d) /\ Product.product_name p = n
            /\ Product.store p = Some s.

(** A quantity that is not an integer of at least 1. *)
Definition bad_quantity {fw : Framework} (request : Request) : Prop :=
  int_quantity request = None
  \/ exists q, int_quantity request = Some q /\ q < 1.

(** The same request sent without a login. *)
Definition anonymous (request : Request) : Request :=
  mkRequest None (method request) (POST_data request).

(* ===================================================================== *)
(** * A reference framework and sample data, to run the handlers *)
(* ===================================================================== *)

Module Sample.

Fixpoint digits (s : string) (acc : Z) : option Z :=
  match s with
  | EmptyString => Some acc
  | String c s' =>
      let n := Z.of_nat (Ascii.nat_of_ascii c) in
      if (48 <=? n) && (n <=? 57) then digits s' (10 * acc + (n - 48))
      else None
  end.

(** Decimal literals with an optional sign. *)
Definition int (s : string) : option Z :=
  match s with
  | EmptyString => None
  | String "-"%char EmptyString => None
  | String "-"%char r => option_map Z.opp (digits r 0)
  | _ => digits s 0
  end.

Definition required (data : QueryDict) (k : string)
  : string + list (string * string) :=
  match dict_get data k with
  | None | Some "" => inr [(k, "This field is required.")]
  | Some v => inl v
  end.

Definition clean_store (data : QueryDict)
  : (string * string) + list (string * string) :=
  match required data "store_name", required data "description" with
  | inl n, inl d => inl (n, d)
  | inr e, _ => inr e
  | _, inr e => inr e
  end.

Definition clean_product (data : QueryDict)
  : ProductFields + list (string * string) :=
  match required data "product_name", required data "price",
        required data "description" with
  | inl n, inl p, inl d =>
      match int p with
      | Some cents => inl (mkProductFields n cents d (dict_get data "image"))
      | None => inr [("price", "Enter a number.")]
      end
  | inr e, _, _ => inr e
  | _, inr e, _ => inr e
  | _, _, inr e => inr e
  end.

Definition alphanumeric (c : ascii) : bool :=
  let n := Z.of_nat (Ascii.nat_of_ascii c) in
  (48 <=? n) && (n <=? 57) || (65 <=? n) && (n <=? 90)
  || (97 <=? n) && (n <=? 122).

Fixpoint word (s : string) : bool :=
  match s with
  | EmptyString => true
  | String c s' => alphanumeric c && word s'
  end.

(** Keys of the sample data are words of letters and digits.  A key may
    come with the prefix of a URN, which the parser drops. *)
Definition key (s : string) : option uuid :=
  let k := if String.prefix "urn:uuid:" s
           then String.substring 9 (String.length s - 9) s else s in
  match k with
  | EmptyString => None
  | _ => if word k then Some k else None
  end.

Definition framework : Framework := {|
  py_int := int;
  sha1_hexdigest := fun s => String.append "sha1:" s;
  to_uuid := key;
  StoreForm_clean := clean_store;
  ProductForm_clean := clean_product;
  StoreSerializer_clean := clean_store;
  ProductSerializer_clean := clean_product
|}.

Definition post (u : option User.t) (data : QueryDict) : Request :=
  mkRequest u POST data.

Definition empty_db : DB := mkDB [] [] [] [] [] [] [] [] [] 1.
Definition empty_session : Session := mkSession None None None.

Definition buyer : User.t :=
  User.mk 1 "bea" "bea@example.org" (Some "old-secret") ["Buyers"] [].

Definition vendor : User.t :=
  User.mk 2 "vic" "vic@example.org" (Some "vendor-secret") ["Vendors"]
    ["online_store.view_product"; "online_store.add_product";
     "online_store.change_product"; "online_store.delete_product";
     "online_store.view_store"; "online_store.add_store";
     "online_store.change_store"; "online_store.delete_store"].

Definition mug : Product.t :=
  Product.mk (Some "store-1") "A" "Mug" 1000 None "A mug".
Definition pen : Product.t :=
  Product.mk (Some "store-1") "B" "Pen" 500 None "A pen".

Definition fresh_world : World := mkWorld empty_db empty_session [].

(** The buyer holds a reset token for the raw token ["r4nd0m"], valid
    until time 300, and has opened the reset link. *)
Definition resetting : World :=
  mkWorld
    (mkDB [buyer] [] [] [] [] [] [] []
          [ResetToken.mk 1 1 "sha1:r4nd0m" 300 false] 2)
    (mkSession None (Some "bea") (Some "r4nd0m")) [].

(** A shop with two products; the buyer has a cart. *)
Definition shop (items : list CartItem.t) (next : pk) : DB :=
  mkDB [buyer] [] [mug; pen] [Cart.mk 1 1] items [] [] [] [] next.

(** The buyer at the checkout with 2 mugs and 1 pen in the cart. *)
Definition at_checkout : World :=
  mkWorld (shop [CartItem.mk 2 1 "A" 2; CartItem.mk 3 1 "B" 1] 4)
          empty_session [].

(** An account that may add stores and nothing else; it owns store 2. *)
Definition storekeeper : User.t :=
  User.mk 3 "wes" "wes@example.org" (Some "keeper-secret") []
    ["online_store.add_store"].

(** Two stores sell a product called "Mug": product ["A"] of store 1
    and product ["C"] of store 2.  The cart of the buyer holds one
    ["C"] and nothing else. *)
Definition namesake : Product.t :=
  Product.mk (Some "store-2") "C" "Mug" 1200 None "Another mug".

Definition two_mugs : World :=
  mkWorld
    (mkDB [buyer; vendor; storekeeper]
          [Store.mk "store-1" 2 "Vic's" "Crockery";
           Store.mk "store-2" 3 "Wes's" "More crockery"]
          [mug; pen; namesake] [Cart.mk 1 1] [CartItem.mk 2 1 "C" 1]
          [] [] [] [] 3)
    empty_session [].

Definition review_form : QueryDict :=
  [("rating", "5"); ("comment", "Great")].

Definition product_form_data : QueryDict :=
  [("product_name", "Jug"); ("price", "1500"); ("description", "A jug")].

Definition store_form_data : QueryDict :=
  [("store_name", "Second shop"); ("description", "More crockery")].

(** The buyer is about to log in with a session cart [{A: 2, B: 1}] and
    a stale entry for a product that is gone. *)
Definition before_login (items : list CartItem.t) (next : pk) : World :=
  mkWorld (shop items next)
    (mkSession (Some [("A", 2); ("B", 1); ("gone", 4)]) None None) [].

End Sample.

(* ===================================================================== *)
(** * The other views of the same modules *)
(* ===================================================================== *)

(** Values of the template contexts of the read views. *)
Inductive page_value :=
| PStr (s : string)
| PLines (l : list (Product.t * Z * Decimal))
| PDecimal (d : Decimal)
| PProduct (p : Product.t)
| PProducts (l : option (list Product.t))
| PStore (s : option Store.t)
| PReviews (l : list Review.t)
| POrders (l : list Order.t).

(** Bodies of the API responses: serialized rows ([fields = "__all__"]),
    or an error object. *)
Inductive json :=
| JStores (l : list Store.t)
| JStore (s : Store.t)
| JProducts (l : list Product.t)
| JReviews (l : list Review.t)
| JObject (fields : list (string * string)).

Inductive Response :=
| Plain (r : HttpResponse)
| Page (status : nat) (template : string)
       (context : list (string * page_value))
| Json (status : nat) (body : json).

(** [d.pop(k, None)] *)
Fixpoint dict_pop {V} (d : dict V) (k : string) : dict V :=
  match d with
  | [] => []
  | (k', v') :: d' =>
      if String.eqb k' k then d' else (k', v') :: dict_pop d' k
  end.

(** [request.POST.get(k)] when it is truthy: present and not empty. *)
Definition posted (request : Request) (k : string) : option string :=
  match dict_get (POST_data request) k with
  | None | Some "" => None
  | Some v => Some v
  end.

(** [sum(d.values())] *)
Definition sum_values (d : dict Z) : Z :=
  fold_left (fun acc e => acc + snd e) d 0.

(** [CartItem.objects.filter(cart=cart).select_related('items')]: the
    rows of the cart joined with their products. *)
Fixpoint select_related_items (d : DB) (l : list CartItem.t)
  : list (CartItem.t * Product.t) :=
  match l with
  | [] => []
  | item :: l' =>
      match get_product d (CartItem.items item) with
      | Some p => (item, p) :: select_related_items d l'
      | None => select_related_items d l'
      end
  end.

(** The dict of one line of the cart page: product, quantity, subtotal. *)
Definition cart_line (product : Product.t) (quantity : Z)
  : Product.t * Z * Decimal :=
  (product, quantity, Product.price product * quantity).

(** [sum(item["subtotal"] for item in cart_items)] *)
Definition sum_subtotals (lines : list (Product.t * Z * Decimal)) : Decimal :=
  fold_left (fun acc line => acc + snd line) lines 0.

Section MoreCartViews.
Context {fw : Framework}.

(** [int(request.POST.get(f"quantity_{product_id}"))]; [None] stands for
    the [TypeError] of a missing field and the [ValueError] of a value
    that is no integer, both caught by the callers. *)
Definition posted_quantity (request : Request) (product_id : string)
  : option Z :=
  match dict_get (POST_data request) (String.append "quantity_" product_id) with
  | None => None
  | Some s => py_int s
  end.

(** [update_db_cart], under [@require_POST] and [@login_required].
    The three lookups take [items=product_id] with the posted string,
    whose [ValidationError] neither [except] clause of the view catches.
    When no row exists for the product, [get_or_create] goes on to
    [CartItem(cart=cart, items=product_id, ...)]; [items] is a foreign key
    and [product_id] a string, so the constructor raises [ValueError],
    which the [except (ValueError, TypeError)] of the view swallows. *)
Definition update_db_cart (request : Request) : M HttpResponse :=
  match method request with
  | GET => ret HttpResponseNotAllowed
  | POST =>
    match req_user request with
    | None => ret (redirect "login")
    | Some user =>
      cart <- get_or_create_cart user ;;
      match posted request "remove_item" with
      | Some product_id =>
        k <- lookup_key product_id ;;
        d <- get_db ;;
        match objects_get "CartItem" (cart_items d)
                (item_of (Cart.id cart) k) with
        | Return item =>
          modify_db (set_cart_items
            (filter (fun r => negb (Nat.eqb (CartItem.id r)
                                            (CartItem.id item))))) ;;;
          ret (redirect "view_cart")
        | Raise (DoesNotExist _) => ret (redirect "view_cart")
        | Raise e => raise e
        end
      | None =>
        match posted request "update_item" with
        | Some product_id =>
          match posted_quantity request product_id with
          | None => ret (redirect "view_cart")
          | Some quantity =>
            if 0 <? quantity then
              k <- lookup_key product_id ;;
              d <- get_db ;;
              match objects_get "CartItem" (cart_items d)
                      (item_of (Cart.id cart) k) with
              | Return item =>
                save_cart_item (set_quantity item quantity) ;;;
                ret (redirect "view_cart")
              | Raise (DoesNotExist _) => ret (redirect "view_cart")
              | Raise e => raise e
              end
            else
              k <- lookup_key product_id ;;
              modify_db (set_cart_items
                (filter (fun r => negb (item_of (Cart.id cart) k r)))) ;;;
              ret (redirect "view_cart")
          end
        | None => ret (redirect "view_cart")
        end
      end
    end
  end.

(** [update_cart], under [@require_POST]. *)
Definition update_cart (request : Request) : M HttpResponse :=
  match method request with
  | GET => ret HttpResponseNotAllowed
  | POST =>
    if is_authenticated (req_user request) then
      update_db_cart request ;;;
      ret (redirect "view_cart")
    else
      s <- get_session ;;
      let cart := match s_cart s with Some c => c | None => [] end in
      match posted request "remove_item" with
      | Some product_id =>
        put_session (mkSession (Some (dict_pop cart product_id))
                               (s_user s) (s_token s)) ;;;
        ret (redirect "view_cart")
      | None =>
        match posted request "update_item" with
        | Some product_id =>
          let cart :=
            match posted_quantity request product_id with
            | Some quantity =>
                if 0 <? quantity then dict_set cart product_id quantity
                else dict_pop cart product_id
            | None => cart
            end in
          put_session (mkSession (Some cart) (s_user s) (s_token s)) ;;;
          ret (redirect "view_cart")
        | None => ret (redirect "view_cart")
        end
      end
  end.

End MoreCartViews.

(** [view_cart_db]: the dict it returns, as (cart_items, total). *)
Definition view_cart_db (user : User.t)
  : M (list (Product.t * Z * Decimal) * Decimal) :=
  d <- get_db ;;
  match objects_get "Cart" (carts d)
          (fun c => Nat.eqb (Cart.user c) (User.id user)) with
  | Return cart =>
    let items :=
      select_related_items d
        (filter (fun r => Nat.eqb (CartItem.cart r) (Cart.id cart))
                (cart_items d)) in
    let cart_items :=
      map (fun ip => cart_line (snd ip) (CartItem.quantity (fst ip))) items in
    ret (cart_items, sum_subtotals cart_items)
  | Raise (DoesNotExist _) => ret ([], 0)
  | Raise e => raise e
  end.

Definition cart_page (cart_items : list (Product.t * Z * Decimal))
  (total : Decimal) : Response :=
  Page 200 "online_store/cart.html"
    [("cart_items", PLines cart_items); ("total", PDecimal total)].

(** [view_cart] *)
Definition view_cart (request : Request) : M Response :=
  match req_user request with
  | Some user =>
    items <- view_cart_db user ;;
    ret (cart_page (fst items) (snd items))
  | None =>
    s <- get_session ;;
    d <- get_db ;;
    let cart := match s_cart s with Some c => c | None => [] end in
    let product_ids :=
      filter (fun pid => negb (String.eqb pid "")) (map fst cart) in
    let products :=
      filter (fun p => mem (Product.product_id p) product_ids) (products d) in
    let cart_items :=
      map (fun product =>
             cart_line product
               (match dict_get cart (Product.product_id product) with
                | Some qty => qty
                | None => 0
                end)) products in
    ret (cart_page cart_items (sum_subtotals cart_items))
  end.

(** [context_processors.cart_context]: the number shown on the cart
    badge. *)
Definition cart_context (request : Request) : M Z :=
  match req_user request with
  | Some user =>
    d <- get_db ;;
    match objects_get "Cart" (carts d)
            (fun c => Nat.eqb (Cart.user c) (User.id user)) with
    | Return cart =>
      ret (fold_left (fun acc item => acc + CartItem.quantity item)
             (filter (fun r => Nat.eqb (CartItem.cart r) (Cart.id cart))
                     (cart_items d)) 0)
    | Raise (DoesNotExist _) => ret 0
    | Raise e => raise e
    end
  | None =>
    s <- get_session ;;
    ret (sum_values (match s_cart s with Some c => c | None => [] end))
  end.

(* --------------------------------------------------------------------- *)
(** ** Issue of a reset token ([views/password_reset_views.py]) *)

Definition reset_link (raw : string) : string :=
  String.append "http://127.0.0.1:8000/swift_basket/reset_password/"
    (String.append raw "/").

Definition forgot_page : HttpResponse :=
  render "online_store/forgot_your_password.html" [].

Section IssueToken.
Context {fw : Framework}.

(** [generate_reset_url]; [now] is [datetime.now()] in seconds and [raw]
    the value of [secrets.token_urlsafe(16)].  The token lives five
    minutes. *)
Definition generate_reset_url (now : Z) (raw : string) (user : User.t)
  : M string :=
  i <- next_id ;;
  modify_db (set_reset_tokens (fun l => l ++
    [ResetToken.mk i (User.id user) (sha1_hexdigest raw) (now + 300) false])) ;;;
  ret (reset_link raw).

(** [send_password_reset]; [email.send()] raises unless [delivered]. *)
Definition send_password_reset (now : Z) (raw : string) (delivered : bool)
  (request : Request) : M HttpResponse :=
  match method request with
  | POST =>
    d <- get_db ;;
    let found :=
      match dict_get (POST_data request) "email" with
      | Some user_email =>
          objects_get "User" (users d)
            (fun u => String.eqb (User.email u) user_email)
      | None => Raise (DoesNotExist "User")
      end in
    match found with
    | Return user =>
      url <- generate_reset_url now raw user ;;
      send_email delivered ;;;
      add_message SUCCESS
        "An email was sent to you with a password reset link." ;;;
      ret forgot_page
    | Raise (DoesNotExist _) =>
      add_message ERROR "No account found with that email." ;;;
      ret forgot_page
    | Raise e => raise e
    end
  | GET => ret forgot_page
  end.

End IssueToken.

(* --------------------------------------------------------------------- *)
(** ** Listings ([views/review_views.py], [views/order_views.py],
       [views/store_views.py], [views/product_views.py]) *)

Definition review_of (p : uuid) (r : Review.t) : bool :=
  option_uuid_eqb (Review.product r) (Some p).

(** [product_reviews_view] *)
Definition product_reviews_view (request : Request) (pk : uuid)
  : M Response :=
  d <- get_db ;;
  match get_product d pk with
  | None => raise Http404
  | Some product =>
    ret (Page 200 "online_store/product_reviews.html"
           [("product", PProduct product);
            ("reviews",
             PReviews (filter (review_of (Product.product_id product))
                              (reviews d)))])
  end.

(** The largest amount, in cents, of a
    [DecimalField(max_digits=10, decimal_places=2)]. *)
Definition max_decimal : Decimal := 9999999999.

(** Reading a decimal column: the stored value is quantized in a context
    of [max_digits] digits, and a value of more digits ends in
    [decimal.InvalidOperation].  Writing does not check the digits. *)
Definition readable (x : Decimal) : bool := Z.abs x <=? max_decimal.

(** [user_orders_view].  Rows are kept oldest first and [auto_now_add]
    stamps grow with them: [order_by("-date_created_at")] is the reverse
    order of the rows.  The page reads the orders it lists. *)
Definition user_orders_view (request : Request) : M Response :=
  d <- get_db ;;
  match req_user request with
  | None => raise TypeError
  | Some user =>
    let listed :=
      rev (filter (fun o => Nat.eqb (Order.user o) (User.id user))
                  (orders d)) in
    if forallb (fun o => readable (Order.total_price o)) listed
    then ret (Page 200 "online_store/orders/user_orders.html"
                [("orders", POrders listed)])
    else raise InvalidOperation
  end.

(** [seller_home]; [user.store] is the reverse of the one-to-one
    [owner]. *)
Definition seller_home (request : Request) : M Response :=
  match permitted request "online_store.view_store" with
  | Some user =>
    d <- get_db ;;
    match objects_get "Store" (stores d)
            (fun s => Nat.eqb (Store.owner s) (User.id user)) with
    | Return store =>
      ret (Page 200 "online_store/seller_home.html"
             [("store", PStore (Some store));
              ("products",
               PProducts (Some
                 (filter (fun p => option_uuid_eqb (Product.store p)
                                     (Some (Store.store_id store)))
                         (products d))));
              ("page_title", PStr "Seller home")])
    | Raise (DoesNotExist _) =>
      ret (Page 200 "online_store/seller_home.html"
             [("store", PStore None); ("products", PProducts None);
              ("page_title", PStr "Seller home")])
    | Raise e => raise e
    end
  | None =>
    add_message ERROR "You do not have a vendors account. Register now." ;;;
    ret (Plain (redirect "register_vendor"))
  end.

(* --------------------------------------------------------------------- *)
(** ** Read endpoints of the API ([api/views.py]) *)

Definition method_not_allowed : Response :=
  Json 405 (JObject [("detail", "Method not allowed.")]).

(** [api.views.view_stores] *)
Definition view_stores (request : Request) : M Response :=
  match method request with
  | POST => ret method_not_allowed
  | GET => d <- get_db ;; ret (Json 200 (JStores (stores d)))
  end.

(** [api.views.view_store]: [get_object_or_404] runs inside the [try], and
    [Http404] is an [Exception]. *)
Definition view_store (request : Request) (pk : uuid) : M Response :=
  match method request with
  | POST => ret method_not_allowed
  | GET =>
    d <- get_db ;;
    match get_store d pk with
    | Some store => ret (Json 200 (JStore store))
    | None =>
      ret (Json 500
             (JObject [("error", "An error occurred when retrieving this store");
                       ("details", "No Store matches the given query.")]))
    end
  end.

(** [api.views.view_product] *)
Definition api_view_product (request : Request) (pk : uuid) : M Response :=
  match method request with
  | POST => ret method_not_allowed
  | GET =>
    d <- get_db ;;
    let with_pk := fun p => String.eqb (Product.product_id p) pk in
    if negb (exists_ (products d) with_pk)
    then ret (Json 404 (JObject [("detail", "Product not found")]))
    else ret (Json 200 (JProducts (filter with_pk (products d))))
  end.

(** [api.views.review_view] *)
Definition review_view (request : Request) (pk : uuid) : M Response :=
  match method request with
  | POST => ret method_not_allowed
  | GET =>
    d <- get_db ;;
    if negb (exists_ (reviews d) (review_of pk))
    then ret (Json 404 (JObject [("detail", "No reviews found")]))
    else ret (Json 200 (JReviews (filter (review_of pk) (reviews d))))
  end.

(* --------------------------------------------------------------------- *)
(** ** Vocabulary of the further statements *)




(** Keys of the catalogue: primary keys, one store per owner, one name
    per store. *)
Definition catalogue_wf (d : DB) : Prop :=
  NoDup (map Store.store_id (stores d))
  /\ NoDup (map Store.owner (stores d))
  /\ NoDup (map Product.product_id (products d))
  /\ NoDup (map (fun p => (Product.store p, Product.product_name p))
                (products d)).

(** The name the API checks is the name it stores: the posted
    [product_name] comes out of the serializer unchanged. *)
Definition posted_name_is_clean {fw : Framework} (request : Request) : Prop :=
  forall f, ProductSerializer_clean (POST_data request) = inl f ->
            dict_get (POST_data request) "product_name"
            = Some (f_product_name f).

(** Every foreign key points to a row. *)
Definition references_wf (d : DB) : Prop :=
  Forall (fun r => get_product d (CartItem.items r) <> None) (cart_items d)
  /\ Forall (fun r => match Review.product r with
                      | Some k => get_product d k <> None
                      | None => True
                      end) (reviews d)
  /\ Forall (fun p => match Product.store p with
                      | Some k => get_store d k <> None
                      | None => True
                      end) (products d).

(** An anonymous POST with the form data [data]. *)
Definition anonymous_post (data : QueryDict) : Request :=
  mkRequest None POST data.

(* ===================================================================== *)
(** * Properties *)
(* ===================================================================== *)

(** ** Dictionaries *)

Lemma dict_get_set_same {V} (d : dict V) k v :
  dict_get (dict_set d k v) k = Some v.
Proof.
  induction d as [|[k' v'] d IH]; simpl.
  - now rewrite String.eqb_refl.
  - destruct (String.eqb k' k) eqn:E; simpl.
    + now rewrite String.eqb_refl.
    + now rewrite E.
Qed.

Lemma dict_get_set_other {V} (d : dict V) k k' v :
  k' <> k -> dict_get (dict_set d k v) k' = dict_get d k'.
Proof.
  intros Hne. induction d as [|[k0 v0] d IH]; simpl.
  - destruct (String.eqb_spec k k'); congruence.
  - destruct (String.eqb_spec k0 k); simpl.
    + subst. destruct (String.eqb_spec k k'); congruence.
    + destruct (String.eqb_spec k0 k'); auto.
Qed.

Lemma dict_set_keys_present {V} (d : dict V) k v v0 :
  dict_get d k = Some v0 -> map fst (dict_set d k v) = map fst d.
Proof.
  induction d as [|[k' v'] d IH]; simpl; [discriminate|].
  destruct (String.eqb_spec k' k); simpl; intros H.
  - now subst.
  - now rewrite IH.
Qed.

Lemma dict_set_keys_absent {V} (d : dict V) k v :
  dict_get d k = None -> map fst (dict_set d k v) = map fst d ++ [k].
Proof.
  induction d as [|[k' v'] d IH]; simpl; [reflexivity|].
  destruct (String.eqb_spec k' k); simpl; intros H; [discriminate|].
  now rewrite IH.
Qed.

Lemma dict_get_None_not_key {V} (d : dict V) k :
  dict_get d k = None <-> ~ In k (map fst d).
Proof.
  induction d as [|[k' v'] d IH]; simpl.
  - tauto.
  - destruct (String.eqb_spec k' k).
    + split; [discriminate | intros H; exfalso; apply H; now left].
    + rewrite IH. tauto.
Qed.

Lemma NoDup_snoc {A} (l : list A) x :
  NoDup l -> ~ In x l -> NoDup (l ++ [x]).
Proof.
  intros Hl Hx. induction Hl as [|y l Hy Hl IH]; simpl.
  - constructor; [tauto | constructor].
  - constructor.
    + rewrite in_app_iff. simpl. intros [H|[H|[]]]; [tauto|].
      subst. apply Hx. now left.
    + apply IH. intros H. apply Hx. now right.
Qed.

(** Keys stay distinct under the update the session cart performs. *)
Lemma dict_set_NoDup {V} (d : dict V) k v :
  NoDup (map fst d) -> NoDup (map fst (dict_set d k v)).
Proof.
  intros H. destruct (dict_get d k) eqn:E.
  - now rewrite (dict_set_keys_present d k v _ E).
  - rewrite (dict_set_keys_absent d k v E).
    apply NoDup_snoc; [assumption | now apply dict_get_None_not_key].
Qed.

(** ** The session cart *)

Section SessionCart.
Context {fw : Framework}.

(** An accepted anonymous add writes [old + quantity] under the key. *)
Lemma add_item_to_cart_anonymous request w item q :
  req_user request = None ->
  dict_get (POST_data request) "item" = Some item -> item <> "" ->
  int_quantity request = Some q -> 1 <= q ->
  add_item_to_cart request w =
    (Return (redirect "view_cart"),
     mkWorld (db w)
       (mkSession
          (Some (dict_set (session_cart w) item
                   (quantity_in (session_cart w) item + q)))
          (s_user (session w)) (s_token (session w)))
       (messages w)).
Proof.
  intros Hu Hi Hne Hq Hq1.
  unfold add_item_to_cart. rewrite Hu. simpl. rewrite Hq.
  destruct (Z.ltb_spec q 1); [lia|]. rewrite Hi.
  destruct item as [|a item]; [congruence|].
  unfold bind, get_session, put_session, ret, session_cart, quantity_in.
  simpl. destruct (s_cart (session w)) as [c|]; simpl.
  - destruct (dict_get c (String a item)); reflexivity.
  - reflexivity.
Qed.

(** A refused anonymous add answers 400 and writes nothing. *)
Lemma add_item_to_cart_rejects request w :
  req_user request = None -> bad_quantity request ->
  exists content,
    add_item_to_cart request w = (Return (HttpResponseBadRequest content), w).
Proof.
  intros Hu [Hq | [q [Hq Hlt]]]; unfold add_item_to_cart; rewrite Hu; simpl;
    rewrite Hq.
  - eexists. reflexivity.
  - destruct (Z.ltb_spec q 1); [|lia]. eexists. reflexivity.
Qed.

End SessionCart.

(** C9.  Anonymous (session) cart: two accepted adds of one product id
    leave one entry under that key holding the sum of the quantities (on
    top of what was there), the other entries untouched; an add whose
    quantity is not an integer, or is below 1, is answered with
    [HttpResponseBadRequest] and leaves the world, hence the session cart,
    as it was. *)
Theorem session_cart_add_accumulates_or_rejects (fw : Framework) :
  (forall (w : World) (first second : Request) (item : string) (q1 q2 : Z),
      req_user first = None -> req_user second = None ->
      dict_get (POST_data first) "item" = Some item ->
      dict_get (POST_data second) "item" = Some item ->
      item <> "" ->
      int_quantity first = Some q1 -> 1 <= q1 ->
      int_quantity second = Some q2 -> 1 <= q2 ->
      NoDup (map fst (session_cart w)) ->
      exists w1 w2,
        add_item_to_cart first w = (Return (redirect "view_cart"), w1)
        /\ add_item_to_cart second w1 = (Return (redirect "view_cart"), w2)
        /\ dict_get (session_cart w2) item
           = Some (quantity_in (session_cart w) item + q1 + q2)
        /\ NoDup (map fst (session_cart w2))
        /\ (forall k, k <> item ->
              dict_get (session_cart w2) k = dict_get (session_cart w) k)
        /\ db w2 = db w)
  /\ (forall (w : World) (request : Request),
        req_user request = None -> bad_quantity request ->
        exists content,
          add_item_to_cart request w
          = (Return (HttpResponseBadRequest content), w)).
Proof.
  split.
  - intros w first second item q1 q2 Hu1 Hu2 Hi1 Hi2 Hne Hq1 Hp1 Hq2 Hp2 Hnd.
    eexists. eexists.
    split; [apply (add_item_to_cart_anonymous first w _ _ Hu1 Hi1 Hne Hq1 Hp1)|].
    split; [apply (add_item_to_cart_anonymous second _ _ _ Hu2 Hi2 Hne Hq2 Hp2)|].
    set (c := session_cart w).
    unfold session_cart; simpl. unfold session_cart; simpl.
    rewrite !dict_get_set_same.
    repeat split.
    + unfold quantity_in at 1. now rewrite dict_get_set_same.
    + now apply dict_set_NoDup, dict_set_NoDup.
    + intros k Hk. now rewrite !dict_get_set_other by assumption.
  - intros w request Hu Hbad. now apply add_item_to_cart_rejects.
Qed.

(** Adding 2 and then 3 of product ["A"] to an empty session yields 5;
    quantities ["0"], ["-1"] and ["two"] are refused. *)
Lemma session_cart_add_accumulates_or_rejects_witness :
  let first := Sample.post None [("item", "A"); ("quantity", "2")] in
  let second := Sample.post None [("item", "A"); ("quantity", "3")] in
  let add := add_item_to_cart (fw := Sample.framework) in
  (exists w1 w2,
      add first Sample.fresh_world = (Return (redirect "view_cart"), w1)
      /\ add second w1 = (Return (redirect "view_cart"), w2)
      /\ dict_get (session_cart w2) "A" = Some 5)
  /\ (forall q, In q ["0"; "-1"; "two"] ->
        exists content,
          add (Sample.post None [("item", "A"); ("quantity", q)])
            Sample.fresh_world
          = (Return (HttpResponseBadRequest content), Sample.fresh_world)).
Proof.
  intros first second add.
  destruct (session_cart_add_accumulates_or_rejects Sample.framework)
    as [Hadd Hrej].
  split.
  - destruct (Hadd Sample.fresh_world first second "A" 2 3)
      as (w1 & w2 & H1 & H2 & H3 & _);
      try reflexivity; try lia; try discriminate; try constructor.
    exists w1, w2. repeat split; assumption.
  - intros q Hq. apply Hrej; [reflexivity|].
    simpl in Hq.
    destruct Hq as [<-|[<-|[<-|[]]]].
    + right. exists 0. split; [reflexivity | lia].
    + right. exists (-1). split; [reflexivity | lia].
    + left. reflexivity.
Defined.

(** ** The persisted cart *)

Lemma NoDup_map_inj_on {A B} (f : A -> B) (l : list A) x y :
  NoDup (map f l) -> In x l -> In y l -> f x = f y -> x = y.
Proof.
  induction l as [|a l IH]; simpl; [tauto|].
  intros Hnd Hx Hy Hf. inversion Hnd as [|? ? Hna Hnd']; subst.
  destruct Hx as [<-|Hx], Hy as [<-|Hy]; auto.
  - exfalso. apply Hna. rewrite Hf. now apply in_map.
  - exfalso. apply Hna. rewrite <- Hf. now apply in_map.
Qed.

Lemma item_of_key c p r :
  item_of c p r = true <-> (CartItem.cart r, CartItem.items r) = (c, p).
Proof.
  unfold item_of. rewrite andb_true_iff, Nat.eqb_eq, String.eqb_eq.
  split; [intros [-> ->]; reflexivity | intros [= -> ->]; auto].
Qed.

(** Rows with distinct (cart, product) pairs: a lookup finds at most one. *)
Lemma rows_of_at_most_one (l : list CartItem.t) c p :
  NoDup (map (fun r => (CartItem.cart r, CartItem.items r)) l) ->
  filter (item_of c p) l = [] \/ exists r, filter (item_of c p) l = [r].
Proof.
  intros Hnd.
  destruct (filter (item_of c p) l) as [|r [|r' rest]] eqn:E; eauto.
  exfalso.
  assert (Hr : In r (filter (item_of c p) l)) by (rewrite E; simpl; auto).
  assert (Hr' : In r' (filter (item_of c p) l)) by (rewrite E; simpl; auto).
  apply filter_In in Hr, Hr'. destruct Hr as [Hr Kr], Hr' as [Hr' Kr'].
  apply item_of_key in Kr, Kr'.
  assert (r = r') by (eapply NoDup_map_inj_on; eauto; congruence).
  subst r'.
  assert (Hnd' : NoDup (filter (item_of c p) l)).
  { apply NoDup_filter. eapply NoDup_map_inv; eauto. }
  rewrite E in Hnd'. inversion Hnd' as [|? ? Hn _]; subst.
  apply Hn. now left.
Qed.

Lemma filter_snoc {A} (f : A -> bool) l x :
  filter f (l ++ [x]) = filter f l ++ (if f x then [x] else []).
Proof. now rewrite filter_app. Qed.

Lemma filter_map_commute {A} (p : A -> bool) (f : A -> A) l :
  (forall x, In x l -> p (f x) = p x) ->
  filter p (map f l) = map f (filter p l).
Proof.
  induction l as [|a l IH]; simpl; intros H; [reflexivity|].
  rewrite H by auto. destruct (p a); simpl; rewrite IH; auto.
Qed.

Lemma map_id_on {A} (f : A -> A) l :
  (forall x, In x l -> f x = x) -> map f l = l.
Proof.
  induction l as [|a l IH]; simpl; intros H; [reflexivity|].
  rewrite H, IH; auto.
Qed.

(** The get-or-create-then-increment step shared by the database add and
    by the merge: on a well-formed table it cannot fail; afterwards its
    (cart, product) pair has one row, holding the former quantity plus
    [q]; the rows of every other pair are as before; and nothing but
    [CartItem] is written. *)
Lemma upsert_cart_item (cart : Cart.t) (product : Product.t) (q : Z) w :
  cart_items_wf (db w) ->
  exists w',
    bind (get_or_create_cart_item cart product q)
      (fun ic => let '(cart_item, created) := ic in
                 if created then ret tt
                 else save_cart_item
                        (set_quantity cart_item
                           (CartItem.quantity cart_item + q))) w
    = (Return tt, w')
    /\ cart_items_wf (db w')
    /\ cart_item_is (db w') (Cart.id cart) (Product.product_id product)
         (cart_quantity (db w) (Cart.id cart) (Product.product_id product) + q)
    /\ (forall c p,
          (c, p) <> (Cart.id cart, Product.product_id product) ->
          rows_of (db w') c p = rows_of (db w) c p)
    /\ besides_cart_items w' = besides_cart_items w.
Proof.
  intros (Hids & Hkeys & Hseq).
  set (c0 := Cart.id cart). set (p0 := Product.product_id product).
  unfold bind at 1. unfold get_or_create_cart_item, get_db, objects_get.
  unfold bind at 1. fold c0 p0.
  unfold cart_item_is, cart_quantity, rows_of.
  destruct (rows_of_at_most_one _ c0 p0 Hkeys) as [E | [it E]]; rewrite E.
  - (* created *)
    eexists. split; [reflexivity|]. simpl.
    assert (Hfresh : ~ In (sequence (db w)) (map CartItem.id (cart_items (db w)))).
    { intros Hin. apply in_map_iff in Hin. destruct Hin as (r & Hr & Hin).
      rewrite Forall_forall in Hseq. specialize (Hseq r Hin). lia. }
    assert (Hnew : ~ In (c0, p0)
              (map (fun r => (CartItem.cart r, CartItem.items r))
                   (cart_items (db w)))).
    { intros Hin. apply in_map_iff in Hin. destruct Hin as (r & Hr & Hin).
      assert (In r (filter (item_of c0 p0) (cart_items (db w)))).
      { apply filter_In. split; [assumption | now apply item_of_key]. }
      rewrite E in H. contradiction. }
    split; [|split; [|split]].
    + unfold cart_items_wf; simpl. rewrite !map_app. simpl.
      split; [|split].
      * now apply NoDup_snoc.
      * now apply NoDup_snoc.
      * apply Forall_app. split.
        -- eapply Forall_impl; [|exact Hseq]. simpl. intros; lia.
        -- constructor; [simpl; lia | constructor].
    + rewrite filter_snoc, E. unfold item_of at 1. simpl.
      rewrite Nat.eqb_refl, String.eqb_refl. simpl.
      eexists. split; [reflexivity|]. simpl. lia.
    + intros c p Hne. rewrite filter_snoc.
      destruct (item_of c p _) eqn:K; [|apply app_nil_r].
      apply item_of_key in K. simpl in K. congruence.
    + reflexivity.
  - (* found *)
    eexists. split; [reflexivity|]. simpl.
    assert (Hit : In it (cart_items (db w)) /\ item_of c0 p0 it = true).
    { apply filter_In. rewrite E. now left. }
    destruct Hit as [Hit Kit].
    set (it' := set_quantity it (CartItem.quantity it + q)).
    set (upd := fun r' : CartItem.t =>
                  if Nat.eqb (CartItem.id r') (CartItem.id it) then it' else r').
    assert (Hsame : forall r, In r (cart_items (db w)) ->
               CartItem.id r = CartItem.id it -> r = it).
    { intros r Hr Hid.
      exact (NoDup_map_inj_on CartItem.id _ r it Hids Hr Hit Hid). }
    assert (Hfields : forall r, In r (cart_items (db w)) ->
               CartItem.id (upd r) = CartItem.id r
               /\ CartItem.cart (upd r) = CartItem.cart r
               /\ CartItem.items (upd r) = CartItem.items r).
    { intros r Hr. unfold upd.
      destruct (Nat.eqb_spec (CartItem.id r) (CartItem.id it)) as [Hid|]; auto.
      rewrite (Hsame r Hr Hid). auto. }
    assert (Hcomm : forall c p,
               filter (item_of c p) (map upd (cart_items (db w)))
               = map upd (filter (item_of c p) (cart_items (db w)))).
    { intros c p. apply filter_map_commute. intros r Hr. unfold item_of.
      destruct (Hfields r Hr) as (_ & -> & ->). reflexivity. }
    split; [|split; [|split]].
    + unfold cart_items_wf; simpl. rewrite !map_map.
      split; [|split].
      * erewrite map_ext_in; [exact Hids|]. intros r Hr. now apply Hfields.
      * erewrite map_ext_in; [exact Hkeys|]. intros r Hr.
        destruct (Hfields r Hr) as (_ & -> & ->). reflexivity.
      * apply Forall_map. rewrite Forall_forall in *. intros r Hr.
        destruct (Hfields r Hr) as (-> & _). auto.
    + rewrite Hcomm, E. simpl. unfold upd at 1. rewrite Nat.eqb_refl.
      eexists. split; [reflexivity|]. simpl. lia.
    + intros c p Hne. rewrite Hcomm. apply map_id_on.
      intros r Hr. apply filter_In in Hr. destruct Hr as [Hr Kr].
      unfold upd.
      destruct (Nat.eqb_spec (CartItem.id r) (CartItem.id it)) as [Hid|];
        [|reflexivity].
      exfalso. rewrite (Hsame r Hr Hid) in Kr.
      apply item_of_key in Kr, Kit. congruence.
    + reflexivity.
Qed.

Lemma get_product_id d k p :
  get_product d k = Some p -> Product.product_id p = k.
Proof.
  unfold get_product. intros H. apply find_some in H.
  now apply String.eqb_eq.
Qed.

Lemma besides_cart_items_products w w' :
  besides_cart_items w' = besides_cart_items w ->
  products (db w') = products (db w) /\ carts (db w') = carts (db w)
  /\ session w' = session w /\ messages w' = messages w.
Proof.
  unfold besides_cart_items. intros [= H1 H2 H3 H4 H5 H6 H7 H8 H9 H10].
  auto.
Qed.

(** [Cart.objects.get_or_create(user=u)] on a table with one cart per
    user: the cart it returns is the cart of [u] afterwards; an existing
    cart means no write at all. *)
Lemma get_or_create_cart_spec (u : User.t) w :
  carts_wf (db w) -> cart_items_wf (db w) ->
  exists c w',
    get_or_create_cart u w = (Return c, w')
    /\ cart_of (db w') u = Some c
    /\ carts_wf (db w') /\ cart_items_wf (db w')
    /\ cart_items (db w') = cart_items (db w)
    /\ products (db w') = products (db w)
    /\ session w' = session w /\ messages w' = messages w
    /\ (forall c0, cart_of (db w) u = Some c0 -> w' = w).
Proof.
  intros Hc Hi. unfold get_or_create_cart, cart_of, bind, get_db, objects_get.
  set (mine := fun c : Cart.t => Nat.eqb (Cart.user c) (User.id u)).
  assert (Hone : filter mine (carts (db w)) = []
                 \/ exists c, filter mine (carts (db w)) = [c]).
  { destruct (filter mine (carts (db w))) as [|c [|c' rest]] eqn:E; eauto.
    exfalso.
    assert (Hin : In c (filter mine (carts (db w)))
                  /\ In c' (filter mine (carts (db w))))
      by (rewrite E; simpl; auto).
    destruct Hin as [H1 H2]. apply filter_In in H1, H2.
    destruct H1 as [H1 K1], H2 as [H2 K2]. unfold mine in K1, K2.
    apply Nat.eqb_eq in K1, K2.
    assert (c = c').
    { apply (NoDup_map_inj_on Cart.user (carts (db w))); auto; congruence. }
    subst c'.
    assert (Hnd : NoDup (filter mine (carts (db w)))).
    { apply NoDup_filter. eapply NoDup_map_inv; exact Hc. }
    rewrite E in Hnd. inversion Hnd as [|? ? Hn _]; subst. apply Hn. now left. }
  destruct Hone as [E | [c E]]; simpl; rewrite E.
  - eexists. eexists. split; [reflexivity|]. simpl.
    rewrite filter_app, E. simpl. unfold mine at 1. simpl.
    rewrite Nat.eqb_refl. simpl.
    repeat split; try reflexivity.
    + unfold carts_wf. simpl. rewrite map_app. simpl.
      apply NoDup_snoc; [exact Hc|].
      intros Hin. apply in_map_iff in Hin. destruct Hin as (c & Hcu & Hin).
      assert (In c (filter mine (carts (db w)))).
      { apply filter_In. split; [assumption|]. unfold mine.
        now apply Nat.eqb_eq. }
      rewrite E in H. contradiction.
    + apply Hi.
    + apply Hi.
    + destruct Hi as (_ & _ & Hseq). simpl.
      eapply Forall_impl; [|exact Hseq]. simpl. intros; lia.
    + discriminate.
  - exists c, w. rewrite E. repeat split; auto; apply Hi.
Qed.

Lemma bind_assoc_pair {A B C D} (m : M (A * B)) (f : A -> B -> M C)
  (k : C -> M D) (w : World) :
  bind m (fun ab => let '(a, b) := ab in bind (f a b) k) w
  = bind (bind m (fun ab => let '(a, b) := ab in f a b)) k w.
Proof.
  unfold bind. destruct (m w) as [[[a b]|e] w']; reflexivity.
Qed.


Lemma cart_item_is_rows d d' c p q :
  rows_of d' c p = rows_of d c p ->
  cart_item_is d c p q -> cart_item_is d' c p q.
Proof. unfold cart_item_is. now intros ->. Qed.

Lemma cart_quantity_rows d d' c p :
  rows_of d' c p = rows_of d c p ->
  cart_quantity d' c p = cart_quantity d c p.
Proof. unfold cart_quantity. now intros ->. Qed.

Lemma get_product_frame w w' k :
  products (db w') = products (db w) ->
  get_product (db w') k = get_product (db w) k.
Proof. unfold get_product. now intros ->. Qed.

Lemma lookup_key_parsed {fw : Framework} {A} s k (f : uuid -> M A) w :
  to_uuid s = Some k -> bind (lookup_key s) f w = f k w.
Proof. unfold bind, lookup_key. now intros ->. Qed.

Lemma lookup_key_ill_formed {fw : Framework} {A} s (f : uuid -> M A) w :
  to_uuid s = None -> bind (lookup_key s) f w = (Raise ValidationError, w).
Proof. unfold bind, lookup_key. now intros ->. Qed.

(** The loop of [merge_cart] over the entries [l] of the session cart,
    when every key is a product id in the stored spelling. *)
Lemma merge_loop {fw : Framework} (cart : Cart.t) (l : dict Z) : forall w,
  cart_items_wf (db w) -> NoDup (map fst l) ->
  Forall (fun e => to_uuid (fst e) = Some (fst e)) l ->
  exists w',
    for_each l (merge_entry cart) w = (Return tt, w')
    /\ cart_items_wf (db w')
    /\ besides_cart_items w' = besides_cart_items w
    /\ (forall p q,
          dict_get l p = Some q -> get_product (db w) p <> None ->
          cart_item_is (db w') (Cart.id cart) p
            (cart_quantity (db w) (Cart.id cart) p + q))
    /\ (forall c p,
          c <> Cart.id cart \/ get_product (db w) p = None
          \/ dict_get l p = None ->
          rows_of (db w') c p = rows_of (db w) c p).
Proof.
  induction l as [|[k q] l IH]; intros w Hwf Hnd Hkeys.
  - exists w. simpl.
    split; [reflexivity|]. split; [assumption|]. split; [reflexivity|].
    split; [discriminate | reflexivity].
  - simpl in Hnd. apply NoDup_cons_iff in Hnd. destruct Hnd as [Hk Hnd'].
    apply dict_get_None_not_key in Hk.
    apply Forall_cons_iff in Hkeys. destruct Hkeys as [Hkey Hkeys'].
    simpl in Hkey.
    cbn [for_each]. unfold bind at 1. unfold merge_entry.
    rewrite (lookup_key_parsed k k _ w Hkey).
    unfold bind at 1. unfold get_db at 1. cbn beta iota.
    destruct (get_product (db w) k) as [product|] eqn:Ep.
    + destruct (upsert_cart_item cart product q w Hwf)
        as (w1 & Hrun & Hwf1 & Hrow & Hrest & Hframe).
      rewrite Hrun.
      pose proof (get_product_id _ _ _ Ep) as Hid. rewrite Hid in *.
      destruct (besides_cart_items_products _ _ Hframe) as (Hprod & _).
      destruct (IH w1 Hwf1 Hnd' Hkeys')
        as (w' & Hloop & Hwf' & Hframe' & Ha & Hb).
      exists w'. split; [exact Hloop|]. split; [exact Hwf'|].
      split; [congruence|]. split.
      * intros p q'. simpl.
        destruct (String.eqb_spec k p) as [->|Hne].
        -- intros [= <-] _.
           eapply cart_item_is_rows; [|exact Hrow].
           apply Hb. auto.
        -- intros Hq Hp.
           rewrite <- (cart_quantity_rows (db w) (db w1) (Cart.id cart) p).
           ++ apply Ha; [assumption|].
              now rewrite (get_product_frame w w1 p Hprod).
           ++ apply Hrest. congruence.
      * intros c p Hcase.
        assert (Hkp : (c, p) <> (Cart.id cart, k)).
        { intros [= -> ->]. simpl in Hcase. rewrite String.eqb_refl in Hcase.
          destruct Hcase as [H|[H|H]]; congruence. }
        rewrite <- (Hrest c p Hkp). apply Hb.
        destruct Hcase as [H|[H|H]]; auto.
        -- right. left. now rewrite (get_product_frame w w1 p Hprod).
        -- right. right. simpl in H.
           destruct (String.eqb k p); [discriminate | assumption].
    + destruct (IH w Hwf Hnd' Hkeys')
        as (w' & Hloop & Hwf' & Hframe' & Ha & Hb).
      exists w'. unfold ret at 1. split; [exact Hloop|].
      split; [exact Hwf'|]. split; [exact Hframe'|]. split.
      * intros p q'. simpl.
        destruct (String.eqb_spec k p) as [->|Hne]; [congruence|].
        apply Ha.
      * intros c p Hcase. apply Hb.
        destruct Hcase as [H|[H|H]]; auto.
        simpl in H. destruct (String.eqb_spec k p) as [->|Hne]; auto.
Qed.




(** The same merge run on the model, and the merge into an empty cart. *)
Example merge_cart_into_existing_item :
  merge_cart (fw := Sample.framework) Sample.buyer
    (Sample.before_login [CartItem.mk 2 1 "A" 1] 3)
  = (Return tt,
     mkWorld (Sample.shop [CartItem.mk 2 1 "A" 3; CartItem.mk 3 1 "B" 1] 4)
             (mkSession (Some []) None None) []).
Proof. reflexivity. Qed.

Example merge_cart_into_empty_cart :
  merge_cart (fw := Sample.framework) Sample.buyer (Sample.before_login [] 2)
  = (Return tt,
     mkWorld (Sample.shop [CartItem.mk 2 1 "A" 2; CartItem.mk 3 1 "B" 1] 4)
             (mkSession (Some []) None None) []).
Proof. reflexivity. Qed.

Section DatabaseCart.
Context {fw : Framework}.

Lemma coerced_quantity_bad request :
  bad_quantity request -> coerced_quantity request = 1.
Proof.
  unfold coerced_quantity.
  intros [-> | (q & -> & Hlt)]; [reflexivity|].
  destruct (Z.ltb_spec q 1); [reflexivity | lia].
Qed.

(** A database add that names an existing product: the row of the
    product in the cart of the user gains the coerced quantity. *)
Lemma add_item_db_cart_adds request user k product w :
  req_user request = Some user -> method request = POST ->
  dict_get (POST_data request) "item" = Some k ->
  get_product (db w) k = Some product ->
  carts_wf (db w) -> cart_items_wf (db w) ->
  exists c w',
    add_item_db_cart request w = (Return (redirect "view_cart"), w')
    /\ cart_of (db w') user = Some c
    /\ cart_item_is (db w') (Cart.id c) k
         (cart_quantity (db w) (Cart.id c) k + coerced_quantity request)
    /\ (forall c' p, (c', p) <> (Cart.id c, k) ->
          rows_of (db w') c' p = rows_of (db w) c' p)
    /\ cart_items_wf (db w').
Proof.
  intros Hu Hm Hk Hp Hc Hi.
  unfold add_item_db_cart. rewrite Hm, Hu, Hk.
  set (q := coerced_quantity request).
  unfold bind at 1. unfold get_db at 1. cbn beta iota. rewrite Hp.
  destruct (get_or_create_cart_spec user w Hc Hi)
    as (c & w1 & Hrun & Hcart & Hc1 & Hi1 & Hitems & Hprod & Hsess & Hmsg
        & Hsame).
  unfold bind at 1. rewrite Hrun.
  destruct (upsert_cart_item c product q w1 Hi1)
    as (w' & Hups & Hwf' & Hrow & Hrest & Hframe).
  rewrite (get_product_id _ _ _ Hp) in *.
  destruct (besides_cart_items_products _ _ Hframe)
    as (_ & Hcarts' & _ & _).
  assert (Hrows : forall c' p, rows_of (db w1) c' p = rows_of (db w) c' p).
  { intros. unfold rows_of. now rewrite Hitems. }
  exists c, w'. split.
  - pose proof (bind_assoc_pair (get_or_create_cart_item c product q)
                  (fun cart_item created =>
                     if created then ret tt
                     else save_cart_item
                            (set_quantity cart_item
                               (CartItem.quantity cart_item + q)))
                  (fun _ => ret (redirect "view_cart")) w1) as Hassoc.
    cbv beta in Hassoc. rewrite Hassoc.
    unfold bind at 1. now rewrite Hups.
  - split; [unfold cart_of in *; now rewrite Hcarts'|].
    split.
    + unfold cart_quantity in *. rewrite <- Hrows. exact Hrow.
    + split; [|exact Hwf'].
      intros c' p Hne. rewrite <- Hrows. now apply Hrest.
Qed.

End DatabaseCart.

(** C10.  Authenticated (database) cart add with a quantity that is not
    an integer or is below 1: the request is not refused.  The quantity
    counts as 1: the handler, and [add_item_to_cart] which calls it for a
    logged-in user, redirect to the cart view, and the cart of the user
    then holds exactly one row for the product, with the former quantity
    plus 1 (so 1 when the row is new); no other row changes.  The handler
    treats the request exactly as the same request with quantity 1.  The
    anonymous path answers the same form data with
    [HttpResponseBadRequest] and no write. *)
Theorem db_cart_add_coerces_bad_quantity (fw : Framework) (w : World)
  (request : Request) (user : User.t) (k : uuid) (product : Product.t) :
  req_user request = Some user -> method request = POST ->
  dict_get (POST_data request) "item" = Some k ->
  get_product (db w) k = Some product ->
  bad_quantity request ->
  carts_wf (db w) -> cart_items_wf (db w) ->
  coerced_quantity request = 1
  /\ (exists c w',
        add_item_db_cart request w = (Return (redirect "view_cart"), w')
        /\ add_item_to_cart request w = (Return (redirect "view_cart"), w')
        /\ cart_of (db w') user = Some c
        /\ cart_item_is (db w') (Cart.id c) k
             (cart_quantity (db w) (Cart.id c) k + 1)
        /\ (forall c' p, (c', p) <> (Cart.id c, k) ->
              rows_of (db w') c' p = rows_of (db w) c' p)
        /\ cart_items_wf (db w'))
  /\ (forall one,
        int_quantity one = Some 1 -> req_user one = req_user request ->
        method one = method request ->
        dict_get (POST_data one) "item" = dict_get (POST_data request) "item" ->
        add_item_db_cart request w = add_item_db_cart one w)
  /\ (exists content,
        add_item_to_cart (anonymous request) w
        = (Return (HttpResponseBadRequest content), w)).
Proof.
  intros Hu Hm Hk Hp Hbad Hc Hi.
  pose proof (coerced_quantity_bad request Hbad) as Hq.
  split; [exact Hq|]. split; [|split].
  2:{ intros one H1 Hu1 Hm1 Hk1. unfold add_item_db_cart.
      rewrite Hu1, Hm1, Hk1, Hq. unfold coerced_quantity. now rewrite H1. }
  - destruct (add_item_db_cart_adds request user k product w Hu Hm Hk Hp Hc Hi)
      as (c & w' & Hrun & Hcart & Hrow & Hrest & Hwf).
    rewrite Hq in Hrow.
    exists c, w'. split; [exact Hrun|]. split.
    + unfold add_item_to_cart. rewrite Hu. simpl.
      unfold bind. now rewrite Hrun.
    + auto.
  - apply add_item_to_cart_rejects; [reflexivity|].
    unfold bad_quantity, int_quantity in *. exact Hbad.
Qed.

(** A logged-in add of ["zero"] units on top of CartItem(A, 4) gives
    CartItem(A, 5); the same form sent anonymously is refused. *)
Lemma db_cart_add_coerces_bad_quantity_witness :
  let w := mkWorld (Sample.shop [CartItem.mk 2 1 "A" 4] 3)
             Sample.empty_session [] in
  let request :=
    Sample.post (Some Sample.buyer) [("item", "A"); ("quantity", "zero")] in
  bad_quantity (fw := Sample.framework) request
  /\ carts_wf (db w) /\ cart_items_wf (db w)
  /\ (exists w',
        add_item_db_cart (fw := Sample.framework) request w
        = (Return (redirect "view_cart"), w')
        /\ cart_item_is (db w') 1 "A" 5)
  /\ (exists content,
        add_item_to_cart (fw := Sample.framework) (anonymous request) w
        = (Return (HttpResponseBadRequest content), w)).
Proof.
  intros w request.
  assert (Hbad : bad_quantity (fw := Sample.framework) request)
    by (left; reflexivity).
  assert (Hc : carts_wf (db w)) by (repeat constructor; simpl; tauto).
  assert (Hi : cart_items_wf (db w)).
  { repeat split; repeat constructor; simpl; try tauto; lia. }
  split; [exact Hbad|]. split; [exact Hc|]. split; [exact Hi|].
  destruct (db_cart_add_coerces_bad_quantity Sample.framework w request
              Sample.buyer "A" Sample.mug eq_refl eq_refl eq_refl eq_refl
              Hbad Hc Hi)
    as (_ & (c & w' & Hrun & _ & Hcart & Hrow & _) & _ & Hanon).
  split; [|exact Hanon].
  exists w'. split; [exact Hrun|].
  assert (Hc1 : c = Cart.mk 1 1).
  { vm_compute in Hrun. injection Hrun as <-.
    vm_compute in Hcart. congruence. }
  subst c. exact Hrow.
Defined.

(** ** Checkout *)

Lemma existsb_filter_nonempty {A} (p : A -> bool) l :
  filter p l <> [] -> existsb p l = true.
Proof.
  induction l as [|a l IH]; simpl; [congruence|].
  destruct (p a); simpl; auto.
Qed.

Lemma resolve_items_length d l lines :
  resolve_items d l = Return lines -> List.length lines = List.length l.
Proof.
  revert lines. induction l as [|r l IH]; simpl; intros lines.
  - now intros [= <-].
  - destruct (get_product d (CartItem.items r)); [|discriminate].
    destruct (resolve_items d l) as [rest|]; [|discriminate].
    intros [= <-]. simpl. now rewrite (IH rest).
Qed.

(** The loop that snapshots the cart lines into [OrderItem]. *)
Lemma create_order_items (order : Order.t) lines : forall w,
  for_each lines (create_order_item order) w
  = (Return tt,
     mkWorld
       (mkDB (users (db w)) (stores (db w)) (products (db w)) (carts (db w))
          (cart_items (db w)) (reviews (db w)) (orders (db w))
          (order_items (db w)
           ++ order_lines (sequence (db w)) (Order.id order) lines)
          (reset_tokens (db w)) (sequence (db w) + List.length lines))
       (session w) (messages w)).
Proof.
  induction lines as [|[item product] lines IH]; intros w.
  - simpl. unfold ret. rewrite app_nil_r, Nat.add_0_r.
    destruct w as [[] ? ?]; reflexivity.
  - cbn [for_each]. unfold bind at 1.
    replace (create_order_item order (item, product) w)
      with (Return tt,
            mkWorld
              (bump (set_order_items
                 (fun l => l ++ order_lines (sequence (db w)) (Order.id order)
                                  [(item, product)]) (db w)))
              (session w) (messages w)) by reflexivity.
    rewrite IH. simpl. rewrite <- app_assoc. simpl.
    now rewrite Nat.add_succ_r.
Qed.

(** A POST checkout of a non-empty cart, delivered or not: the order and
    its items are written before the e-mail is sent, the cart is emptied
    after. *)
Lemma checkout_post (delivered : bool) request user cart lines w :
  req_user request = Some user -> method request = POST ->
  cart_of (db w) user = Some cart ->
  resolve_items (db w) (cartitem_set (db w) cart) = Return lines ->
  cartitem_set (db w) cart <> [] ->
  checkout delivered request w
  = (if delivered then Return (redirect "buyer_home")
     else Raise SMTPException,
     mkWorld
       (mkDB (users (db w)) (stores (db w)) (products (db w)) (carts (db w))
          (if delivered
           then filter (fun r => negb (Nat.eqb (CartItem.cart r) (Cart.id cart)))
                       (cart_items (db w))
           else cart_items (db w))
          (reviews (db w))
          (orders (db w)
           ++ [Order.mk (sequence (db w)) (User.id user) (sum_prices lines)])
          (order_items (db w)
           ++ order_lines (S (sequence (db w))) (sequence (db w)) lines)
          (reset_tokens (db w)) (S (sequence (db w)) + List.length lines))
       (session w) (messages w)).
Proof.
  intros Hu Hm Hcart Hlines Hne.
  unfold checkout. rewrite Hu, Hm.
  unfold bind at 1. unfold get_db at 1. cbn beta iota.
  unfold cart_of in Hcart. unfold bind at 1, lift at 1, get_object_or_404.
  destruct (objects_get "Cart" (carts (db w)) _) as [c|e] eqn:E;
    [|discriminate].
  injection Hcart as ->.
  unfold cartitem_set in *.
  unfold bind at 1, lift at 1. rewrite Hlines.
  unfold exists_. rewrite (existsb_filter_nonempty _ _ Hne). simpl.
  unfold bind at 1. unfold next_id, bind, get_db, modify_db, ret.
  cbn beta iota.
  rewrite create_order_items. simpl.
  destruct delivered; reflexivity.
Qed.

(** Checkout never writes to [Review]: a flag stored with a review is
    not touched by a later order. *)
Lemma checkout_keeps_reviews delivered request w r w' :
  checkout delivered request w = (r, w') ->
  reviews (db w') = reviews (db w).
Proof.
  unfold checkout.
  destruct (req_user request) as [user|]; [|now intros [= _ <-]].
  unfold bind at 1. unfold get_db at 1. cbn beta iota.
  unfold bind at 1, lift at 1.
  destruct (get_object_or_404 "Cart" (carts (db w)) _) as [cart|e];
    [|now intros [= _ <-]].
  unfold bind at 1, lift at 1.
  destruct (resolve_items (db w) _) as [lines|e]; [|now intros [= _ <-]].
  destruct (method request); [now intros [= _ <-]|].
  destruct (negb _); [now intros [= _ <-]|].
  unfold bind at 1. unfold next_id, bind, get_db, modify_db, ret.
  cbn beta iota. rewrite create_order_items. simpl.
  destruct delivered; now intros [= _ <-].
Qed.

Section OrdersAreSnapshots.
Context {fw : Framework}.

(** No branch of [update_product] writes to [Order] or [OrderItem]. *)
Lemma update_product_keeps_orders request pk w r w' :
  update_product request pk w = (r, w') ->
  orders (db w') = orders (db w)
  /\ order_items (db w') = order_items (db w).
Proof.
  unfold update_product, bind, get_db, modify_db, ret, raise.
  destruct (permitted request _); [|now intros [= _ <-]].
  destruct (get_product (db w) pk); [|now intros [= _ <-]].
  destruct (method request); [now intros [= _ <-]|].
  destruct (ProductForm_clean _); [|now intros [= _ <-]].
  destruct (name_taken _ _ _ _); now intros [= _ <-].
Qed.

End OrdersAreSnapshots.

(** C1.  Checkout of a cart with the lines (A, quantity 2, unit price
    10.00) and (B, quantity 1, unit price 5.00), the invoice being
    delivered: exactly one [Order] is added, with total 25.00; exactly
    two [OrderItem] rows are added, holding the product names and the
    line prices 20.00 and 5.00; the cart has no row left; and whatever
    [update_product] does afterwards (a new price for A included), the
    orders and order items stay as written. *)
Theorem checkout_snapshots_cart (fw : Framework) (w : World)
  (request : Request) (user : User.t) (cart : Cart.t)
  (a b : CartItem.t) (product_a product_b : Product.t) :
  req_user request = Some user -> method request = POST ->
  cart_of (db w) user = Some cart ->
  cartitem_set (db w) cart = [a; b] ->
  get_product (db w) (CartItem.items a) = Some product_a ->
  get_product (db w) (CartItem.items b) = Some product_b ->
  CartItem.quantity a = 2 -> Product.price product_a = 1000 ->
  CartItem.quantity b = 1 -> Product.price product_b = 500 ->
  exists w',
    checkout true request w = (Return (redirect "buyer_home"), w')
    /\ orders (db w')
       = orders (db w) ++ [Order.mk (sequence (db w)) (User.id user) 2500]
    /\ order_items (db w')
       = order_items (db w)
         ++ [OrderItem.mk (S (sequence (db w))) (sequence (db w))
               (Product.product_name product_a) 2 2000;
             OrderItem.mk (S (S (sequence (db w)))) (sequence (db w))
               (Product.product_name product_b) 1 500]
    /\ cartitem_set (db w') cart = []
    /\ (forall edit pk r w'',
          update_product edit pk w' = (r, w'') ->
          orders (db w'') = orders (db w')
          /\ order_items (db w'') = order_items (db w')).
Proof.
  intros Hu Hm Hcart Hset Ha Hb Hqa Hpa Hqb Hpb.
  assert (Hlines : resolve_items (db w) (cartitem_set (db w) cart)
                   = Return [(a, product_a); (b, product_b)]).
  { rewrite Hset. simpl. now rewrite Ha, Hb. }
  assert (Hne : cartitem_set (db w) cart <> []) by (rewrite Hset; discriminate).
  eexists. split.
  - apply (checkout_post true request user cart _ w Hu Hm Hcart Hlines Hne).
  - simpl. unfold sum_prices. simpl. rewrite Hqa, Hpa, Hqb, Hpb.
    split; [reflexivity|]. split; [reflexivity|]. split.
    + unfold cartitem_set. simpl.
      induction (cart_items (db w)) as [|r l IH]; simpl; [reflexivity|].
      destruct (Nat.eqb (CartItem.cart r) (Cart.id cart)) eqn:E; simpl;
        [exact IH | now rewrite E].
    + intros edit pk r w''. apply update_product_keeps_orders.
Qed.

(** The sample checkout: total 25.00, lines 20.00 and 5.00, empty cart;
    the vendor then reprices the mug to 99.99 and the order is as it
    was. *)
Lemma checkout_snapshots_cart_witness :
  let request := Sample.post (Some Sample.buyer) [] in
  let edit :=
    Sample.post (Some Sample.vendor)
      [("product_name", "Mug"); ("price", "9999"); ("description", "A mug")] in
  exists w' w'',
    checkout true request Sample.at_checkout
    = (Return (redirect "buyer_home"), w')
    /\ orders (db w') = [Order.mk 4 1 2500]
    /\ order_items (db w')
       = [OrderItem.mk 5 4 "Mug" 2 2000; OrderItem.mk 6 4 "Pen" 1 500]
    /\ cart_items (db w') = []
    /\ update_product (fw := Sample.framework) edit "A" w'
       = (Return (Some (redirect "seller_home")), w'')
    /\ option_map Product.price (get_product (db w'') "A") = Some 9999
    /\ orders (db w'') = orders (db w')
    /\ order_items (db w'') = order_items (db w').
Proof.
  intros request edit.
  destruct (checkout_snapshots_cart Sample.framework Sample.at_checkout
              request Sample.buyer (Cart.mk 1 1)
              (CartItem.mk 2 1 "A" 2) (CartItem.mk 3 1 "B" 1)
              Sample.mug Sample.pen
              eq_refl eq_refl eq_refl eq_refl eq_refl eq_refl
              eq_refl eq_refl eq_refl eq_refl)
    as (w' & Hrun & Ho & Hi & Hset & Hlater).
  exists w'.
  destruct (update_product (fw := Sample.framework) edit "A" w')
    as [r w''] eqn:Hedit.
  exists w''.
  destruct (Hlater edit "A" r w'' Hedit) as [Ho' Hi'].
  split; [exact Hrun|]. split; [exact Ho|]. split; [exact Hi|].
  vm_compute in Hrun. injection Hrun as <-.
  vm_compute in Hedit. injection Hedit as <- <-.
  repeat split.
Defined.

(** C6.  When the invoice e-mail cannot be sent, a POST checkout of a
    non-empty cart ends with the exception of the transport: nothing
    catches it, no response is produced.  The [Order] and the
    [OrderItem] rows written before the send are in the database, and the
    rows of [CartItem] are all still there. *)
Theorem checkout_email_failure_keeps_order (w : World) (request : Request)
  (user : User.t) (cart : Cart.t) (lines : list (CartItem.t * Product.t)) :
  req_user request = Some user -> method request = POST ->
  cart_of (db w) user = Some cart ->
  cartitem_set (db w) cart <> [] ->
  resolve_items (db w) (cartitem_set (db w) cart) = Return lines ->
  exists w',
    checkout false request w = (Raise SMTPException, w')
    /\ orders (db w')
       = orders (db w)
         ++ [Order.mk (sequence (db w)) (User.id user) (sum_prices lines)]
    /\ order_items (db w')
       = order_items (db w)
         ++ order_lines (S (sequence (db w))) (sequence (db w)) lines
    /\ List.length lines = List.length (cartitem_set (db w) cart)
    /\ cart_items (db w') = cart_items (db w).
Proof.
  intros Hu Hm Hcart Hne Hlines.
  eexists. split.
  - apply (checkout_post false request user cart lines w Hu Hm Hcart Hlines Hne).
  - simpl. repeat split. now apply resolve_items_length in Hlines.
Qed.

Lemma checkout_email_failure_keeps_order_witness :
  exists w',
    checkout false (Sample.post (Some Sample.buyer) []) Sample.at_checkout
    = (Raise SMTPException, w')
    /\ orders (db w') = [Order.mk 4 1 2500]
    /\ order_items (db w')
       = [OrderItem.mk 5 4 "Mug" 2 2000; OrderItem.mk 6 4 "Pen" 1 500]
    /\ cart_items (db w') = cart_items (db Sample.at_checkout).
Proof.
  destruct (checkout_email_failure_keeps_order Sample.at_checkout
              (Sample.post (Some Sample.buyer) []) Sample.buyer (Cart.mk 1 1)
              [(CartItem.mk 2 1 "A" 2, Sample.mug);
               (CartItem.mk 3 1 "B" 1, Sample.pen)]
              eq_refl eq_refl eq_refl)
    as (w' & Hrun & Ho & Hi & _ & Hc); [discriminate | reflexivity |].
  exists w'. repeat split; assumption.
Defined.

(** ** Password reset *)

Section ResetLifecycle.
Context {fw : Framework}.

(** Validation of an expired token: the row is deleted and the page
    reports the expiry. *)
Lemma validate_expired now request raw t w :
  tokens_for (db w) raw = [t] -> ResetToken.expiry_date t < now ->
  reset_user_password now request raw w
  = (Return (password_reset_page
               [("error", VStr "This reset link has expired.");
                ("token", VStr raw)]),
     mkWorld
       (set_reset_tokens
          (filter (fun t' => negb (Nat.eqb (ResetToken.id t')
                                           (ResetToken.id t)))) (db w))
       (session w) (messages w)).
Proof.
  intros Ht Hexp. unfold reset_user_password, bind, get_db, objects_get.
  unfold tokens_for in Ht. cbn beta iota. rewrite Ht.
  destruct (Z.ltb_spec (ResetToken.expiry_date t) now); [|lia].
  reflexivity.
Qed.

(** Validation of a token no row stores. *)
Lemma validate_unknown now request raw w :
  tokens_for (db w) raw = [] ->
  reset_user_password now request raw w
  = (Return (password_reset_page
               [("error", VStr "Invalid or expired reset token");
                ("token", VStr raw)]), w).
Proof.
  intros Ht. unfold reset_user_password, bind, get_db, objects_get.
  unfold tokens_for in Ht. cbn beta iota. now rewrite Ht.
Qed.

(** Validation of a live token: the form is shown and the handshake is
    staged; the row stays. *)
Lemma validate_live now request raw t u w :
  tokens_for (db w) raw = [t] -> now <= ResetToken.expiry_date t ->
  find (fun u => Nat.eqb (User.id u) (ResetToken.user t)) (users (db w))
  = Some u ->
  reset_user_password now request raw w
  = (Return (password_reset_page
               [("user_token", VResetToken t); ("token", VStr raw)]),
     mkWorld (db w)
       (mkSession (s_cart (session w)) (Some (User.username u)) (Some raw))
       (messages w)).
Proof.
  intros Ht Hexp Hu. unfold reset_user_password, bind, get_db, objects_get.
  unfold tokens_for in Ht. cbn beta iota. rewrite Ht.
  destruct (Z.ltb_spec (ResetToken.expiry_date t) now); [lia|].
  now rewrite Hu.
Qed.

Lemma filter_negb_self {A} (p : A -> bool) l :
  filter p (filter (fun x => negb (p x)) l) = [].
Proof.
  induction l as [|a l IH]; simpl; [reflexivity|].
  destruct (p a) eqn:E; simpl; [exact IH | now rewrite E].
Qed.

(** The account table after [change_user_password]. *)
Lemma users_named_after_change d name u new_password :
  NoDup (map User.id (users d)) -> users_named d name = [u] ->
  filter (fun u' => String.eqb (User.username u') name)
    (map (fun u' => if Nat.eqb (User.id u') (User.id u)
                    then set_password u new_password else u') (users d))
  = [set_password u new_password].
Proof.
  intros Hnd Hu. unfold users_named in Hu.
  assert (Hin : In u (filter (fun u' => String.eqb (User.username u') name)
                             (users d))) by (rewrite Hu; now left).
  apply filter_In in Hin. destruct Hin as [Hin Hname].
  rewrite filter_map_commute.
  - rewrite Hu. simpl. now rewrite Nat.eqb_refl.
  - intros x Hx.
    destruct (Nat.eqb_spec (User.id x) (User.id u)) as [Hid|]; [|reflexivity].
    now rewrite (NoDup_map_inj_on User.id _ x u Hnd Hx Hin Hid).
Qed.

(** Consumption with matching passwords. *)
Lemma consume_matching request username raw u w :
  method request = POST ->
  s_user (session w) = Some username -> username <> "" ->
  s_token (session w) = Some raw -> raw <> "" ->
  option_string_eqb (dict_get (POST_data request) "password")
                    (dict_get (POST_data request) "password_conf") = true ->
  NoDup (map User.id (users (db w))) ->
  users_named (db w) username = [u] ->
  reset_password request w
  = (Return (redirect (login_page u)),
     mkWorld
       (set_reset_tokens
          (filter (fun t => negb (has_token (sha1_hexdigest raw) t)))
          (set_users
             (map (fun u' =>
                     if Nat.eqb (User.id u') (User.id u)
                     then set_password u
                            (dict_get (POST_data request) "password")
                     else u'))
             (db w)))
       (mkSession (s_cart (session w)) None None)
       (messages w)).
Proof.
  intros Hm Hu Hune Ht Htne Hpw Hnd Hnamed.
  unfold reset_password. rewrite Hm.
  unfold bind at 1. unfold get_session at 1. cbn beta iota.
  rewrite Hu, Ht.
  assert (Hf1 : falsy (Some username) = false)
    by (destruct username; [congruence | reflexivity]).
  assert (Hf2 : falsy (Some raw) = false)
    by (destruct raw; [congruence | reflexivity]).
  rewrite Hf1, Hf2, Hpw. cbn [orb].
  unfold bind at 1. unfold change_user_password.
  unfold bind at 1. unfold get_db at 1. cbn beta iota.
  unfold bind at 1. unfold lift at 1, objects_get.
  unfold users_named in Hnamed. rewrite Hnamed.
  unfold modify_db at 1. cbn beta iota.
  unfold bind at 1. unfold modify_db at 1. cbn beta iota.
  unfold bind at 1. unfold get_session at 1. cbn beta iota.
  unfold bind at 1. unfold put_session at 1. cbn beta iota.
  unfold bind at 1. unfold get_db at 1. cbn beta iota.
  cbn [db set_reset_tokens set_users users session s_cart].
  rewrite (users_named_after_change (db w) username u _ Hnd Hnamed).
  unfold login_page, in_group, set_password. cbn [User.groups].
  destruct (existsb (String.eqb "Vendors") (User.groups u)); [reflexivity|].
  destruct (existsb (String.eqb "Buyers") (User.groups u)); reflexivity.
Qed.

(** Consumption with different passwords writes nothing. *)
Lemma consume_mismatch request username raw w :
  method request = POST ->
  s_user (session w) = Some username -> username <> "" ->
  s_token (session w) = Some raw -> raw <> "" ->
  option_string_eqb (dict_get (POST_data request) "password")
                    (dict_get (POST_data request) "password_conf") = false ->
  reset_password request w
  = (Return (password_reset_page
               [("error", VStr "Passwords do not match.")]), w).
Proof.
  intros Hm Hu Hune Ht Htne Hpw.
  unfold reset_password. rewrite Hm.
  unfold bind at 1. unfold get_session at 1. cbn beta iota.
  rewrite Hu, Ht.
  assert (Hf1 : falsy (Some username) = false)
    by (destruct username; [congruence | reflexivity]).
  assert (Hf2 : falsy (Some raw) = false)
    by (destruct raw; [congruence | reflexivity]).
  now rewrite Hf1, Hf2, Hpw.
Qed.

End ResetLifecycle.

Lemma filter_filter_comm {A} (p q : A -> bool) l :
  filter p (filter q l) = filter q (filter p l).
Proof.
  induction l as [|a l IH]; simpl; [reflexivity|].
  destruct (p a) eqn:Ep, (q a) eqn:Eq; simpl;
    rewrite ?Ep, ?Eq, IH; reflexivity.
Qed.

Section ResetTheorems.
Context {fw : Framework}.

Lemma tokens_for_after_delete d raw t :
  tokens_for d raw = [t] ->
  tokens_for
    (set_reset_tokens
       (filter (fun t' => negb (Nat.eqb (ResetToken.id t')
                                        (ResetToken.id t)))) d) raw
  = [].
Proof.
  unfold tokens_for. simpl. intros Ht.
  rewrite filter_filter_comm, Ht. simpl. now rewrite Nat.eqb_refl.
Qed.

Lemma tokens_for_after_consume d raw f :
  tokens_for
    (set_reset_tokens
       (filter (fun t => negb (has_token (sha1_hexdigest raw) t)))
       (set_users f d)) raw
  = [].
Proof. unfold tokens_for. simpl. apply filter_negb_self. Qed.

End ResetTheorems.

(** C4.  Life of a reset token.  (1) Validating a raw token whose row has
    an expiry before now deletes that row and shows "This reset link has
    expired."  (2) Validating a raw token whose hash no row stores shows
    "Invalid or expired reset token" and writes nothing.  (3) Consuming
    the token of the handshake with two equal passwords stores the new
    password on the account, deletes the rows of the token and clears the
    handshake; from then on, validating the same raw token shows "Invalid
    or expired reset token" at any time. *)
Theorem reset_token_lifecycle (fw : Framework) (w : World) :
  (forall now request raw t,
      tokens_for (db w) raw = [t] -> ResetToken.expiry_date t < now ->
      exists w',
        reset_user_password now request raw w
        = (Return (password_reset_page
                     [("error", VStr "This reset link has expired.");
                      ("token", VStr raw)]), w')
        /\ ~ In t (reset_tokens (db w'))
        /\ tokens_for (db w') raw = [])
  /\ (forall now request raw,
        tokens_for (db w) raw = [] ->
        reset_user_password now request raw w
        = (Return (password_reset_page
                     [("error", VStr "Invalid or expired reset token");
                      ("token", VStr raw)]), w))
  /\ (forall request username raw u,
        method request = POST ->
        s_user (session w) = Some username -> username <> "" ->
        s_token (session w) = Some raw -> raw <> "" ->
        option_string_eqb (dict_get (POST_data request) "password")
          (dict_get (POST_data request) "password_conf") = true ->
        NoDup (map User.id (users (db w))) ->
        users_named (db w) username = [u] ->
        exists w',
          reset_password request w = (Return (redirect (login_page u)), w')
          /\ users_named (db w') username
             = [set_password u (dict_get (POST_data request) "password")]
          /\ tokens_for (db w') raw = []
          /\ handshake w' = (None, None)
          /\ forall now again,
               reset_user_password now again raw w'
               = (Return (password_reset_page
                            [("error", VStr "Invalid or expired reset token");
                             ("token", VStr raw)]), w')).
Proof.
  split; [|split].
  - intros now request raw t Ht Hexp. eexists.
    split; [apply (validate_expired now request raw t w Ht Hexp)|].
    split.
    + simpl. intros Hin. apply filter_In in Hin. destruct Hin as [_ Hin].
      rewrite Nat.eqb_refl in Hin. discriminate.
    + now apply tokens_for_after_delete.
  - intros now request raw Ht. now apply validate_unknown.
  - intros request username raw u Hm Hu Hune Ht Htne Hpw Hnd Hnamed.
    eexists.
    split; [apply (consume_matching request username raw u w); assumption|].
    split; [apply (users_named_after_change _ _ _ _ Hnd Hnamed)|].
    split; [apply tokens_for_after_consume|].
    split; [reflexivity|].
    intros now again. apply validate_unknown. apply tokens_for_after_consume.
Qed.

(** On the sample world: the token expires at 300, so validating at 301
    deletes it; ["nope"] is unknown; consuming with the password ["new"]
    twice changes the password of bea and makes ["r4nd0m"] invalid. *)
Lemma reset_token_lifecycle_witness :
  let w := Sample.resetting in
  let t := ResetToken.mk 1 1 "sha1:r4nd0m" 300 false in
  let request :=
    Sample.post None [("password", "new"); ("password_conf", "new")] in
  (exists w',
      reset_user_password (fw := Sample.framework) 301 request "r4nd0m" w
      = (Return (password_reset_page
                   [("error", VStr "This reset link has expired.");
                    ("token", VStr "r4nd0m")]), w')
      /\ reset_tokens (db w') = [])
  /\ reset_user_password (fw := Sample.framework) 7 request "nope" w
     = (Return (password_reset_page
                  [("error", VStr "Invalid or expired reset token");
                   ("token", VStr "nope")]), w)
  /\ (exists w',
        reset_password (fw := Sample.framework) request w
        = (Return (redirect "login_buyer"), w')
        /\ map User.password (users (db w')) = [Some "new"]
        /\ reset_tokens (db w') = []
        /\ reset_user_password (fw := Sample.framework) 7 request "r4nd0m" w'
           = (Return (password_reset_page
                        [("error", VStr "Invalid or expired reset token");
                         ("token", VStr "r4nd0m")]), w')).
Proof.
  intros w t request.
  destruct (reset_token_lifecycle Sample.framework w) as (H1 & H2 & H3).
  split; [|split].
  - destruct (H1 301 request "r4nd0m" t eq_refl) as (w' & Hrun & _ & _);
      [reflexivity|].
    exists w'. split; [exact Hrun|].
    vm_compute in Hrun. now injection Hrun as <-.
  - apply H2. reflexivity.
  - destruct (H3 request "bea" "r4nd0m" Sample.buyer)
      as (w' & Hrun & Hu & Ht & _ & Hagain);
      try reflexivity; try discriminate.
    { repeat constructor. simpl. tauto. }
    exists w'. split; [exact Hrun|].
    pose proof (Hagain 7 request) as Hagain7.
    vm_compute in Hrun. injection Hrun as <-.
    repeat split.
Defined.

(** C8.  Consuming with two different passwords shows the form again
    with "Passwords do not match." and changes nothing: database (so
    credential and token row), session (so handshake) and messages are as
    before.  Hence the retry works: validating the same raw token at any
    time up to its expiry shows the form, and consuming with equal
    passwords then succeeds as it would have at first. *)
Theorem reset_mismatch_changes_nothing (fw : Framework) (w : World)
  (request : Request) (username raw : string) :
  method request = POST ->
  s_user (session w) = Some username -> username <> "" ->
  s_token (session w) = Some raw -> raw <> "" ->
  option_string_eqb (dict_get (POST_data request) "password")
    (dict_get (POST_data request) "password_conf") = false ->
  exists w',
    reset_password request w
    = (Return (password_reset_page
                 [("error", VStr "Passwords do not match.")]), w')
    /\ db w' = db w /\ session w' = session w /\ messages w' = messages w
    /\ (forall t u now again,
          tokens_for (db w) raw = [t] -> now <= ResetToken.expiry_date t ->
          find (fun u => Nat.eqb (User.id u) (ResetToken.user t))
               (users (db w)) = Some u ->
          exists w'',
            reset_user_password now again raw w'
            = (Return (password_reset_page
                         [("user_token", VResetToken t); ("token", VStr raw)]),
               w'')
            /\ tokens_for (db w'') raw = [t]
            /\ handshake w'' = (Some (User.username u), Some raw))
    /\ (forall u retry,
          method retry = POST ->
          option_string_eqb (dict_get (POST_data retry) "password")
            (dict_get (POST_data retry) "password_conf") = true ->
          NoDup (map User.id (users (db w))) ->
          users_named (db w) username = [u] ->
          exists w'',
            reset_password retry w' = (Return (redirect (login_page u)), w'')
            /\ users_named (db w'') username
               = [set_password u (dict_get (POST_data retry) "password")]
            /\ tokens_for (db w'') raw = []).
Proof.
  intros Hm Hu Hune Ht Htne Hpw.
  exists w.
  split; [apply (consume_mismatch request username raw w); assumption|].
  split; [reflexivity|]. split; [reflexivity|]. split; [reflexivity|].
  split.
  - intros t u now again Htok Hexp Hfind. eexists.
    split; [apply (validate_live now again raw t u w Htok Hexp Hfind)|].
    split; [exact Htok | reflexivity].
  - intros u retry Hm' Hpw' Hnd Hnamed. eexists.
    split; [apply (consume_matching retry username raw u w); assumption|].
    split; [apply (users_named_after_change _ _ _ _ Hnd Hnamed)|].
    apply tokens_for_after_consume.
Qed.

Lemma reset_mismatch_changes_nothing_witness :
  let w := Sample.resetting in
  let request :=
    Sample.post None [("password", "new"); ("password_conf", "nwe")] in
  let retry :=
    Sample.post None [("password", "new"); ("password_conf", "new")] in
  reset_password (fw := Sample.framework) request w
  = (Return (password_reset_page [("error", VStr "Passwords do not match.")]),
     w)
  /\ exists w'',
       reset_password (fw := Sample.framework) retry w
       = (Return (redirect "login_buyer"), w'')
       /\ map User.password (users (db w'')) = [Some "new"].
Proof.
  intros w request retry.
  destruct (reset_mismatch_changes_nothing Sample.framework w request
              "bea" "r4nd0m")
    as (w' & Hrun & Hdb & Hs & Hmsg & _ & Hretry);
    try reflexivity; try discriminate.
  assert (Hw : w' = w).
  { destruct w' as [d s m]. simpl in Hdb, Hs, Hmsg. now subst. }
  subst w'. split; [exact Hrun|].
  destruct (Hretry Sample.buyer retry) as (w'' & Hrun' & _ & _);
    try reflexivity.
  { repeat constructor. simpl. tauto. }
  exists w''. split; [exact Hrun'|].
  vm_compute in Hrun'. now injection Hrun' as <-.
Defined.

(** ** Reviews *)

Section Reviews.
Context {fw : Framework}.

(** A second review of the same product by the same user is refused
    with a message; no row is written. *)
Lemma create_review_refuses_second request pk product user w :
  get_product (db w) pk = Some product -> req_user request = Some user ->
  exists_ (reviews (db w)) (reviewed_by (User.id user) pk) = true ->
  create_review request pk w
  = (Return (redirect_pk "product_reviews_view" pk),
     mkWorld (db w) (session w)
       (messages w ++ [(ERROR, "You have already submitted a review.")])).
Proof.
  intros Hp Hu Hex. unfold create_review, bind, get_db. cbn beta iota.
  rewrite Hp, Hu, (get_product_id _ _ _ Hp), Hex. reflexivity.
Qed.

(** A first review is stored with the flag computed at that moment by
    the purchase lookup. *)
Lemma create_review_first request pk product user rating r comment w :
  get_product (db w) pk = Some product -> req_user request = Some user ->
  exists_ (reviews (db w)) (reviewed_by (User.id user) pk) = false ->
  method request = POST ->
  dict_get (POST_data request) "rating" = Some r ->
  py_int r = Some rating ->
  dict_get (POST_data request) "comment" = Some comment ->
  create_review request pk w
  = (Return (redirect_pk "product_reviews_view" pk),
     mkWorld
       (bump (set_reviews
                (fun l => l ++ [Review.mk (sequence (db w)) (User.id user)
                                  (Some pk) rating comment
                                  (has_purchased (db w) user product)])
                (db w)))
       (session w)
       (messages w ++ [(SUCCESS, "Your review has been submitted.")])).
Proof.
  intros Hp Hu Hex Hm Hr Hi Hc. unfold create_review, bind, get_db.
  cbn beta iota.
  rewrite Hp, Hu, (get_product_id _ _ _ Hp), Hex, Hm, Hr, Hi, Hc.
  reflexivity.
Qed.

End Reviews.

(** C3 fails on the code.  [has_purchased] compares the name stored in
    [OrderItem.product] with the name of the reviewed product, so a
    purchase of a namesake in another store verifies the review.  Here
    the buyer orders product ["C"] (a "Mug" of store 2) and nothing else,
    then reviews product ["A"] (the "Mug" of store 1), which was never in
    any cart or order of the buyer: the review is stored with
    [is_verified = true]. *)
Theorem review_verified_by_namesake_purchase :
  exists w1 w2,
    cart_items (db Sample.two_mugs) = [CartItem.mk 2 1 "C" 1]
    /\ checkout true (Sample.post (Some Sample.buyer) []) Sample.two_mugs
       = (Return (redirect "buyer_home"), w1)
    /\ order_items (db w1) = [OrderItem.mk 4 3 "Mug" 1 1200]
    /\ create_review (fw := Sample.framework)
         (Sample.post (Some Sample.buyer) Sample.review_form) "A" w1
       = (Return (redirect_pk "product_reviews_view" "A"), w2)
    /\ reviews (db w2) = [Review.mk 5 1 (Some "A") 5 "Great" true].
Proof.
  set (w1 := snd (checkout true (Sample.post (Some Sample.buyer) [])
                    Sample.two_mugs)).
  exists w1.
  exists (snd (create_review (fw := Sample.framework)
                 (Sample.post (Some Sample.buyer) Sample.review_form) "A" w1)).
  vm_compute. repeat split.
Qed.

(** The converse failure: the buyer orders the pen (product ["B"]), the
    vendor renames it, and the review of the pen by its buyer is stored
    unverified. *)
Example review_unverified_after_rename :
  let w1 := snd (checkout true (Sample.post (Some Sample.buyer) [])
                   Sample.at_checkout) in
  let rename :=
    Sample.post (Some Sample.vendor)
      [("product_name", "Biro"); ("price", "500"); ("description", "A pen")] in
  let w2 := snd (update_product (fw := Sample.framework) rename "B" w1) in
  let w3 := snd (create_review (fw := Sample.framework)
                   (Sample.post (Some Sample.buyer) Sample.review_form)
                   "B" w2) in
  order_items (db w2)
  = [OrderItem.mk 5 4 "Mug" 2 2000; OrderItem.mk 6 4 "Pen" 1 500]
  /\ option_map Product.product_name (get_product (db w2) "B") = Some "Biro"
  /\ reviews (db w3) = [Review.mk 7 1 (Some "B") 5 "Great" false].
Proof. vm_compute. repeat split. Qed.

(** ** Catalogue *)

(** C5 as worded does not hold: [api.views.add_product] asks for
    [add_store], so an account with [add_store] and without
    [add_product] creates a product through it. *)
Lemma gate_by_named_permission_fails :
  ~ gate_by_named_permission Sample.framework.
Proof.
  intros H.
  destruct (H (ApiAddProduct "D")
              (Sample.post (Some Sample.storekeeper) Sample.product_form_data)
              Sample.two_mugs eq_refl) as [Hdb _].
  vm_compute in Hdb. discriminate Hdb.
Qed.

(** C5, as the code has it.  When the user of the request lacks the
    permission that the handler checks — the permission named after the
    operation, except that the API endpoint creating a product checks
    [add_store] — the handler leaves database, session and messages as
    they were; an API endpoint then answers 401 without authentication,
    whatever the method, and to an authenticated user 405 for a method
    other than POST and 403 for a POST. *)
Theorem gate_by_checked_permission (fw : Framework) (op : catalogue_op)
  (request : Request) (w : World) :
  permitted request (checked_permission op) = None ->
  exists r,
    run_op op request w = (r, w)
    /\ (is_api op = true ->
        exists status data,
          r = Return (Some (JsonResponse status data))
          /\ status = match req_user request, method request with
                      | None, _ => 401%nat
                      | Some _, GET => 405%nat
                      | Some _, POST => 403%nat
                      end).
Proof.
  intros Hperm.
  destruct op; simpl in Hperm |- *;
    unfold create_store, update_store, delete_store, create_product,
           update_product, delete_product;
    rewrite ?Hperm;
    try (eexists; split; [reflexivity | discriminate]).
  - unfold add_store, bind.
    unfold permitted in Hperm.
    destruct (req_user request) as [u|]; [|eexists; split; [reflexivity|eauto]].
    destruct (method request); [eexists; split; [reflexivity|eauto]|].
    destruct (has_perm u "online_store.add_store"); [discriminate|].
    eexists; split; [reflexivity|eauto].
  - unfold add_product, bind.
    unfold permitted in Hperm.
    destruct (req_user request) as [u|]; [|eexists; split; [reflexivity|eauto]].
    destruct (method request); [eexists; split; [reflexivity|eauto]|].
    destruct (has_perm u "online_store.add_store"); [discriminate|].
    eexists; split; [reflexivity|eauto].
Qed.

(** The buyer, who has no permission, asks for the deletion of store 1
    and nothing is deleted; asking the API for a store, the buyer is
    answered 403, and a GET without credentials is answered 401. *)
Lemma gate_by_checked_permission_witness :
  let request := Sample.post (Some Sample.buyer) Sample.store_form_data in
  permitted request (checked_permission (DeleteStore "store-1")) = None
  /\ (exists r,
        run_op (fw := Sample.framework) (DeleteStore "store-1") request
          Sample.two_mugs = (r, Sample.two_mugs))
  /\ (exists data,
        run_op (fw := Sample.framework) (ApiAddStore "S")
          (mkRequest None GET []) Sample.two_mugs
        = (Return (Some (JsonResponse 401 data)), Sample.two_mugs))
  /\ permitted request (checked_permission (ApiAddStore "S")) = None
  /\ (exists data,
        run_op (fw := Sample.framework) (ApiAddStore "S") request
          Sample.two_mugs
        = (Return (Some (JsonResponse 403 data)), Sample.two_mugs)).
Proof.
  intros request.
  split; [reflexivity|]. split; [|split].
  2:{ destruct (gate_by_checked_permission Sample.framework
                  (ApiAddStore "S") (mkRequest None GET []) Sample.two_mugs
                  eq_refl)
        as (r & Hrun & Hapi).
      destruct (Hapi eq_refl) as (status & data & -> & ->).
      exists data. exact Hrun. }
  - destruct (gate_by_checked_permission Sample.framework
                (DeleteStore "store-1") request Sample.two_mugs eq_refl)
      as (r & Hrun & _).
    exists r. exact Hrun.
  - split; [reflexivity|].
    destruct (gate_by_checked_permission Sample.framework
                (ApiAddStore "S") request Sample.two_mugs eq_refl)
      as (r & Hrun & Hapi).
    destruct (Hapi eq_refl) as (status & data & -> & ->).
    exists data. exact Hrun.
Defined.

(** Without the permission a web view falls off its end: the handler
    returns [None], neither a redirect nor a denial. *)
Example delete_store_without_permission :
  delete_store (Sample.post (Some Sample.buyer) []) "store-1" Sample.two_mugs
  = (Return None, Sample.two_mugs).
Proof. reflexivity. Qed.

Section Uniqueness.
Context {fw : Framework}.

Lemma get_product_None d k :
  get_product d k = None ->
  exists_ (products d) (fun p => String.eqb (Product.product_id p) k) = false.
Proof.
  unfold get_product, exists_. intros H.
  destruct (existsb _ (products d)) eqn:E; [|reflexivity].
  apply existsb_exists in E. destruct E as (p & Hin & Hp).
  now rewrite (find_none _ _ H p Hin) in Hp.
Qed.

Lemma name_taken_iff d n s k :
  get_product d k = None ->
  name_taken d n (Some s) k = true <-> store_has_name d s n.
Proof.
  intros Hk. unfold name_taken, exists_, store_has_name.
  rewrite existsb_exists. split.
  - intros (p & Hin & Hp).
    apply andb_true_iff in Hp. destruct Hp as [Hp _].
    apply andb_true_iff in Hp. destruct Hp as [Hn Hs].
    exists p. split; [assumption|]. split; [now apply String.eqb_eq|].
    destruct (Product.store p) as [s'|]; [|discriminate].
    simpl in Hs. apply String.eqb_eq in Hs. now subst.
  - intros (p & Hin & Hn & Hs). exists p. split; [assumption|].
    rewrite Hn, Hs. simpl. rewrite !String.eqb_refl. simpl.
    unfold get_product in Hk. now rewrite (find_none _ _ Hk p Hin).
Qed.

(** A store for an owner who has one: the API refuses with 400. *)
Lemma add_store_second new_id request user w :
  req_user request = Some user ->
  has_perm user "online_store.add_store" = true ->
  method request = POST ->
  exists_ (stores (db w)) (owned_by user) = true ->
  add_store new_id request w
  = (Return (JsonResponse 400
               [("error", "Each user may only own one store")]), w).
Proof.
  intros Hu Hp Hm Hs. unfold add_store, bind, get_db.
  rewrite Hm, Hu, Hp. cbn [negb]. cbn beta iota. now rewrite Hs.
Qed.

(** A store for an owner who has one: the web view writes nothing; with
    a valid form the unique [owner] makes the insert fail. *)
Lemma create_store_second new_id request user w :
  req_user request = Some user ->
  exists_ (stores (db w)) (owned_by user) = true ->
  exists r,
    create_store new_id request w = (r, w)
    /\ r <> Return (Some (redirect "seller_home"))
    /\ (has_perm user "online_store.add_store" = true ->
        method request = POST ->
        (exists cleaned, StoreForm_clean (POST_data request) = inl cleaned) ->
        r = Raise IntegrityError).
Proof.
  intros Hu Hs. unfold create_store, permitted. rewrite Hu.
  destruct (has_perm user "online_store.add_store");
    [|eexists; split; [reflexivity|]; split; [discriminate|discriminate]].
  destruct (method request);
    [eexists; split; [reflexivity|]; split; [discriminate|discriminate]|].
  destruct (StoreForm_clean (POST_data request)) as [[name desc]|errors].
  - unfold bind, insert_store, bind, get_db. cbn beta iota.
    assert (Hdup : exists_ (stores (db w))
              (fun s' => String.eqb (Store.store_id s') new_id
                         || Nat.eqb (Store.owner s') (User.id user)) = true).
    { unfold exists_, owned_by in *. apply existsb_exists.
      apply existsb_exists in Hs. destruct Hs as (s & Hin & Hs).
      exists s. split; [assumption|]. rewrite Hs. apply orb_true_r. }
    simpl. rewrite Hdup.
    eexists. split; [reflexivity|]. split; [discriminate|reflexivity].
  - eexists. split; [reflexivity|]. split; [discriminate|].
    intros _ _ [cleaned Hc]. discriminate.
Qed.

(** [create_product] with a valid form, for the owner of [store]. *)
Lemma create_product_checks_name new_id request user store f w :
  req_user request = Some user ->
  has_perm user "online_store.add_product" = true ->
  method request = POST ->
  ProductForm_clean (POST_data request) = inl f ->
  filter (owned_by user) (stores (db w)) = [store] ->
  get_product (db w) new_id = None ->
  create_product new_id request w
  = if name_taken (db w) (f_product_name f) (Some (Store.store_id store))
         new_id
    then (Return (Some (render product_form
                          [("form", VForm duplicate_name_error)])), w)
    else (Return (Some (redirect "seller_home")),
          mkWorld
            (set_products
               (fun l => l ++ [Product.mk (Some (Store.store_id store))
                                 new_id (f_product_name f) (f_price f)
                                 (image_or_default (f_image f))
                                 (f_description f)])
               (db w))
            (session w) (messages w)).
Proof.
  intros Hu Hp Hm Hf Hs Hk. unfold create_product, permitted.
  rewrite Hu, Hp, Hm, Hf.
  unfold bind at 1. unfold get_db at 1. cbn beta iota.
  unfold bind at 1. unfold lift at 1, objects_get. rewrite Hs.
  destruct (name_taken _ _ _ _); [reflexivity|].
  unfold bind, insert_product, bind, get_db, modify_db, ret. cbn beta iota.
  simpl. now rewrite (get_product_None _ _ Hk).
Qed.

End Uniqueness.

(** C7.  Uniqueness on creation, where the web view departs from it.
    For an owner who already has a store the creation of a second one is
    not refused by [create_store]: the view has no check of the owner,
    so with the permission and a valid form it goes on to the insert,
    and the unique [owner] column ends the request in an uncaught
    [IntegrityError] — no form error and no message.  Nothing is written.
    On the same state and for the same user the API endpoint [add_store]
    does check the owner, and answers 400 "Each user may only own one
    store". *)
Theorem second_store_ends_in_integrity_error (fw : Framework)
  (new_id : uuid) (request : Request) (user : User.t) (w : World) :
  req_user request = Some user ->
  has_perm user "online_store.add_store" = true ->
  method request = POST ->
  exists_ (stores (db w)) (owned_by user) = true ->
  (exists cleaned, StoreForm_clean (POST_data request) = inl cleaned) ->
  create_store new_id request w = (Raise IntegrityError, w)
  /\ add_store new_id request w
     = (Return (JsonResponse 400
                  [("error", "Each user may only own one store")]), w).
Proof.
  intros Hu Hp Hm Hs Hc.
  split; [|apply (add_store_second new_id request user w); assumption].
  destruct (create_store_second new_id request user w Hu Hs)
    as (r & Hrun & _ & Hint).
  now rewrite Hrun, (Hint Hp Hm Hc).
Qed.

(** The vendor owns store 1 and posts a valid form for a second store:
    the web view ends in the integrity error, the API answers 400. *)
Lemma second_store_ends_in_integrity_error_witness :
  let request := Sample.post (Some Sample.vendor) Sample.store_form_data in
  create_store (fw := Sample.framework) "S" request Sample.two_mugs
  = (Raise IntegrityError, Sample.two_mugs)
  /\ add_store (fw := Sample.framework) "S" request Sample.two_mugs
     = (Return (JsonResponse 400
                  [("error", "Each user may only own one store")]),
        Sample.two_mugs).
Proof.
  intros request.
  exact (second_store_ends_in_integrity_error Sample.framework "S" request
           Sample.vendor Sample.two_mugs eq_refl eq_refl eq_refl eq_refl
           (ex_intro _ _ eq_refl)).
Defined.

(* ===================================================================== *)
(** * Properties of the other views *)
(* ===================================================================== *)

(** ** Session cart: update and removal *)

Lemma dict_get_pop_other {V} (d : dict V) k k' :
  k' <> k -> dict_get (dict_pop d k) k' = dict_get d k'.
Proof.
  intros Hne. induction d as [|[k0 v0] d IH]; simpl; [reflexivity|].
  destruct (String.eqb_spec k0 k); simpl.
  - subst. destruct (String.eqb_spec k k'); congruence.
  - now rewrite IH.
Qed.

Lemma dict_pop_keys_subset {V} (d : dict V) k x :
  In x (map fst (dict_pop d k)) -> In x (map fst d).
Proof.
  induction d as [|[k0 v0] d IH]; simpl; [tauto|].
  destruct (String.eqb k0 k); simpl; tauto.
Qed.

Lemma dict_pop_NoDup {V} (d : dict V) k :
  NoDup (map fst d) -> NoDup (map fst (dict_pop d k)).
Proof.
  induction d as [|[k0 v0] d IH]; simpl; intros H; [constructor|].
  apply NoDup_cons_iff in H. destruct H as [Hk Hd].
  destruct (String.eqb k0 k); simpl; [assumption|].
  constructor; [|auto].
  intros Hin. apply Hk. eapply dict_pop_keys_subset; eauto.
Qed.

Lemma dict_get_pop_same {V} (d : dict V) k :
  NoDup (map fst d) -> dict_get (dict_pop d k) k = None.
Proof.
  induction d as [|[k0 v0] d IH]; simpl; intros H; [reflexivity|].
  apply NoDup_cons_iff in H. destruct H as [Hk Hd].
  destruct (String.eqb_spec k0 k); simpl.
  - subst. now apply dict_get_None_not_key.
  - destruct (String.eqb_spec k0 k); [congruence | auto].
Qed.

Lemma posted_nonempty request k v :
  posted request k = Some v -> v <> "".
Proof.
  unfold posted. destruct (dict_get _ _) as [[|a s]|]; congruence.
Qed.

(** X1.  Anonymous [update_cart].  A removal takes the entry of the
    product out of the session cart.  A quantity update stores the posted
    quantity itself when it is positive (it replaces the old quantity,
    it is not added to it), removes the entry when it is zero or
    negative, and leaves the cart as it was when the quantity is missing
    or no integer.  A request with both fields is a removal.  The other
    entries, the database and the messages are never touched. *)
Theorem update_cart_session (fw : Framework) (w : World) (request : Request) :
  req_user request = None -> method request = POST ->
  NoDup (map fst (session_cart w)) ->
  exists w',
    update_cart request w = (Return (redirect "view_cart"), w')
    /\ db w' = db w /\ messages w' = messages w
    /\ NoDup (map fst (session_cart w'))
    /\ (forall k, posted request "remove_item" = Some k ->
          dict_get (session_cart w') k = None
          /\ forall k', k' <> k ->
               dict_get (session_cart w') k' = dict_get (session_cart w) k')
    /\ (forall k, posted request "remove_item" = None ->
          posted request "update_item" = Some k ->
          (forall k', k' <> k ->
             dict_get (session_cart w') k' = dict_get (session_cart w) k')
          /\ dict_get (session_cart w') k
             = match posted_quantity request k with
               | Some q => if 0 <? q then Some q else None
               | None => dict_get (session_cart w) k
               end).
Proof.
  intros Hu Hm Hnd. unfold update_cart. rewrite Hm, Hu. simpl.
  unfold bind at 1. unfold get_session at 1. cbn beta iota.
  fold (session_cart w). set (cart := session_cart w) in *.
  destruct (posted request "remove_item") as [k|] eqn:Hr.
  - eexists. split; [reflexivity|]. unfold session_cart. simpl.
    split; [reflexivity|]. split; [reflexivity|].
    split; [now apply dict_pop_NoDup|]. split.
    + intros k0 [= <-]. split; [now apply dict_get_pop_same|].
      intros k' Hne. now apply dict_get_pop_other.
    + discriminate.
  - destruct (posted request "update_item") as [k|] eqn:Hupd.
    + eexists. split; [reflexivity|]. unfold session_cart. simpl.
      split; [reflexivity|]. split; [reflexivity|].
      split.
      { destruct (posted_quantity request k) as [q|]; [|assumption].
        destruct (0 <? q); [now apply dict_set_NoDup | now apply dict_pop_NoDup]. }
      split; [discriminate|].
      intros k0 _ [= <-]. split.
      * intros k' Hne.
        destruct (posted_quantity request k) as [q|]; [|reflexivity].
        destruct (0 <? q);
          [now apply dict_get_set_other | now apply dict_get_pop_other].
      * destruct (posted_quantity request k) as [q|]; [|reflexivity].
        destruct (0 <? q);
          [apply dict_get_set_same | now apply dict_get_pop_same].
    + exists w. split; [reflexivity|].
      split; [reflexivity|]. split; [reflexivity|]. split; [assumption|].
      split; discriminate.
Qed.

(** The session cart [{A: 2, B: 1}]: setting A to 7 gives [{A: 7, B: 1}],
    setting it to 0 or removing it gives [{B: 1}]. *)
Lemma update_cart_session_witness :
  let w := mkWorld Sample.empty_db
             (mkSession (Some [("A", 2); ("B", 1)]) None None) [] in
  let set q := anonymous_post [("update_item", "A"); ("quantity_A", q)] in
  (exists w',
      update_cart (fw := Sample.framework) (set "7") w
      = (Return (redirect "view_cart"), w')
      /\ dict_get (session_cart w') "A" = Some 7
      /\ dict_get (session_cart w') "B" = Some 1)
  /\ (exists w',
        update_cart (fw := Sample.framework) (set "0") w
        = (Return (redirect "view_cart"), w')
        /\ dict_get (session_cart w') "A" = None)
  /\ (exists w',
        update_cart (fw := Sample.framework)
          (anonymous_post [("remove_item", "A"); ("update_item", "A");
                           ("quantity_A", "9")]) w
        = (Return (redirect "view_cart"), w')
        /\ dict_get (session_cart w') "A" = None).
Proof.
  intros w set.
  assert (Hnd : NoDup (map fst (session_cart w))).
  { simpl. repeat constructor; simpl; intuition discriminate. }
  split; [|split].
  - destruct (update_cart_session Sample.framework w (set "7")
                eq_refl eq_refl Hnd)
      as (w' & Hrun & _ & _ & _ & _ & Hset).
    destruct (Hset "A" eq_refl eq_refl) as [Hother Hsame].
    exists w'. split; [exact Hrun|]. split; [exact Hsame|].
    now rewrite (Hother "B") by discriminate.
  - destruct (update_cart_session Sample.framework w (set "0")
                eq_refl eq_refl Hnd)
      as (w' & Hrun & _ & _ & _ & _ & Hset).
    destruct (Hset "A" eq_refl eq_refl) as [_ Hsame].
    exists w'. split; [exact Hrun | exact Hsame].
  - destruct (update_cart_session Sample.framework w
                (anonymous_post [("remove_item", "A"); ("update_item", "A");
                                 ("quantity_A", "9")])
                eq_refl eq_refl Hnd)
      as (w' & Hrun & _ & _ & _ & Hrem & _).
    destruct (Hrem "A" eq_refl) as [Hsame _].
    exists w'. split; [exact Hrun | exact Hsame].
Defined.

(** ** Database cart: update and removal *)

Lemma NoDup_map_filter {A B} (f : A -> B) (p : A -> bool) l :
  NoDup (map f l) -> NoDup (map f (filter p l)).
Proof.
  induction l as [|a l IH]; simpl; intros H; [constructor|].
  apply NoDup_cons_iff in H. destruct H as [Ha Hl].
  destruct (p a); simpl; [|auto].
  constructor; [|auto].
  intros Hin. apply Ha. apply in_map_iff in Hin.
  destruct Hin as (x & Hx & Hin). apply filter_In in Hin.
  rewrite <- Hx. apply in_map. tauto.
Qed.










(** ** Invariants of the carts *)









Section CartInvariants.
Context {fw : Framework}.



End CartInvariants.








(** ** The cart page *)

Lemma select_related_resolved d l lines :
  resolve_items d l = Return lines -> select_related_items d l = lines.
Proof.
  revert lines. induction l as [|r l IH]; simpl; intros lines.
  - now intros [= <-].
  - destruct (get_product d (CartItem.items r)); [|discriminate].
    destruct (resolve_items d l) as [rest|]; [|discriminate].
    intros [= <-]. now rewrite (IH rest).
Qed.

Lemma sum_subtotals_lines lines : forall acc,
  fold_left (fun acc line => acc + snd line)
    (map (fun ip : CartItem.t * Product.t =>
            cart_line (snd ip) (CartItem.quantity (fst ip))) lines) acc
  = fold_left
      (fun acc line =>
         acc + Product.price (snd line) * CartItem.quantity (fst line))
      lines acc.
Proof.
  induction lines as [|[item product] lines IH]; intros acc; simpl;
    [reflexivity | apply IH].
Qed.

Lemma order_lines_prices first order lines :
  map OrderItem.price (order_lines first order lines)
  = map (fun ip : CartItem.t * Product.t =>
           Product.price (snd ip) * CartItem.quantity (fst ip)) lines.
Proof.
  revert first. induction lines as [|[item product] lines IH]; intros first;
    simpl; [reflexivity | now rewrite IH].
Qed.

(** X4.  The cart page and the order agree.  For a logged-in user with a
    non-empty cart whose items all have their product, the total on the
    cart page is the [total_price] of the order that a checkout of the
    same state creates, and the subtotals of the lines on the page are,
    in order, the prices of the order items.  The page itself writes
    nothing. *)
Theorem cart_page_total_is_order_total (w : World) (shown request : Request)
  (user : User.t) (cart : Cart.t) (lines : list (CartItem.t * Product.t)) :
  req_user shown = Some user ->
  req_user request = Some user -> method request = POST ->
  cart_of (db w) user = Some cart ->
  cartitem_set (db w) cart <> [] ->
  resolve_items (db w) (cartitem_set (db w) cart) = Return lines ->
  exists page_lines total w',
    view_cart shown w = (Return (cart_page page_lines total), w)
    /\ checkout true request w = (Return (redirect "buyer_home"), w')
    /\ orders (db w')
       = orders (db w) ++ [Order.mk (sequence (db w)) (User.id user) total]
    /\ exists new_items,
         order_items (db w') = order_items (db w) ++ new_items
         /\ map OrderItem.price new_items
            = map (fun line : Product.t * Z * Decimal => snd line) page_lines.
Proof.
  intros Hs Hu Hm Hcart Hne Hlines.
  exists (map (fun ip => cart_line (snd ip) (CartItem.quantity (fst ip))) lines).
  exists (sum_prices lines). eexists. split; [|split].
  - unfold view_cart. rewrite Hs. unfold bind at 1. unfold view_cart_db.
    unfold bind at 1. unfold get_db at 1. cbn beta iota.
    unfold cart_of in Hcart.
    destruct (objects_get "Cart" (carts (db w)) _) as [c|e]; [|discriminate].
    injection Hcart as ->. unfold cartitem_set in Hlines.
    rewrite (select_related_resolved _ _ _ Hlines).
    unfold ret. cbn [fst snd]. unfold sum_subtotals, sum_prices.
    now rewrite sum_subtotals_lines.
  - apply (checkout_post true request user cart lines w Hu Hm Hcart Hlines Hne).
  - simpl. split; [reflexivity|]. eexists. split; [reflexivity|].
    rewrite order_lines_prices, map_map. reflexivity.
Qed.

Lemma cart_page_total_is_order_total_witness :
  let request := Sample.post (Some Sample.buyer) [] in
  exists page_lines w',
    view_cart request Sample.at_checkout
    = (Return (cart_page page_lines 2500), Sample.at_checkout)
    /\ checkout true request Sample.at_checkout
       = (Return (redirect "buyer_home"), w')
    /\ orders (db w') = [Order.mk 4 1 2500].
Proof.
  intros request.
  destruct (cart_page_total_is_order_total Sample.at_checkout request request
              Sample.buyer (Cart.mk 1 1)
              [(CartItem.mk 2 1 "A" 2, Sample.mug);
               (CartItem.mk 3 1 "B" 1, Sample.pen)]
              eq_refl eq_refl eq_refl eq_refl)
    as (page_lines & total & w' & Hpage & Hrun & Horders & _);
    [discriminate | reflexivity |].
  assert (Ht : total = 2500).
  { vm_compute in Hpage. now injection Hpage as _ <-. }
  subst total. exists page_lines, w'. repeat split; assumption.
Defined.

(** ** The cart badge *)

Lemma sum_values_acc (d : dict Z) : forall acc,
  fold_left (fun acc e => acc + snd e) d acc = acc + sum_values d.
Proof.
  unfold sum_values. induction d as [|[k v] d IH]; intros acc; simpl.
  - lia.
  - rewrite (IH (acc + v)), (IH v). lia.
Qed.

Lemma sum_values_cons k v (d : dict Z) :
  sum_values ((k, v) :: d) = v + sum_values d.
Proof. unfold sum_values at 1. simpl. now rewrite sum_values_acc. Qed.

Lemma sum_values_dict_set (d : dict Z) k v :
  sum_values (dict_set d k v) = sum_values d - quantity_in d k + v.
Proof.
  unfold quantity_in. induction d as [|[k0 v0] d IH]; simpl.
  - rewrite sum_values_cons. unfold sum_values. simpl. lia.
  - destruct (String.eqb k0 k); rewrite !sum_values_cons; [lia|].
    rewrite IH. lia.
Qed.

Lemma sum_values_dict_pop (d : dict Z) k :
  sum_values (dict_pop d k) = sum_values d - quantity_in d k.
Proof.
  unfold quantity_in. induction d as [|[k0 v0] d IH]; simpl.
  - reflexivity.
  - destruct (String.eqb k0 k); rewrite !sum_values_cons; [lia|].
    rewrite IH. lia.
Qed.

(** X5.  The number on the cart badge of an anonymous visitor follows the
    session cart: an accepted add of [q] units raises it by [q]; a
    removal lowers it by the quantity the product had; a positive
    quantity update changes it by the difference to the former
    quantity. *)
Theorem cart_badge_follows_session_cart (fw : Framework) (w : World)
  (request : Request) (n : Z) :
  req_user request = None ->
  cart_context request w = (Return n, w) ->
  (forall item q,
      dict_get (POST_data request) "item" = Some item -> item <> "" ->
      int_quantity request = Some q -> 1 <= q ->
      exists r w',
        add_item_to_cart request w = (Return r, w')
        /\ cart_context request w' = (Return (n + q), w'))
  /\ (forall k,
        method request = POST -> posted request "remove_item" = Some k ->
        exists r w',
          update_cart request w = (Return r, w')
          /\ cart_context request w'
             = (Return (n - quantity_in (session_cart w) k), w'))
  /\ (forall k q,
        method request = POST -> posted request "remove_item" = None ->
        posted request "update_item" = Some k ->
        posted_quantity request k = Some q -> 0 < q ->
        exists r w',
          update_cart request w = (Return r, w')
          /\ cart_context request w'
             = (Return (n - quantity_in (session_cart w) k + q), w')).
Proof.
  intros Hu Hn.
  unfold cart_context in Hn. rewrite Hu in Hn.
  unfold bind, get_session, ret in Hn. injection Hn as Hn.
  fold (session_cart w) in Hn.
  split; [|split].
  - intros item q Hi Hne Hq Hq1. eexists. eexists.
    split; [apply (add_item_to_cart_anonymous request w _ _ Hu Hi Hne Hq Hq1)|].
    unfold cart_context. rewrite Hu. unfold bind, get_session, ret. simpl.
    rewrite sum_values_dict_set. f_equal. f_equal. lia.
  - intros k Hm Hr. unfold update_cart. rewrite Hm, Hu. simpl.
    unfold bind at 1. unfold get_session at 1. cbn beta iota. rewrite Hr.
    eexists. eexists. split; [reflexivity|].
    unfold cart_context. rewrite Hu. unfold bind, get_session, ret. simpl.
    fold (session_cart w). rewrite sum_values_dict_pop. now rewrite Hn.
  - intros k q Hm Hr Hupd Hq Hpos. unfold update_cart. rewrite Hm, Hu. simpl.
    unfold bind at 1. unfold get_session at 1. cbn beta iota.
    rewrite Hr, Hupd, Hq.
    destruct (Z.ltb_spec 0 q); [|lia].
    eexists. eexists. split; [reflexivity|].
    unfold cart_context. rewrite Hu. unfold bind, get_session, ret. simpl.
    fold (session_cart w). rewrite sum_values_dict_set. now rewrite Hn.
Qed.

(** With [{A: 2, B: 1}] the badge shows 3; after adding 4 of B it
    shows 7. *)
Lemma cart_badge_follows_session_cart_witness :
  let w := mkWorld Sample.empty_db
             (mkSession (Some [("A", 2); ("B", 1)]) None None) [] in
  let request := anonymous_post [("item", "B"); ("quantity", "4")] in
  cart_context request w = (Return 3, w)
  /\ exists r w',
       add_item_to_cart (fw := Sample.framework) request w = (Return r, w')
       /\ cart_context request w' = (Return 7, w').
Proof.
  intros w request. split; [reflexivity|].
  destruct (cart_badge_follows_session_cart Sample.framework w request 3
              eq_refl eq_refl) as (Hadd & _ & _).
  apply (Hadd "B" 4); try reflexivity; [discriminate | lia].
Defined.

(** ** Issue of a reset token *)

Section IssueTheorems.
Context {fw : Framework}.

(** A reset request for the address of one account: the token is
    written, then the mail is sent. *)
Lemma send_password_reset_found now raw delivered request email u w :
  method request = POST ->
  dict_get (POST_data request) "email" = Some email ->
  filter (fun u => String.eqb (User.email u) email) (users (db w)) = [u] ->
  send_password_reset now raw delivered request w
  = (if delivered then Return forgot_page else Raise SMTPException,
     mkWorld
       (bump (set_reset_tokens
                (fun l => l ++ [ResetToken.mk (sequence (db w)) (User.id u)
                                  (sha1_hexdigest raw) (now + 300) false])
                (db w)))
       (session w)
       (if delivered
        then messages w
             ++ [(SUCCESS,
                  "An email was sent to you with a password reset link.")]
        else messages w)).
Proof.
  intros Hm He Hu. unfold send_password_reset. rewrite Hm.
  unfold bind at 1. unfold get_db at 1. cbn beta iota.
  rewrite He. unfold objects_get. rewrite Hu.
  destruct delivered; reflexivity.
Qed.

Lemma tokens_for_after_issue d raw t :
  tokens_for d raw = [] -> ResetToken.token t = sha1_hexdigest raw ->
  tokens_for (bump (set_reset_tokens (fun l => l ++ [t]) d)) raw = [t].
Proof.
  unfold tokens_for. simpl. intros Hnone Ht.
  rewrite filter_app, Hnone. simpl. unfold has_token.
  now rewrite Ht, String.eqb_refl.
Qed.

End IssueTheorems.

(** X6.  Issue and validation of a reset token.  A reset request for the
    e-mail address of exactly one account, with a raw token whose hash is
    not stored yet, stores one token for that account: the hash of the
    raw token, unused, expiring 300 seconds after the request.  Validating
    the raw token up to that time shows the form and stages the user name
    of the account with the raw token in the session; validating it later
    reports the expiry and deletes the token. *)
Theorem issued_token_validates_for_five_minutes (fw : Framework) (w : World)
  (request : Request) (email raw : string) (u : User.t) (now : Z) :
  method request = POST ->
  dict_get (POST_data request) "email" = Some email ->
  filter (fun u => String.eqb (User.email u) email) (users (db w)) = [u] ->
  find (fun u' => Nat.eqb (User.id u') (User.id u)) (users (db w)) = Some u ->
  tokens_for (db w) raw = [] ->
  exists t w1,
    send_password_reset now raw true request w = (Return forgot_page, w1)
    /\ tokens_for (db w1) raw = [t]
    /\ ResetToken.user t = User.id u
    /\ ResetToken.expiry_date t = now + 300
    /\ ResetToken.used t = false
    /\ reset_tokens (db w1) = reset_tokens (db w) ++ [t]
    /\ (forall later again, later <= now + 300 ->
          exists w2,
            reset_user_password later again raw w1
            = (Return (password_reset_page
                         [("user_token", VResetToken t); ("token", VStr raw)]),
               w2)
            /\ handshake w2 = (Some (User.username u), Some raw)
            /\ tokens_for (db w2) raw = [t])
    /\ (forall later again, now + 300 < later ->
          exists w2,
            reset_user_password later again raw w1
            = (Return (password_reset_page
                         [("error", VStr "This reset link has expired.");
                          ("token", VStr raw)]), w2)
            /\ tokens_for (db w2) raw = []).
Proof.
  intros Hm He Hu Hfind Hfresh.
  set (t := ResetToken.mk (sequence (db w)) (User.id u) (sha1_hexdigest raw)
              (now + 300) false).
  exists t. eexists.
  split; [apply (send_password_reset_found now raw true request email u w
                   Hm He Hu)|].
  assert (Ht : tokens_for (bump (set_reset_tokens (fun l => l ++ [t]) (db w)))
                 raw = [t])
    by (now apply tokens_for_after_issue).
  simpl. split; [exact Ht|].
  split; [reflexivity|]. split; [reflexivity|]. split; [reflexivity|].
  split; [reflexivity|]. split.
  - intros later again Hlater. eexists. split.
    + apply (validate_live later again raw t u); [exact Ht | exact Hlater|].
      exact Hfind.
    + split; [reflexivity | exact Ht].
  - intros later again Hlater. eexists. split.
    + apply (validate_expired later again raw t); [exact Ht | exact Hlater].
    + cbn [db]. exact (tokens_for_after_delete _ raw t Ht).
Qed.

Lemma issued_token_validates_for_five_minutes_witness :
  let w := mkWorld (mkDB [Sample.buyer] [] [] [] [] [] [] [] [] 1)
             Sample.empty_session [] in
  let request := anonymous_post [("email", "bea@example.org")] in
  exists t w1 w2 w3,
    send_password_reset (fw := Sample.framework) 1000 "r4nd0m" true request w
    = (Return forgot_page, w1)
    /\ reset_tokens (db w1) = [t]
    /\ ResetToken.expiry_date t = 1300
    /\ reset_user_password (fw := Sample.framework) 1300 request "r4nd0m" w1
       = (Return (password_reset_page
                    [("user_token", VResetToken t); ("token", VStr "r4nd0m")]),
          w2)
    /\ handshake w2 = (Some "bea", Some "r4nd0m")
    /\ reset_user_password (fw := Sample.framework) 1301 request "r4nd0m" w1
       = (Return (password_reset_page
                    [("error", VStr "This reset link has expired.");
                     ("token", VStr "r4nd0m")]), w3)
    /\ reset_tokens (db w3) = [].
Proof.
  intros w request.
  destruct (issued_token_validates_for_five_minutes Sample.framework w request
              "bea@example.org" "r4nd0m" Sample.buyer 1000
              eq_refl eq_refl eq_refl eq_refl eq_refl)
    as (t & w1 & Hrun & _ & _ & Hexp & _ & Hrows & Hlive & Hdead).
  destruct (Hlive 1300 request ltac:(lia)) as (w2 & Hv & Hh & _).
  destruct (Hdead 1301 request ltac:(lia)) as (w3 & Hx & _).
  exists t, w1, w2, w3.
  split; [exact Hrun|]. split; [exact Hrows|]. split; [exact Hexp|].
  split; [exact Hv|]. split; [exact Hh|]. split; [exact Hx|].
  vm_compute in Hrun. injection Hrun as <-.
  vm_compute in Hx. now injection Hx as <-.
Defined.

(** X7.  Failures of the reset request.  For an e-mail address of no
    account (or no address at all) no token is stored and no mail is
    sent: the page comes back with the message "No account found with
    that email."  When the mail cannot be sent the request ends in the
    exception of the transport, and the token written before the send
    stays stored. *)
Theorem reset_request_failures (fw : Framework) (w : World)
  (request : Request) (now : Z) (raw : string) :
  method request = POST ->
  (forall delivered,
      match dict_get (POST_data request) "email" with
      | Some email =>
          filter (fun u => String.eqb (User.email u) email) (users (db w)) = []
      | None => True
      end ->
      send_password_reset now raw delivered request w
      = (Return forgot_page,
         mkWorld (db w) (session w)
           (messages w ++ [(ERROR, "No account found with that email.")])))
  /\ (forall email u,
        dict_get (POST_data request) "email" = Some email ->
        filter (fun u => String.eqb (User.email u) email) (users (db w)) = [u] ->
        tokens_for (db w) raw = [] ->
        exists t w',
          send_password_reset now raw false request w
          = (Raise SMTPException, w')
          /\ tokens_for (db w') raw = [t]
          /\ ResetToken.user t = User.id u
          /\ messages w' = messages w).
Proof.
  intros Hm. split.
  - intros delivered Hnone. unfold send_password_reset. rewrite Hm.
    unfold bind at 1. unfold get_db at 1. cbn beta iota.
    destruct (dict_get (POST_data request) "email") as [email|].
    + unfold objects_get. rewrite Hnone. reflexivity.
    + reflexivity.
  - intros email u He Hu Hfresh.
    exists (ResetToken.mk (sequence (db w)) (User.id u) (sha1_hexdigest raw)
              (now + 300) false).
    eexists.
    split; [apply (send_password_reset_found now raw false request email u w
                     Hm He Hu)|].
    simpl. split; [|split; reflexivity].
    now apply tokens_for_after_issue.
Qed.

Lemma reset_request_failures_witness :
  let w := mkWorld (mkDB [Sample.buyer] [] [] [] [] [] [] [] [] 1)
             Sample.empty_session [] in
  send_password_reset (fw := Sample.framework) 1000 "r4nd0m" true
    (anonymous_post [("email", "nobody@example.org")]) w
  = (Return forgot_page,
     mkWorld (db w) (session w)
       [(ERROR, "No account found with that email.")])
  /\ exists t w',
       send_password_reset (fw := Sample.framework) 1000 "r4nd0m" false
         (anonymous_post [("email", "bea@example.org")]) w
       = (Raise SMTPException, w')
       /\ tokens_for (fw := Sample.framework) (db w') "r4nd0m" = [t].
Proof.
  intros w. split.
  - destruct (reset_request_failures Sample.framework w
                (anonymous_post [("email", "nobody@example.org")])
                1000 "r4nd0m" eq_refl) as [Hnone _].
    apply (Hnone true). reflexivity.
  - destruct (reset_request_failures Sample.framework w
                (anonymous_post [("email", "bea@example.org")])
                1000 "r4nd0m" eq_refl) as [_ Hmail].
    destruct (Hmail "bea@example.org" Sample.buyer eq_refl eq_refl eq_refl)
      as (t & w' & Hrun & Ht & _).
    exists t, w'. split; assumption.
Defined.

(** X8.  The forgotten-password flow end to end.  Request a reset for
    the address of an account, open the link within five minutes, submit
    a new password twice: the account then has the new password, the
    token is gone, the handshake is cleared and the user is sent to the
    login page of the group. *)
Theorem forgotten_password_round_trip (fw : Framework) (w : World)
  (request opened submitted : Request) (email raw : string) (u : User.t)
  (now later : Z) :
  method request = POST ->
  dict_get (POST_data request) "email" = Some email ->
  filter (fun u => String.eqb (User.email u) email) (users (db w)) = [u] ->
  NoDup (map User.id (users (db w))) ->
  users_named (db w) (User.username u) = [u] ->
  User.username u <> "" -> raw <> "" ->
  tokens_for (db w) raw = [] ->
  later <= now + 300 ->
  method submitted = POST ->
  option_string_eqb (dict_get (POST_data submitted) "password")
    (dict_get (POST_data submitted) "password_conf") = true ->
  exists page w1 w2 w3,
    send_password_reset now raw true request w = (Return forgot_page, w1)
    /\ reset_user_password later opened raw w1 = (Return page, w2)
    /\ reset_password submitted w2 = (Return (redirect (login_page u)), w3)
    /\ users_named (db w3) (User.username u)
       = [set_password u (dict_get (POST_data submitted) "password")]
    /\ tokens_for (db w3) raw = []
    /\ handshake w3 = (None, None).
Proof.
  intros Hm He Hu Hnd Hnamed Hname Hraw Hfresh Hlater Hm' Hpw.
  set (t := ResetToken.mk (sequence (db w)) (User.id u) (sha1_hexdigest raw)
              (now + 300) false).
  assert (Hin : In u (users (db w))).
  { assert (H : In u (users_named (db w) (User.username u)))
      by (rewrite Hnamed; now left).
    unfold users_named in H. apply filter_In in H. apply H. }
  assert (Hfind : find (fun u' => Nat.eqb (User.id u') (User.id u))
                       (users (db w)) = Some u).
  { destruct (find _ (users (db w))) as [u'|] eqn:E.
    - apply find_some in E. destruct E as [Hu' Hid].
      apply Nat.eqb_eq in Hid.
      now rewrite (NoDup_map_inj_on User.id _ u' u Hnd Hu' Hin Hid).
    - pose proof (find_none _ _ E u Hin) as H. simpl in H.
      now rewrite Nat.eqb_refl in H. }
  eexists. eexists. eexists. eexists.
  split; [apply (send_password_reset_found now raw true request email u w
                   Hm He Hu)|].
  assert (Ht : tokens_for (bump (set_reset_tokens (fun l => l ++ [t]) (db w)))
                 raw = [t])
    by (now apply tokens_for_after_issue).
  split; [apply (validate_live later opened raw t u);
          [exact Ht | exact Hlater | exact Hfind]|].
  split; [apply (consume_matching submitted (User.username u) raw u);
          try assumption; reflexivity|].
  split; [exact (users_named_after_change _ _ u _ Hnd Hnamed)|].
  split; [apply tokens_for_after_consume | reflexivity].
Qed.

Lemma forgotten_password_round_trip_witness :
  let w := mkWorld (mkDB [Sample.buyer] [] [] [] [] [] [] [] [] 1)
             Sample.empty_session [] in
  exists page w1 w2 w3,
    send_password_reset (fw := Sample.framework) 1000 "r4nd0m" true
      (anonymous_post [("email", "bea@example.org")]) w
    = (Return forgot_page, w1)
    /\ reset_user_password (fw := Sample.framework) 1100
         (mkRequest None GET []) "r4nd0m" w1 = (Return page, w2)
    /\ reset_password (fw := Sample.framework)
         (anonymous_post [("password", "new"); ("password_conf", "new")]) w2
       = (Return (redirect "login_buyer"), w3)
    /\ map User.password (users (db w3)) = [Some "new"]
    /\ reset_tokens (db w3) = [].
Proof.
  intros w.
  destruct (forgotten_password_round_trip Sample.framework w
              (anonymous_post [("email", "bea@example.org")])
              (mkRequest None GET [])
              (anonymous_post [("password", "new"); ("password_conf", "new")])
              "bea@example.org" "r4nd0m" Sample.buyer 1000 1100)
    as (page & w1 & w2 & w3 & H1 & H2 & H3 & _);
    try reflexivity; try discriminate; try lia.
  { repeat constructor. simpl. tauto. }
  exists page, w1, w2, w3.
  split; [exact H1|]. split; [exact H2|]. split; [exact H3|].
  vm_compute in H1. injection H1 as <-.
  vm_compute in H2. injection H2 as _ <-.
  vm_compute in H3. injection H3 as <-.
  split; reflexivity.
Defined.

(** ** Listings of reviews and orders *)

(** X9.  A stored review is listed.  After a first review of a product
    is accepted, the review page of the product and the API endpoint
    list the same reviews, the new one among them, and every review they
    list is a review of that product.  A product without reviews gets a
    404 from the API endpoint. *)
Theorem accepted_review_is_listed (fw : Framework) (w : World)
  (request shown : Request) (pk r comment : string) (product : Product.t)
  (user : User.t) (rating : Z) :
  get_product (db w) pk = Some product -> req_user request = Some user ->
  exists_ (reviews (db w)) (reviewed_by (User.id user) pk) = false ->
  method request = POST ->
  dict_get (POST_data request) "rating" = Some r ->
  py_int r = Some rating ->
  dict_get (POST_data request) "comment" = Some comment ->
  method shown = GET ->
  exists w' new listed,
    create_review request pk w
    = (Return (redirect_pk "product_reviews_view" pk), w')
    /\ Review.user new = User.id user /\ Review.rating new = rating
    /\ Review.comment new = comment
    /\ product_reviews_view shown pk w'
       = (Return (Page 200 "online_store/product_reviews.html"
                    [("product", PProduct product);
                     ("reviews", PReviews listed)]), w')
    /\ review_view shown pk w' = (Return (Json 200 (JReviews listed)), w')
    /\ In new listed
    /\ (forall x, In x listed -> Review.product x = Some pk)
    /\ (exists_ (reviews (db w)) (review_of pk) = false ->
        review_view shown pk w
        = (Return (Json 404 (JObject [("detail", "No reviews found")])), w)).
Proof.
  intros Hp Hu Hex Hm Hr Hi Hc Hg.
  set (new := Review.mk (sequence (db w)) (User.id user) (Some pk) rating
                comment (has_purchased (db w) user product)).
  eexists. exists new.
  exists (filter (review_of pk) (reviews (db w) ++ [new])).
  split; [apply (create_review_first request pk product user rating r comment
                   w Hp Hu Hex Hm Hr Hi Hc)|].
  assert (Hnew : review_of pk new = true).
  { unfold review_of, new. simpl. apply String.eqb_refl. }
  split; [reflexivity|]. split; [reflexivity|]. split; [reflexivity|].
  split.
  { unfold product_reviews_view, bind, get_db, ret. cbn beta iota.
    unfold get_product in *. simpl. rewrite Hp.
    now rewrite (get_product_id (db w) pk product Hp). }
  split.
  { unfold review_view, bind, get_db, ret. rewrite Hg. cbn beta iota.
    cbn [db reviews set_reviews bump]. unfold exists_.
    rewrite existsb_app. cbn [existsb].
    match goal with
    | |- context [review_of pk ?x || false] =>
        replace (review_of pk x) with true by (symmetry; exact Hnew)
    end.
    rewrite orb_true_r. reflexivity. }
  split.
  { apply filter_In. split; [|exact Hnew].
    apply in_or_app. right. now left. }
  split.
  { intros x Hx. apply filter_In in Hx. destruct Hx as [_ Hx].
    unfold review_of in Hx.
    destruct (Review.product x) as [k|]; [|discriminate].
    simpl in Hx. apply String.eqb_eq in Hx. now subst. }
  intros Hnone. unfold review_view, bind, get_db, ret. rewrite Hg.
  cbn beta iota. now rewrite Hnone.
Qed.

Lemma accepted_review_is_listed_witness :
  let request := Sample.post (Some Sample.buyer) Sample.review_form in
  let shown := mkRequest None GET [] in
  exists w' listed,
    create_review (fw := Sample.framework) request "A" Sample.two_mugs
    = (Return (redirect_pk "product_reviews_view" "A"), w')
    /\ review_view shown "A" w' = (Return (Json 200 (JReviews listed)), w')
    /\ map Review.comment listed = ["Great"]
    /\ review_view shown "A" Sample.two_mugs
       = (Return (Json 404 (JObject [("detail", "No reviews found")])),
          Sample.two_mugs).
Proof.
  intros request shown.
  destruct (accepted_review_is_listed Sample.framework Sample.two_mugs
              request shown "A" "5" "Great" Sample.mug Sample.buyer 5
              eq_refl eq_refl eq_refl eq_refl eq_refl eq_refl eq_refl eq_refl)
    as (w' & new & listed & Hrun & _ & _ & _ & _ & Hapi & _ & _ & Hnone).
  exists w', listed. split; [exact Hrun|]. split; [exact Hapi|].
  split; [|apply Hnone; reflexivity].
  vm_compute in Hrun. injection Hrun as <-.
  vm_compute in Hapi. now injection Hapi as <-.
Defined.

Lemma orders_readable (l : list Order.t) (u : pk) :
  (forall o, In o l -> Order.user o = u ->
             Z.abs (Order.total_price o) <= max_decimal) ->
  forallb (fun o => readable (Order.total_price o))
    (rev (filter (fun o => Nat.eqb (Order.user o) u) l)) = true.
Proof.
  intros H. apply forallb_forall. intros o Ho.
  apply in_rev in Ho. apply filter_In in Ho. destruct Ho as [Ho Hu].
  apply Nat.eqb_eq in Hu. unfold readable. apply Z.leb_le. now apply H.
Qed.

(** X10.  A placed order heads the order history, when its total can be
    read back.  A checkout with the invoice delivered stores the order
    with the total of the cart, whatever the total.  When the total has
    at most the ten digits of the column, and so have the totals of the
    orders the user had, the order page of the user lists the new order
    first, followed by the orders listed before; every order on the page
    is an order of that user.  When the total has more digits, the order
    is stored all the same and the order page of the user ends in
    [decimal.InvalidOperation]. *)
Theorem placed_order_heads_history (w : World) (request shown : Request)
  (user : User.t) (cart : Cart.t) (lines : list (CartItem.t * Product.t)) :
  req_user request = Some user -> method request = POST ->
  req_user shown = Some user ->
  cart_of (db w) user = Some cart ->
  cartitem_set (db w) cart <> [] ->
  resolve_items (db w) (cartitem_set (db w) cart) = Return lines ->
  exists w',
    checkout true request w = (Return (redirect "buyer_home"), w')
    /\ orders (db w')
       = orders (db w)
         ++ [Order.mk (sequence (db w)) (User.id user) (sum_prices lines)]
    /\ (Z.abs (sum_prices lines) <= max_decimal ->
        (forall o, In o (orders (db w)) -> Order.user o = User.id user ->
                   Z.abs (Order.total_price o) <= max_decimal) ->
        exists before,
          user_orders_view shown w
          = (Return (Page 200 "online_store/orders/user_orders.html"
                       [("orders", POrders before)]), w)
          /\ user_orders_view shown w'
             = (Return (Page 200 "online_store/orders/user_orders.html"
                          [("orders",
                            POrders (Order.mk (sequence (db w)) (User.id user)
                                       (sum_prices lines) :: before))]), w')
          /\ (forall o, In o before -> Order.user o = User.id user))
    /\ (max_decimal < Z.abs (sum_prices lines) ->
        user_orders_view shown w' = (Raise InvalidOperation, w')).
Proof.
  intros Hu Hm Hs Hcart Hne Hlines.
  eexists. split; [|split; [|split]].
  - apply (checkout_post true request user cart lines w Hu Hm Hcart Hlines Hne).
  - reflexivity.
  - intros Hnew Hold. eexists. split; [|split].
    + unfold user_orders_view, bind, get_db, ret. rewrite Hs. cbn beta iota.
      now rewrite (orders_readable _ _ Hold).
    + unfold user_orders_view, bind, get_db, ret. rewrite Hs. cbn beta iota.
      simpl. rewrite filter_app, rev_app_distr. simpl.
      rewrite Nat.eqb_refl. simpl.
      rewrite (orders_readable _ _ Hold), andb_true_r.
      unfold readable. now rewrite (proj2 (Z.leb_le _ _) Hnew).
    + intros o Ho. apply in_rev in Ho. apply filter_In in Ho.
      now apply Nat.eqb_eq.
  - intros Hnew.
    unfold user_orders_view, bind, get_db, ret. rewrite Hs. cbn beta iota.
    simpl. rewrite filter_app, rev_app_distr. simpl.
    rewrite Nat.eqb_refl. simpl.
    unfold readable at 1. cbn [Order.total_price].
    now rewrite (proj2 (Z.leb_gt _ _) Hnew).
Qed.

(** The buyer checks out 2 mugs and 1 pen and finds the order of 25.00
    on the order page.  With 2 items of 99999999.99 in the cart the order
    is stored with the total 199999999.98 and the order page fails. *)
Lemma placed_order_heads_history_witness :
  let request := Sample.post (Some Sample.buyer) [] in
  let gem := Product.mk (Some "store-1") "A" "Gem" 9999999999 None "A gem" in
  let rich :=
    mkWorld (mkDB [Sample.buyer] [] [gem] [Cart.mk 1 1]
                  [CartItem.mk 2 1 "A" 2] [] [] [] [] 3)
            Sample.empty_session [] in
  (exists w',
     checkout true request Sample.at_checkout
     = (Return (redirect "buyer_home"), w')
     /\ user_orders_view request w'
        = (Return (Page 200 "online_store/orders/user_orders.html"
                     [("orders", POrders [Order.mk 4 1 2500])]), w'))
  /\ (exists w',
        checkout true request rich = (Return (redirect "buyer_home"), w')
        /\ orders (db w') = [Order.mk 3 1 19999999998]
        /\ user_orders_view request w' = (Raise InvalidOperation, w')).
Proof.
  intros request gem rich. split.
  - destruct (placed_order_heads_history Sample.at_checkout request request
                Sample.buyer (Cart.mk 1 1)
                [(CartItem.mk 2 1 "A" 2, Sample.mug);
                 (CartItem.mk 3 1 "B" 1, Sample.pen)]
                eq_refl eq_refl eq_refl eq_refl)
      as (w' & Hrun & _ & Hpage & _);
      [discriminate | reflexivity |].
    destruct Hpage as (before & Hbefore & Hafter & _).
    { vm_compute. discriminate. }
    { intros o []. }
    exists w'. split; [exact Hrun|].
    vm_compute in Hbefore. injection Hbefore as <-. exact Hafter.
  - destruct (placed_order_heads_history rich request request
                Sample.buyer (Cart.mk 1 1) [(CartItem.mk 2 1 "A" 2, gem)]
                eq_refl eq_refl eq_refl eq_refl)
      as (w' & Hrun & Horders & _ & Hfails);
      [discriminate | reflexivity |].
    exists w'. split; [exact Hrun|]. split; [exact Horders|].
    apply Hfails. reflexivity.
Defined.

(** ** Keys of the catalogue *)

Lemma option_uuid_eqb_eq a b : option_uuid_eqb a b = true <-> a = b.
Proof.
  destruct a as [x|], b as [y|]; simpl; try (split; congruence).
  rewrite String.eqb_eq. split; congruence.
Qed.

Lemma existsb_false_forall {A} (p : A -> bool) l :
  existsb p l = false -> forall x, In x l -> p x = false.
Proof.
  intros H x Hx. destruct (p x) eqn:E; [|reflexivity].
  assert (existsb p l = true) by (apply existsb_exists; eauto). congruence.
Qed.

(** A change of one row keeps a key column free of duplicates when the
    new key of the row is the key of no other row. *)
Lemma NoDup_map_update {A K} (key : A -> K) (upd : A -> A) (hit : A -> bool)
  (k' : K) (l : list A) :
  NoDup (map key l) ->
  (forall x y, In x l -> In y l -> hit x = true -> hit y = true -> x = y) ->
  (forall x, hit x = false -> upd x = x) ->
  (forall x, hit x = true -> key (upd x) = k') ->
  (forall x, In x l -> hit x = false -> key x <> k') ->
  NoDup (map key (map upd l)).
Proof.
  intros Hnd Hone Hmiss Hhit Hfree.
  induction l as [|a l IH]; simpl; [constructor|].
  simpl in Hnd. apply NoDup_cons_iff in Hnd. destruct Hnd as [Ha Hl].
  constructor.
  - intros Hin. rewrite map_map in Hin. apply in_map_iff in Hin.
    destruct Hin as (y & Hy & Hin).
    destruct (hit a) eqn:Ea, (hit y) eqn:Ey.
    + assert (a = y) by (apply Hone; simpl; auto). subst y.
      apply Ha. now apply in_map.
    + rewrite (Hmiss y Ey), (Hhit a Ea) in Hy.
      apply (Hfree y); simpl; auto.
    + rewrite (Hmiss a Ea), (Hhit y Ey) in Hy.
      apply (Hfree a); simpl; auto.
    + rewrite (Hmiss a Ea), (Hmiss y Ey) in Hy.
      apply Ha. rewrite <- Hy. now apply in_map.
  - apply IH; auto.
    + intros x y Hx Hy. apply Hone; simpl; auto.
    + intros x Hx. apply Hfree. simpl. auto.
Qed.

Lemma insert_store_keeps s w :
  catalogue_wf (db w) -> catalogue_wf (db (snd (insert_store s w))).
Proof.
  intros Hwf. unfold insert_store, bind, get_db. cbn beta iota.
  destruct (exists_ (stores (db w)) _) eqn:E; [exact Hwf|].
  destruct Hwf as (Hids & Howners & Hp).
  unfold catalogue_wf. simpl. rewrite !map_app. simpl.
  pose proof (existsb_false_forall _ _ E) as Hfree.
  split; [|split; [|exact Hp]].
  - apply NoDup_snoc; [assumption|]. intros Hin.
    apply in_map_iff in Hin. destruct Hin as (s' & Hs' & Hin).
    specialize (Hfree s' Hin). simpl in Hfree.
    rewrite Hs', String.eqb_refl in Hfree. discriminate.
  - apply NoDup_snoc; [assumption|]. intros Hin.
    apply in_map_iff in Hin. destruct Hin as (s' & Hs' & Hin).
    specialize (Hfree s' Hin). simpl in Hfree.
    rewrite Hs', Nat.eqb_refl, orb_true_r in Hfree. discriminate.
Qed.

Lemma insert_product_keeps p w :
  catalogue_wf (db w) ->
  (forall p', In p' (products (db w)) ->
     Product.product_id p' <> Product.product_id p ->
     (Product.store p', Product.product_name p')
     <> (Product.store p, Product.product_name p)) ->
  catalogue_wf (db (snd (insert_product p w))).
Proof.
  intros Hwf Hname. unfold insert_product, bind, get_db. cbn beta iota.
  destruct (exists_ (products (db w)) _) eqn:E; [exact Hwf|].
  destruct Hwf as (Hids & Howners & Hpids & Hkeys).
  unfold catalogue_wf. simpl. rewrite !map_app. simpl.
  pose proof (existsb_false_forall _ _ E) as Hfree.
  split; [assumption|]. split; [assumption|]. split.
  - apply NoDup_snoc; [assumption|]. intros Hin.
    apply in_map_iff in Hin. destruct Hin as (p' & Hp' & Hin).
    specialize (Hfree p' Hin). simpl in Hfree.
    rewrite Hp', String.eqb_refl in Hfree. discriminate.
  - apply NoDup_snoc; [assumption|]. intros Hin.
    apply in_map_iff in Hin. destruct Hin as (p' & Hp' & Hin).
    apply (Hname p' Hin); [|assumption].
    intros Hid. specialize (Hfree p' Hin). simpl in Hfree.
    rewrite Hid, String.eqb_refl in Hfree. discriminate.
Qed.

(** What a negative answer of the name check says. *)
Lemma name_free d n s k :
  name_taken d n s k = false ->
  forall p', In p' (products d) -> Product.product_id p' <> k ->
             (Product.store p', Product.product_name p') <> (s, n).
Proof.
  intros H p' Hin Hid [= Hs Hn].
  pose proof (existsb_false_forall _ _ H p' Hin) as Hp. simpl in Hp.
  rewrite Hn, Hs, String.eqb_refl in Hp.
  rewrite (proj2 (option_uuid_eqb_eq s s) eq_refl) in Hp. simpl in Hp.
  destruct (String.eqb_spec (Product.product_id p') k); [congruence|].
  discriminate.
Qed.

Lemma delete_products_keeps doomed d :
  catalogue_wf d -> catalogue_wf (delete_products doomed d).
Proof.
  intros (Hids & Howners & Hpids & Hkeys). unfold catalogue_wf. simpl.
  repeat split; try assumption; now apply NoDup_map_filter.
Qed.

Section CatalogueKeys.
Context {fw : Framework}.

(** X11.  The catalogue handlers keep the keys of the catalogue.  After
    any of the six web views and the two API endpoints, on any request:
    store keys and product keys are still distinct, no owner has two
    stores, and no store has two products of one name.  For the API
    endpoint that creates products this needs the serializer to return
    the posted [product_name] unchanged, since the endpoint checks the
    posted name and stores the cleaned one. *)
Theorem catalogue_keys_are_kept (op : catalogue_op) (request : Request)
  (w : World) :
  catalogue_wf (db w) ->
  (forall i, op = ApiAddProduct i -> posted_name_is_clean request) ->
  catalogue_wf (db (snd (run_op op request w))).
Proof.
  intros Hwf Hclean. pose proof Hwf as (Hids & Howners & Hpids & Hkeys).
  destruct op as [i|k|k|i|k|k|i|i]; simpl.
  - (* create_store *)
    unfold create_store. destruct (permitted request _) as [user|]; [|exact Hwf].
    destruct (method request); [exact Hwf|].
    destruct (StoreForm_clean _) as [[n d]|errors]; [|exact Hwf].
    unfold bind.
    pose proof (insert_store_keeps (Store.mk i (User.id user) n d) w Hwf) as H.
    destruct (insert_store _ w) as [[[]|e] w']; exact H.
  - (* update_store *)
    unfold update_store. destruct (permitted request _) as [user|]; [|exact Hwf].
    unfold bind at 1. unfold get_db at 1. cbn beta iota.
    destruct (get_store (db w) k) as [store|] eqn:Es; [|exact Hwf].
    destruct (method request); [exact Hwf|].
    destruct (StoreForm_clean _) as [[n d]|errors]; [|exact Hwf].
    unfold catalogue_wf. simpl. rewrite !map_map.
    unfold get_store in Es. apply find_some in Es. destruct Es as [Hin Hk].
    apply String.eqb_eq in Hk.
    split; [|split; [|split; assumption]].
    + erewrite map_ext; [exact Hids|]. intros s. simpl.
      destruct (String.eqb_spec (Store.store_id s) k); simpl; congruence.
    + erewrite map_ext_in; [exact Howners|]. intros s Hs. simpl.
      destruct (String.eqb_spec (Store.store_id s) k) as [E|]; [|reflexivity].
      simpl. f_equal.
      apply (NoDup_map_inj_on Store.store_id _ store s Hids Hin Hs).
      congruence.
  - (* delete_store *)
    unfold delete_store. destruct (permitted request _) as [user|]; [|exact Hwf].
    unfold bind at 1. unfold get_db at 1. cbn beta iota.
    destruct (get_store (db w) k) as [store|]; [|exact Hwf].
    unfold catalogue_wf. simpl.
    repeat split; now apply NoDup_map_filter.
  - (* create_product *)
    unfold create_product.
    destruct (permitted request _) as [user|]; [|exact Hwf].
    destruct (method request); [exact Hwf|].
    destruct (ProductForm_clean _) as [f|errors]; [|exact Hwf].
    unfold bind at 1. unfold get_db at 1. cbn beta iota.
    unfold bind at 1, lift at 1.
    destruct (objects_get "Store" (stores (db w)) _) as [store|e];
      [|exact Hwf].
    destruct (name_taken _ _ _ _) eqn:Et; [exact Hwf|].
    unfold bind.
    match goal with
    | |- context [insert_product ?p w] =>
        pose proof (insert_product_keeps p w Hwf) as H;
        destruct (insert_product p w) as [[[]|e] w'];
        apply H; simpl; exact (name_free _ _ _ _ Et)
    end.
  - (* update_product *)
    unfold update_product.
    destruct (permitted request _) as [user|]; [|exact Hwf].
    unfold bind at 1. unfold get_db at 1. cbn beta iota.
    destruct (get_product (db w) k) as [product|] eqn:Ep; [|exact Hwf].
    destruct (method request); [exact Hwf|].
    destruct (ProductForm_clean _) as [f|errors]; [|exact Hwf].
    destruct (name_taken _ _ _ _) eqn:Et; [exact Hwf|].
    rewrite (get_product_id _ _ _ Ep) in Et.
    unfold catalogue_wf. simpl.
    split; [assumption|]. split; [assumption|]. split.
    + rewrite map_map. erewrite map_ext; [exact Hpids|]. intros p. simpl.
      destruct (String.eqb_spec (Product.product_id p) k); simpl; congruence.
    + apply (NoDup_map_update _ _
               (fun p => String.eqb (Product.product_id p) k)
               (Product.store product, f_product_name f)); auto.
      * intros x y Hx Hy Ex Ey. apply String.eqb_eq in Ex, Ey.
        apply (NoDup_map_inj_on Product.product_id _ x y Hpids Hx Hy).
        congruence.
      * intros x Ex. now rewrite Ex.
      * intros x Ex. now rewrite Ex.
      * intros x Hx Ex. apply (name_free _ _ _ _ Et x Hx).
        now apply String.eqb_neq.
  - (* delete_product *)
    unfold delete_product.
    destruct (permitted request _) as [user|]; [|exact Hwf].
    unfold bind at 1. unfold get_db at 1. cbn beta iota.
    destruct (get_product (db w) k) as [product|]; [|exact Hwf].
    simpl. now apply delete_products_keeps.
  - (* api add_store *)
    unfold add_store, bind at 1.
    destruct (req_user request) as [user|]; [|exact Hwf].
    destruct (method request); [exact Hwf|].
    destruct (negb _); [exact Hwf|].
    unfold bind at 1. unfold get_db at 1. cbn beta iota.
    destruct (exists_ (stores (db w)) _); [exact Hwf|].
    destruct (StoreSerializer_clean _) as [[n d]|errors]; [|exact Hwf].
    unfold bind.
    pose proof (insert_store_keeps (Store.mk i (User.id user) n d) w Hwf) as H.
    destruct (insert_store _ w) as [[[]|e] w']; exact H.
  - (* api add_product *)
    specialize (Hclean i eq_refl). unfold posted_name_is_clean in Hclean.
    unfold add_product, bind at 1.
    destruct (req_user request) as [user|]; [|exact Hwf].
    destruct (method request); [exact Hwf|].
    destruct (negb (has_perm _ _)); [exact Hwf|].
    unfold bind at 1. unfold get_db at 1. cbn beta iota.
    destruct (negb (exists_ _ _)); [exact Hwf|].
    destruct (ProductSerializer_clean _) as [f|errors] eqn:Ef; [|exact Hwf].
    unfold bind at 1, lift at 1.
    destruct (objects_get "Store" (stores (db w)) _) as [store|e];
      [|exact Hwf].
    rewrite (Hclean f eq_refl).
    destruct (exists_ (products (db w)) _) eqn:Et; [exact Hwf|].
    unfold bind.
    match goal with
    | |- context [insert_product ?p w] =>
        pose proof (insert_product_keeps p w Hwf) as H;
        destruct (insert_product p w) as [[[]|e] w'];
        apply H; simpl;
        intros p' Hp' _ [= Hs Hn];
        pose proof (existsb_false_forall _ _ Et p' Hp') as Hf; simpl in Hf;
        rewrite Hn, Hs, String.eqb_refl in Hf; simpl in Hf;
        rewrite String.eqb_refl in Hf; discriminate
    end.
Qed.

End CatalogueKeys.

Lemma catalogue_keys_are_kept_witness :
  catalogue_wf
    (db (snd (run_op (fw := Sample.framework) (ApiAddProduct "D")
                (Sample.post (Some Sample.storekeeper)
                   [("product_name", "Pen"); ("price", "700");
                    ("description", "Another pen")])
                Sample.two_mugs)))
  /\ map Product.product_id
       (products
          (db (snd (run_op (fw := Sample.framework) (ApiAddProduct "D")
                      (Sample.post (Some Sample.storekeeper)
                         [("product_name", "Pen"); ("price", "700");
                          ("description", "Another pen")])
                      Sample.two_mugs))))
     = ["A"; "B"; "C"; "D"].
Proof.
  split; [|reflexivity].
  apply (catalogue_keys_are_kept (fw := Sample.framework)).
  - unfold catalogue_wf. simpl.
    repeat split; repeat constructor; simpl; intuition discriminate.
  - intros i _ f Hf. vm_compute in Hf. injection Hf as <-. reflexivity.
Defined.

(** ** Foreign keys *)

Lemma get_product_found d k :
  get_product d k <> None <-> In k (map Product.product_id (products d)).
Proof.
  unfold get_product. split.
  - destruct (find _ _) as [p|] eqn:E; [intros _|congruence].
    apply find_some in E. destruct E as [Hin Hk].
    apply String.eqb_eq in Hk. subst k. now apply in_map.
  - intros Hin. apply in_map_iff in Hin. destruct Hin as (p & <- & Hin).
    intros E. apply (find_none _ _ E) in Hin.
    now rewrite String.eqb_refl in Hin.
Qed.

Lemma get_store_found d k :
  get_store d k <> None <-> In k (map Store.store_id (stores d)).
Proof.
  unfold get_store. split.
  - destruct (find _ _) as [s|] eqn:E; [intros _|congruence].
    apply find_some in E. destruct E as [Hin Hk].
    apply String.eqb_eq in Hk. subst k. now apply in_map.
  - intros Hin. apply in_map_iff in Hin. destruct Hin as (s & <- & Hin).
    intros E. apply (find_none _ _ E) in Hin.
    now rewrite String.eqb_refl in Hin.
Qed.

Lemma mem_In k l : mem k l = true <-> In k l.
Proof.
  unfold mem. rewrite existsb_exists. split.
  - intros (x & Hx & E). apply String.eqb_eq in E. now subst.
  - intros H. exists k. split; [assumption | apply String.eqb_refl].
Qed.

(** The foreign keys stay resolved when no referring row is new, the
    products that the remaining rows refer to stay, and the store of
    every product is there. *)
Lemma references_wf_change d d' :
  references_wf d ->
  (forall r, In r (cart_items d') -> In r (cart_items d)) ->
  (forall r, In r (reviews d') -> In r (reviews d)) ->
  (forall r, In r (cart_items d') ->
     In (CartItem.items r) (map Product.product_id (products d)) ->
     In (CartItem.items r) (map Product.product_id (products d'))) ->
  (forall r k, In r (reviews d') -> Review.product r = Some k ->
     In k (map Product.product_id (products d)) ->
     In k (map Product.product_id (products d'))) ->
  (forall p k, In p (products d') -> Product.store p = Some k ->
     In k (map Store.store_id (stores d'))) ->
  references_wf d'.
Proof.
  intros (Hc & Hr & Hp) Hci Hrv Hcp Hrp Hps.
  rewrite Forall_forall in Hc, Hr, Hp.
  unfold references_wf. rewrite !Forall_forall. repeat split.
  - intros r Hin. apply get_product_found. apply Hcp; [assumption|].
    apply get_product_found. apply Hc. now apply Hci.
  - intros r Hin. destruct (Review.product r) as [k|] eqn:E; [|exact I].
    apply get_product_found. apply (Hrp r k Hin E).
    apply get_product_found. specialize (Hr r (Hrv r Hin)).
    now rewrite E in Hr.
  - intros p Hin. destruct (Product.store p) as [k|] eqn:E; [|exact I].
    apply get_store_found. now apply (Hps p k).
Qed.

Lemma product_store_found d p k :
  references_wf d -> In p (products d) -> Product.store p = Some k ->
  In k (map Store.store_id (stores d)).
Proof.
  intros (_ & _ & Hp) Hin E. rewrite Forall_forall in Hp.
  specialize (Hp p Hin). rewrite E in Hp. now apply get_store_found.
Qed.

Lemma survivor_of_delete doomed l k :
  In k (map Product.product_id l) ->
  mem k (map Product.product_id (filter doomed l)) = false ->
  In k (map Product.product_id (filter (fun p => negb (doomed p)) l)).
Proof.
  intros Hin Hmem. apply in_map_iff in Hin. destruct Hin as (p & <- & Hin).
  apply in_map. apply filter_In. split; [assumption|].
  destruct (doomed p) eqn:E; [|reflexivity].
  assert (mem (Product.product_id p)
            (map Product.product_id (filter doomed l)) = true).
  { apply mem_In. apply in_map. apply filter_In. now split. }
  congruence.
Qed.

Lemma delete_products_references doomed d :
  references_wf d -> references_wf (delete_products doomed d).
Proof.
  intros Hwf. apply (references_wf_change d); [assumption|..];
    unfold delete_products; simpl.
  - intros r Hin. now apply filter_In in Hin.
  - intros r Hin. now apply filter_In in Hin.
  - intros r Hin Hk. apply filter_In in Hin. destruct Hin as [_ Hkeep].
    apply survivor_of_delete; [assumption|].
    now apply negb_true_iff in Hkeep.
  - intros r k Hin E Hk. apply filter_In in Hin. destruct Hin as [_ Hkeep].
    rewrite E in Hkeep. apply survivor_of_delete; [assumption|].
    now apply negb_true_iff in Hkeep.
  - intros p k Hin E. apply filter_In in Hin. destruct Hin as [Hin _].
    now apply (product_store_found d p k).
Qed.

Lemma delete_store_row_references k d :
  references_wf d -> references_wf (delete_store_row k d).
Proof.
  intros Hwf.
  pose proof (delete_products_references
                (fun p => option_uuid_eqb (Product.store p) (Some k)) d Hwf)
    as H1.
  apply (references_wf_change _ _ H1); unfold delete_store_row; simpl; auto.
  intros p k' Hin E.
  pose proof (product_store_found _ p k' H1 Hin E) as Hk'.
  simpl in Hin, Hk'. apply filter_In in Hin. destruct Hin as [_ Hkeep].
  rewrite E in Hkeep. simpl in Hkeep.
  apply in_map_iff in Hk'. destruct Hk' as (s & <- & Hs).
  apply in_map. apply filter_In. split; [assumption|].
  destruct (String.eqb (Store.store_id s) k); [discriminate|reflexivity].
Qed.

Lemma insert_store_references s w :
  references_wf (db w) -> references_wf (db (snd (insert_store s w))).
Proof.
  intros Hwf. unfold insert_store, bind, get_db. cbn beta iota.
  destruct (exists_ (stores (db w)) _); [exact Hwf|].
  apply (references_wf_change (db w)); simpl; auto.
  intros p k Hin E. rewrite map_app. apply in_or_app. left.
  now apply (product_store_found (db w) p k).
Qed.

Lemma insert_product_references p s w :
  references_wf (db w) -> In s (stores (db w)) ->
  Product.store p = Some (Store.store_id s) ->
  references_wf (db (snd (insert_product p w))).
Proof.
  intros Hwf Hs Hp. unfold insert_product, bind, get_db. cbn beta iota.
  destruct (exists_ (products (db w)) _); [exact Hwf|].
  apply (references_wf_change (db w)); simpl; auto.
  - intros r _ Hin. rewrite map_app. apply in_or_app. now left.
  - intros r k _ _ Hin. rewrite map_app. apply in_or_app. now left.
  - intros p' k Hin E. apply in_app_or in Hin. destruct Hin as [Hin|[<-|[]]].
    + now apply (product_store_found (db w) p' k).
    + rewrite Hp in E. injection E as <-. now apply in_map.
Qed.

Lemma objects_get_In {A} model (rows : list A) p x :
  objects_get model rows p = Return x -> In x rows.
Proof.
  unfold objects_get. destruct (filter p rows) as [|y [|z l]] eqn:E;
    try discriminate.
  intros [= <-].
  assert (In y (filter p rows)) by (rewrite E; simpl; auto).
  now apply filter_In in H.
Qed.

Section CatalogueReferences.
Context {fw : Framework}.

(** X12.  The catalogue handlers leave no dangling reference.  If every
    cart item and every review points to a product that is there, and
    every product to a store that is there, then the same holds after any
    of the six web views and the two API endpoints: deleting a store
    takes its products with it, and deleting products takes the cart
    items and reviews that point to them. *)
Theorem catalogue_references_are_kept (op : catalogue_op)
  (request : Request) (w : World) :
  references_wf (db w) ->
  references_wf (db (snd (run_op op request w))).
Proof.
  intros Hwf. destruct op as [i|k|k|i|k|k|i|i]; simpl.
  - (* create_store *)
    unfold create_store. destruct (permitted request _) as [user|]; [|exact Hwf].
    destruct (method request); [exact Hwf|].
    destruct (StoreForm_clean _) as [[n d]|errors]; [|exact Hwf].
    unfold bind.
    pose proof (insert_store_references
                  (Store.mk i (User.id user) n d) w Hwf) as H.
    destruct (insert_store _ w) as [[[]|e] w']; exact H.
  - (* update_store *)
    unfold update_store. destruct (permitted request _) as [user|]; [|exact Hwf].
    unfold bind at 1. unfold get_db at 1. cbn beta iota.
    destruct (get_store (db w) k) as [store|] eqn:Es; [|exact Hwf].
    destruct (method request); [exact Hwf|].
    destruct (StoreForm_clean _) as [[n d]|errors]; [|exact Hwf].
    apply (references_wf_change (db w)); simpl; auto.
    intros p k' Hin E. rewrite map_map.
    pose proof (product_store_found (db w) p k' Hwf Hin E) as Hk'.
    apply in_map_iff in Hk'. destruct Hk' as (s & <- & Hs).
    apply in_map_iff. exists s. split; [|assumption].
    destruct (String.eqb_spec (Store.store_id s) k); simpl; congruence.
  - (* delete_store *)
    unfold delete_store. destruct (permitted request _) as [user|]; [|exact Hwf].
    unfold bind at 1. unfold get_db at 1. cbn beta iota.
    destruct (get_store (db w) k) as [store|]; [|exact Hwf].
    simpl. now apply delete_store_row_references.
  - (* create_product *)
    unfold create_product.
    destruct (permitted request _) as [user|]; [|exact Hwf].
    destruct (method request); [exact Hwf|].
    destruct (ProductForm_clean _) as [f|errors]; [|exact Hwf].
    unfold bind at 1. unfold get_db at 1. cbn beta iota.
    unfold bind at 1, lift at 1.
    destruct (objects_get "Store" (stores (db w)) _) as [store|e] eqn:Eg;
      [|exact Hwf].
    destruct (name_taken _ _ _ _); [exact Hwf|].
    unfold bind.
    match goal with
    | |- context [insert_product ?p w] =>
        pose proof (insert_product_references p store w Hwf
                      (objects_get_In _ _ _ _ Eg) eq_refl) as H;
        destruct (insert_product p w) as [[[]|e] w']; exact H
    end.
  - (* update_product *)
    unfold update_product.
    destruct (permitted request _) as [user|]; [|exact Hwf].
    unfold bind at 1. unfold get_db at 1. cbn beta iota.
    destruct (get_product (db w) k) as [product|] eqn:Ep; [|exact Hwf].
    destruct (method request); [exact Hwf|].
    destruct (ProductForm_clean _) as [f|errors]; [|exact Hwf].
    destruct (name_taken _ _ _ _); [exact Hwf|].
    assert (Hids : forall l,
      map Product.product_id
        (map (fun p' => if String.eqb (Product.product_id p') k
                        then Product.mk (Product.store product) k
                               (f_product_name f) (f_price f)
                               (image_after_update (f_image f)
                                  (Product.image product))
                               (f_description f)
                        else p') l)
      = map Product.product_id l).
    { intros l. rewrite map_map. apply map_ext. intros p.
      destruct (String.eqb_spec (Product.product_id p) k); simpl; congruence. }
    apply (references_wf_change (db w)); simpl; auto.
    + intros r _ Hin. now rewrite Hids.
    + intros r k' _ _ Hin. now rewrite Hids.
    + intros p k' Hin E. apply in_map_iff in Hin.
      destruct Hin as (p0 & Hp0 & Hin).
      destruct (String.eqb (Product.product_id p0) k).
      * subst p. simpl in E.
        unfold get_product in Ep. apply find_some in Ep.
        now apply (product_store_found (db w) product k' Hwf (proj1 Ep)).
      * subst p0. now apply (product_store_found (db w) p k').
  - (* delete_product *)
    unfold delete_product.
    destruct (permitted request _) as [user|]; [|exact Hwf].
    unfold bind at 1. unfold get_db at 1. cbn beta iota.
    destruct (get_product (db w) k) as [product|]; [|exact Hwf].
    simpl. now apply delete_products_references.
  - (* api add_store *)
    unfold add_store, bind at 1.
    destruct (req_user request) as [user|]; [|exact Hwf].
    destruct (method request); [exact Hwf|].
    destruct (negb _); [exact Hwf|].
    unfold bind at 1. unfold get_db at 1. cbn beta iota.
    destruct (exists_ (stores (db w)) _); [exact Hwf|].
    destruct (StoreSerializer_clean _) as [[n d]|errors]; [|exact Hwf].
    unfold bind.
    pose proof (insert_store_references
                  (Store.mk i (User.id user) n d) w Hwf) as H.
    destruct (insert_store _ w) as [[[]|e] w']; exact H.
  - (* api add_product *)
    unfold add_product, bind at 1.
    destruct (req_user request) as [user|]; [|exact Hwf].
    destruct (method request); [exact Hwf|].
    destruct (negb (has_perm _ _)); [exact Hwf|].
    unfold bind at 1. unfold get_db at 1. cbn beta iota.
    destruct (negb (exists_ _ _)); [exact Hwf|].
    destruct (ProductSerializer_clean _) as [f|errors]; [|exact Hwf].
    unfold bind at 1, lift at 1.
    destruct (objects_get "Store" (stores (db w)) _) as [store|e] eqn:Eg;
      [|exact Hwf].
    match goal with
    | |- context [if ?b then _ else _] => destruct b; [exact Hwf|]
    end.
    unfold bind.
    match goal with
    | |- context [insert_product ?p w] =>
        pose proof (insert_product_references p store w Hwf
                      (objects_get_In _ _ _ _ Eg) eq_refl) as H;
        destruct (insert_product p w) as [[[]|e] w']; exact H
    end.
Qed.

End CatalogueReferences.

Lemma catalogue_references_are_kept_witness :
  references_wf (db Sample.two_mugs)
  /\ references_wf
       (db (snd (run_op (fw := Sample.framework) (DeleteStore "store-2")
                   (mkRequest (Some Sample.vendor) GET [])
                   Sample.two_mugs)))
  /\ cart_items
       (db (snd (run_op (fw := Sample.framework) (DeleteStore "store-2")
                   (mkRequest (Some Sample.vendor) GET [])
                   Sample.two_mugs))) = [].
Proof.
  assert (H : references_wf (db Sample.two_mugs)).
  { unfold references_wf. simpl.
    repeat split; repeat constructor; vm_compute; discriminate. }
  split; [exact H|]. split; [|reflexivity].
  exact (catalogue_references_are_kept (fw := Sample.framework)
           (DeleteStore "store-2") (mkRequest (Some Sample.vendor) GET [])
           Sample.two_mugs H).
Defined.

(** ** Deleting a store *)

Lemma get_store_id d k s : get_store d k = Some s -> Store.store_id s = k.
Proof.
  unfold get_store. intros H. apply find_some in H.
  now apply String.eqb_eq.
Qed.

Lemma existsb_filter_false {A} (p q : A -> bool) l :
  (forall x, In x l -> q x = true -> p x = false) ->
  existsb p (filter q l) = false.
Proof.
  intros H. destruct (existsb p (filter q l)) eqn:E; [|reflexivity].
  apply existsb_exists in E. destruct E as (x & Hin & Hp).
  apply filter_In in Hin. destruct Hin as [Hin Hq].
  rewrite (H x Hin Hq) in Hp. discriminate.
Qed.

(** X13.  [delete_store] asks for the permission and for nothing else:
    whoever holds [delete_store] deletes any store, on any request method
    and whoever owns the store.  With the store go its products and the
    reviews of those products: afterwards the API answers 500 for the
    store (the [Http404] of the lookup is caught by the handler's own
    [except Exception]) and 404 for each of its products and for their
    reviews.  The products of the other stores stay, and so do all orders
    and order items. *)
Theorem delete_store_is_unconditional_and_cascades (request : Request)
  (user : User.t) (pk : uuid) (store : Store.t) (w : World) :
  req_user request = Some user ->
  has_perm user "online_store.delete_store" = true ->
  get_store (db w) pk = Some store ->
  NoDup (map Product.product_id (products (db w))) ->
  exists w',
    delete_store request pk w = (Return (Some (redirect "seller_home")), w')
    /\ (forall anyone data,
          exists details,
            view_store (mkRequest anyone GET data) pk w'
            = (Return (Json 500 details), w'))
    /\ (forall p anyone data,
          In p (products (db w)) -> Product.store p = Some pk ->
          api_view_product (mkRequest anyone GET data)
            (Product.product_id p) w'
          = (Return (Json 404 (JObject [("detail", "Product not found")])),
             w')
          /\ review_view (mkRequest anyone GET data)
               (Product.product_id p) w'
             = (Return (Json 404 (JObject [("detail", "No reviews found")])),
                w'))
    /\ (forall p, In p (products (db w)) -> Product.store p <> Some pk ->
                  In p (products (db w')))
    /\ orders (db w') = orders (db w)
    /\ order_items (db w') = order_items (db w).
Proof.
  intros Hu Hperm Hs Hnd.
  unfold delete_store, permitted. rewrite Hu, Hperm.
  unfold bind at 1. unfold get_db at 1. cbn beta iota. rewrite Hs.
  rewrite (get_store_id _ _ _ Hs).
  eexists. split; [reflexivity|].
  set (doomed := fun p : Product.t =>
                   option_uuid_eqb (Product.store p) (Some pk)).
  split; [|split; [|split; [|split; reflexivity]]].
  - intros anyone data. eexists.
    unfold view_store. cbn [method]. unfold bind, get_db. cbn beta iota.
    replace (get_store _ pk) with (@None Store.t); [reflexivity|].
    symmetry. unfold get_store. simpl.
    destruct (find _ _) as [s|] eqn:E; [|reflexivity].
    apply find_some in E. destruct E as [Hin Hk].
    apply filter_In in Hin. destruct Hin as [_ Hkeep].
    rewrite Hk in Hkeep. discriminate.
  - intros p anyone data Hp Hstore.
    assert (Hd : doomed p = true).
    { unfold doomed. now apply option_uuid_eqb_eq. }
    split.
    + unfold api_view_product. cbn [method].
      unfold bind, get_db. cbn beta iota.
      replace (exists_ _ _) with false; [reflexivity|].
      symmetry. unfold exists_. simpl. apply existsb_filter_false.
      intros x Hx Hkeep.
      destruct (String.eqb_spec (Product.product_id x)
                  (Product.product_id p)) as [E|]; [|reflexivity].
      assert (x = p)
        by (apply (NoDup_map_inj_on Product.product_id _ x p Hnd Hx Hp E)).
      subst x. apply negb_true_iff in Hkeep.
      unfold doomed in Hd. congruence.
    + unfold review_view. cbn [method].
      unfold bind, get_db. cbn beta iota.
      replace (exists_ _ _) with false; [reflexivity|].
      symmetry. unfold exists_. simpl. apply existsb_filter_false.
      intros r Hr Hkeep. unfold review_of.
      destruct (Review.product r) as [k|]; [|reflexivity].
      destruct (option_uuid_eqb (Some k) (Some (Product.product_id p)))
        eqn:E; [|reflexivity].
      apply option_uuid_eqb_eq in E. injection E as ->.
      apply negb_true_iff in Hkeep.
      assert (mem (Product.product_id p)
                (map Product.product_id (filter doomed (products (db w))))
              = true).
      { apply mem_In. apply in_map. apply filter_In. now split. }
      fold doomed in Hkeep. congruence.
  - intros p Hp Hstore. simpl. apply filter_In. split; [assumption|].
    destruct (option_uuid_eqb (Product.store p) (Some pk)) eqn:E;
      [|reflexivity].
    apply option_uuid_eqb_eq in E. contradiction.
Qed.

Lemma delete_store_is_unconditional_and_cascades_witness :
  Store.owner (Store.mk "store-2" 3 "Wes's" "More crockery")
  <> User.id Sample.vendor
  /\ exists w',
       delete_store (mkRequest (Some Sample.vendor) GET []) "store-2"
         Sample.two_mugs
       = (Return (Some (redirect "seller_home")), w')
       /\ products (db w') = [Sample.mug; Sample.pen].
Proof.
  split; [discriminate|].
  destruct (delete_store_is_unconditional_and_cascades
              (mkRequest (Some Sample.vendor) GET []) Sample.vendor
              "store-2" (Store.mk "store-2" 3 "Wes's" "More crockery")
              Sample.two_mugs eq_refl eq_refl eq_refl)
    as (w' & Hrun & _).
  - simpl. repeat constructor; simpl; intuition discriminate.
  - exists w'. split; [exact Hrun|].
    vm_compute in Hrun. injection Hrun as <-. reflexivity.
Defined.

(** ** Created rows and the pages that list them *)

Lemma find_snoc {A} (p : A -> bool) (l : list A) x :
  (forall y, In y l -> p y = false) -> p x = true ->
  find p (l ++ [x]) = Some x.
Proof.
  intros Hl Hx. induction l as [|a l IH]; simpl.
  - now rewrite Hx.
  - rewrite (Hl a) by (simpl; auto). apply IH.
    intros y Hy. apply Hl. simpl. auto.
Qed.

Lemma filter_snoc_only {A} (p : A -> bool) (l : list A) x :
  (forall y, In y l -> p y = false) -> p x = true ->
  filter p (l ++ [x]) = [x].
Proof.
  intros Hl Hx. induction l as [|a l IH]; simpl.
  - now rewrite Hx.
  - rewrite (Hl a) by (simpl; auto). apply IH.
    intros y Hy. apply Hl. simpl. auto.
Qed.

(** A successful [INSERT] appends the row, and no earlier row has its
    key. *)
Lemma insert_product_done p w w' :
  insert_product p w = (Return tt, w') ->
  w' = mkWorld (set_products (fun l => l ++ [p]) (db w)) (session w)
               (messages w)
  /\ forall p', In p' (products (db w)) ->
       String.eqb (Product.product_id p') (Product.product_id p) = false.
Proof.
  unfold insert_product, bind, get_db. cbn beta iota.
  destruct (exists_ (products (db w)) _) eqn:E; [discriminate|].
  unfold modify_db. intros [= <-]. split; [reflexivity|].
  exact (existsb_false_forall _ _ E).
Qed.

Lemma insert_store_done s w w' :
  insert_store s w = (Return tt, w') ->
  w' = mkWorld (set_stores (fun l => l ++ [s]) (db w)) (session w)
               (messages w)
  /\ forall s', In s' (stores (db w)) ->
       String.eqb (Store.store_id s') (Store.store_id s) = false.
Proof.
  unfold insert_store, bind, get_db. cbn beta iota.
  destruct (exists_ (stores (db w)) _) eqn:E; [discriminate|].
  unfold modify_db. intros [= <-]. split; [reflexivity|].
  intros s' Hs'. pose proof (existsb_false_forall _ _ E s' Hs') as H.
  simpl in H. now apply orb_false_iff in H.
Qed.

Section CreatedRows.
Context {fw : Framework}.

(** X14.  A product created through the web form is on the seller's home
    page.  When [create_product] answers with the redirect to
    [seller_home] and the user may view stores, [seller_home] on the
    resulting state shows the store of the user and a product list that
    contains the new product with the cleaned fields of the form; the list
    holds the products of that store and no others. *)
Theorem created_product_is_on_seller_home (new_id : uuid)
  (request : Request) (user : User.t) (w w' : World) :
  req_user request = Some user ->
  has_perm user "online_store.view_store" = true ->
  create_product new_id request w
  = (Return (Some (redirect "seller_home")), w') ->
  exists store f listing,
    ProductForm_clean (POST_data request) = inl f
    /\ seller_home request w'
       = (Return (Page 200 "online_store/seller_home.html"
                    [("store", PStore (Some store));
                     ("products", PProducts (Some listing));
                     ("page_title", PStr "Seller home")]), w')
    /\ Store.owner store = User.id user
    /\ In (Product.mk (Some (Store.store_id store)) new_id
             (f_product_name f) (f_price f) (image_or_default (f_image f))
             (f_description f)) listing
    /\ (forall p, In p listing <->
                  In p (products (db w'))
                  /\ Product.store p = Some (Store.store_id store)).
Proof.
  intros Hu Hview Hrun. unfold create_product, permitted in Hrun.
  rewrite Hu in Hrun.
  destruct (has_perm user "online_store.add_product"); [|discriminate].
  destruct (method request); [discriminate|].
  destruct (ProductForm_clean _) as [f|errors]; [|discriminate].
  unfold bind at 1 in Hrun. unfold get_db at 1 in Hrun.
  cbn beta iota in Hrun. unfold bind at 1, lift at 1 in Hrun.
  destruct (objects_get "Store" (stores (db w)) (owned_by user))
    as [store|e] eqn:Eg; [|discriminate].
  destruct (name_taken _ _ _ _); [discriminate|].
  unfold bind in Hrun.
  destruct (insert_product _ w) as [[[]|e] w1] eqn:Ei; [|discriminate].
  injection Hrun as <-.
  apply insert_product_done in Ei. destruct Ei as [-> _].
  exists store, f. eexists. split; [reflexivity|].
  unfold seller_home, permitted. rewrite Hu, Hview.
  unfold bind, get_db. cbn beta iota. cbn [db stores set_products].
  unfold owned_by in Eg. rewrite Eg.
  split; [reflexivity|]. split; [|split].
  - apply objects_get_In in Eg as Hin.
    unfold objects_get in Eg.
    destruct (filter _ (stores (db w))) as [|y [|z l]] eqn:E;
      try discriminate.
    injection Eg as ->.
    assert (Hy : In store (filter
                   (fun s => Nat.eqb (Store.owner s) (User.id user))
                   (stores (db w)))) by (rewrite E; simpl; auto).
    apply filter_In in Hy. now apply Nat.eqb_eq.
  - apply filter_In. simpl. split.
    + apply in_or_app. right. simpl. auto.
    + apply String.eqb_refl.
  - intros p. rewrite filter_In. simpl.
    now rewrite option_uuid_eqb_eq.
Qed.

(** X15.  What the API creates, the API returns.  After [add_store] has
    answered 201, [view_store] answers 200 with the new store for its
    key and [view_stores] lists it after the stores that were there;
    after [add_product] has answered 201, [view_product] answers 200 with
    a list of exactly one product, the new one.  The reads are open to
    every caller. *)
Theorem api_created_rows_are_readable (new_id : uuid) (request : Request)
  (w w' : World) (data : list (string * string)) :
  (add_store new_id request w = (Return (JsonResponse 201 data), w') ->
   exists user store_name description,
     req_user request = Some user
     /\ StoreSerializer_clean (POST_data request)
        = inl (store_name, description)
     /\ forall anyone query,
          view_store (mkRequest anyone GET query) new_id w'
          = (Return (Json 200
                       (JStore (Store.mk new_id (User.id user) store_name
                                         description))), w')
          /\ view_stores (mkRequest anyone GET query) w'
             = (Return (Json 200
                          (JStores
                             (stores (db w)
                              ++ [Store.mk new_id (User.id user) store_name
                                           description]))), w'))
  /\ (add_product new_id request w = (Return (JsonResponse 201 data), w') ->
      exists store f,
        ProductSerializer_clean (POST_data request) = inl f
        /\ In store (stores (db w))
        /\ forall anyone query,
             api_view_product (mkRequest anyone GET query) new_id w'
             = (Return (Json 200
                          (JProducts
                             [Product.mk (Some (Store.store_id store)) new_id
                                (f_product_name f) (f_price f)
                                (image_or_default (f_image f))
                                (f_description f)])), w')).
Proof.
  split; intros Hrun.
  - unfold add_store in Hrun.
    destruct (req_user request) as [user|]; [|discriminate].
    destruct (method request); [discriminate|].
    destruct (negb _); [discriminate|].
    unfold bind at 1 in Hrun. unfold get_db at 1 in Hrun.
    cbn beta iota in Hrun.
    destruct (exists_ (stores (db w)) _); [discriminate|].
    destruct (StoreSerializer_clean _) as [[n d]|errors]; [|discriminate].
    unfold bind in Hrun.
    destruct (insert_store _ w) as [[[]|e] w1] eqn:Ei; [|discriminate].
    injection Hrun as _ <-.
    apply insert_store_done in Ei. destruct Ei as [-> Hfresh].
    exists user, n, d. split; [reflexivity|]. split; [reflexivity|].
    intros anyone query. split; [|reflexivity].
    unfold view_store. cbn [method].
    unfold bind, get_db. cbn beta iota.
    unfold get_store. cbn [db stores set_stores].
    rewrite find_snoc; [reflexivity | exact Hfresh | apply String.eqb_refl].
  - unfold add_product in Hrun.
    destruct (req_user request) as [user|]; [|discriminate].
    destruct (method request); [discriminate|].
    destruct (negb (has_perm _ _)); [discriminate|].
    unfold bind at 1 in Hrun. unfold get_db at 1 in Hrun.
    cbn beta iota in Hrun.
    destruct (negb (exists_ _ _)); [discriminate|].
    destruct (ProductSerializer_clean _) as [f|errors]; [|discriminate].
    unfold bind at 1, lift at 1 in Hrun.
    destruct (objects_get "Store" (stores (db w)) _) as [store|e] eqn:Eg;
      [|discriminate].
    match type of Hrun with
    | context [if ?b then _ else _] => destruct b; [discriminate|]
    end.
    unfold bind in Hrun.
    destruct (insert_product _ w) as [[[]|e] w1] eqn:Ei; [|discriminate].
    injection Hrun as _ <-.
    apply insert_product_done in Ei. destruct Ei as [-> Hfresh].
    exists store, f. split; [reflexivity|].
    split; [exact (objects_get_In _ _ _ _ Eg)|].
    intros anyone query. unfold api_view_product. cbn [method].
    unfold bind, get_db. cbn beta iota.
    cbn [db products set_products]. unfold exists_.
    rewrite existsb_app. simpl. rewrite String.eqb_refl, !orb_true_r.
    cbn [negb]. rewrite filter_snoc_only;
      [reflexivity | exact Hfresh | apply String.eqb_refl].
Qed.

End CreatedRows.

Lemma created_product_is_on_seller_home_witness :
  exists store f listing,
    ProductForm_clean (Framework := Sample.framework)
      [("product_name", "Cup"); ("price", "300"); ("description", "A cup")]
    = inl f
    /\ seller_home
         (Sample.post (Some Sample.vendor)
            [("product_name", "Cup"); ("price", "300");
             ("description", "A cup")])
         (snd (create_product (fw := Sample.framework) "D"
                 (Sample.post (Some Sample.vendor)
                    [("product_name", "Cup"); ("price", "300");
                     ("description", "A cup")])
                 Sample.two_mugs))
       = (Return (Page 200 "online_store/seller_home.html"
                    [("store", PStore (Some store));
                     ("products", PProducts (Some listing));
                     ("page_title", PStr "Seller home")]),
          snd (create_product (fw := Sample.framework) "D"
                 (Sample.post (Some Sample.vendor)
                    [("product_name", "Cup"); ("price", "300");
                     ("description", "A cup")])
                 Sample.two_mugs))
    /\ Store.owner store = User.id Sample.vendor
    /\ In (Product.mk (Some (Store.store_id store)) "D"
             (f_product_name f) (f_price f) (image_or_default (f_image f))
             (f_description f)) listing
    /\ (forall p, In p listing <->
          In p (products
                  (db (snd (create_product (fw := Sample.framework) "D"
                              (Sample.post (Some Sample.vendor)
                                 [("product_name", "Cup"); ("price", "300");
                                  ("description", "A cup")])
                              Sample.two_mugs))))
          /\ Product.store p = Some (Store.store_id store)).
Proof.
  exact (created_product_is_on_seller_home (fw := Sample.framework) "D"
           (Sample.post (Some Sample.vendor)
              [("product_name", "Cup"); ("price", "300");
               ("description", "A cup")])
           Sample.vendor Sample.two_mugs _ eq_refl eq_refl eq_refl).
Defined.

Lemma api_created_rows_are_readable_witness :
  view_store (mkRequest None GET []) "S"
    (snd (add_store (fw := Sample.framework) "S"
            (Sample.post (Some Sample.vendor)
               [("store_name", "Vic's"); ("description", "Crockery")])
            Sample.fresh_world))
  = (Return (Json 200 (JStore (Store.mk "S" 2 "Vic's" "Crockery"))),
     snd (add_store (fw := Sample.framework) "S"
            (Sample.post (Some Sample.vendor)
               [("store_name", "Vic's"); ("description", "Crockery")])
            Sample.fresh_world))
  /\ exists p,
       api_view_product (mkRequest None GET []) "D"
         (snd (add_product (fw := Sample.framework) "D"
                 (Sample.post (Some Sample.storekeeper)
                    [("product_name", "Pen"); ("price", "700");
                     ("description", "Another pen")])
                 Sample.two_mugs))
       = (Return (Json 200 (JProducts [p])),
          snd (add_product (fw := Sample.framework) "D"
                 (Sample.post (Some Sample.storekeeper)
                    [("product_name", "Pen"); ("price", "700");
                     ("description", "Another pen")])
                 Sample.two_mugs))
       /\ Product.product_name p = "Pen".
Proof.
  split.
  - destruct (proj1 (api_created_rows_are_readable
                       (fw := Sample.framework) "S"
                       (Sample.post (Some Sample.vendor)
                          [("store_name", "Vic's");
                           ("description", "Crockery")])
                       Sample.fresh_world _ _) eq_refl)
      as (user & n & d & Hu & Hc & Hread).
    injection Hu as <-. vm_compute in Hc. injection Hc as <- <-.
    exact (proj1 (Hread None [])).
  - destruct (proj2 (api_created_rows_are_readable
                       (fw := Sample.framework) "D"
                       (Sample.post (Some Sample.storekeeper)
                          [("product_name", "Pen"); ("price", "700");
                           ("description", "Another pen")])
                       Sample.two_mugs _ _) eq_refl)
      as (store & f & Hc & _ & Hread).
    vm_compute in Hc. injection Hc as <-.
    eexists. split; [exact (Hread None [])|reflexivity].
Defined.

(** ** Product names on creation *)

(** X16.  A product name is taken once per store.  With a valid form and
    a fresh key, [create_product] for the owner of a store: when the
    store has a product of that name, the form is shown again with the
    error attached to the field [product_name] and nothing is written;
    when it has none — other stores may — the product is added to the
    store and the view redirects to the seller home. *)
Theorem product_name_is_taken_once_per_store (fw : Framework) (w : World)
  (new_id : uuid) (request : Request) (user : User.t) (store : Store.t)
  (f : ProductFields) :
  req_user request = Some user ->
  has_perm user "online_store.add_product" = true ->
  method request = POST ->
  ProductForm_clean (POST_data request) = inl f ->
  filter (owned_by user) (stores (db w)) = [store] ->
  get_product (db w) new_id = None ->
  (store_has_name (db w) (Store.store_id store) (f_product_name f) ->
   create_product new_id request w
   = (Return (Some (render product_form
        [("form",
          VForm [("product_name",
                  "Another product with this same name already exists.")])])),
      w))
  /\ (~ store_has_name (db w) (Store.store_id store) (f_product_name f) ->
      exists w',
        create_product new_id request w
        = (Return (Some (redirect "seller_home")), w')
        /\ products (db w')
           = products (db w)
             ++ [Product.mk (Some (Store.store_id store)) new_id
                   (f_product_name f) (f_price f)
                   (image_or_default (f_image f)) (f_description f)]).
Proof.
  intros Hu Hp Hm Hf Hs Hk.
  pose proof (create_product_checks_name new_id request user store f w
                Hu Hp Hm Hf Hs Hk) as Hrun.
  pose proof (name_taken_iff (db w) (f_product_name f)
                (Store.store_id store) new_id Hk) as Hiff.
  destruct (name_taken _ _ _ _).
  - split; [intros _; exact Hrun|].
    intros Hno. exfalso. apply Hno. now apply Hiff.
  - split.
    + intros Hyes. apply Hiff in Hyes. discriminate.
    + intros _. eexists. split; [exact Hrun | reflexivity].
Qed.

(** The vendor owns store 1, which sells a "Mug"; store 2 sells another
    "Mug".  A second "Mug" in store 1 is refused.  In the world where the
    only "Mug" is the one of store 2, the vendor's "Mug" is created in
    store 1. *)
Lemma product_name_is_taken_once_per_store_witness :
  let w := Sample.two_mugs in
  let mug_request :=
    Sample.post (Some Sample.vendor)
      [("product_name", "Mug"); ("price", "1100"); ("description", "Mug 2")] in
  let w2 :=
    mkWorld (set_products (fun _ => [Sample.namesake]) (db w))
            (session w) (messages w) in
  create_product (fw := Sample.framework) "D" mug_request w
  = (Return (Some (render product_form
       [("form",
         VForm [("product_name",
                 "Another product with this same name already exists.")])])),
     w)
  /\ exists w',
       create_product (fw := Sample.framework) "D" mug_request w2
       = (Return (Some (redirect "seller_home")), w')
       /\ products (db w')
          = [Sample.namesake;
             Product.mk (Some "store-1") "D" "Mug" 1100
               (Some default_image) "Mug 2"].
Proof.
  intros w mug_request w2.
  destruct (product_name_is_taken_once_per_store Sample.framework w "D"
              mug_request Sample.vendor
              (Store.mk "store-1" 2 "Vic's" "Crockery")
              (mkProductFields "Mug" 1100 "Mug 2" None)
              eq_refl eq_refl eq_refl eq_refl eq_refl eq_refl) as [Hdup _].
  split.
  { apply Hdup. exists Sample.mug. simpl. auto. }
  destruct (product_name_is_taken_once_per_store Sample.framework w2 "D"
              mug_request Sample.vendor
              (Store.mk "store-1" 2 "Vic's" "Crockery")
              (mkProductFields "Mug" 1100 "Mug 2" None)
              eq_refl eq_refl eq_refl eq_refl eq_refl eq_refl) as [_ Hnew].
  destruct Hnew as (w' & Hrun & Hproducts).
  { intros (p & Hin & Hn & Hs). simpl in Hin.
    destruct Hin as [<-|[]]. discriminate. }
  exists w'. split; [exact Hrun | exact Hproducts].
Defined.

(** ** A session key that is no UUID *)

Lemma for_each_app {A} (l1 l2 : list A) (body : A -> M unit) : forall w,
  for_each (l1 ++ l2) body w
  = match for_each l1 body w with
    | (Return _, w1) => for_each l2 body w1
    | (Raise e, w1) => (Raise e, w1)
    end.
Proof.
  induction l1 as [|a l1 IH]; intros w; [reflexivity|].
  cbn [for_each app]. unfold bind.
  destruct (body a w) as [[[]|e] w1]; [apply IH | reflexivity].
Qed.

(** X17.  [merge_cart] stops at the first session key that is no UUID.
    [Product.objects.get] raises [ValidationError] for it, which the
    [except Product.DoesNotExist] of the loop does not catch: the
    receiver, and the login with it, ends in that exception.  The entries
    before the key are merged as usual; the key and the entries after it
    are not, and the session cart is left as it was.  The entries before
    the key are as the cart views leave them: product ids in the stored
    spelling, with quantities of at least 1. *)
Theorem merge_cart_stops_at_ill_formed_key (fw : Framework) (w : World)
  (user : User.t) (before after : dict Z) (bad : string) (q : Z) :
  in_group user "Buyers" = true ->
  carts_wf (db w) -> cart_items_wf (db w) ->
  session_cart w = before ++ (bad, q) :: after ->
  NoDup (map fst before) ->
  Forall (fun e => to_uuid (fst e) = Some (fst e)) before ->
  Forall (fun e => 1 <= snd e) before ->
  to_uuid bad = None ->
  exists c w',
    merge_cart user w = (Raise ValidationError, w')
    /\ session w' = session w
    /\ cart_of (db w') user = Some c
    /\ (forall p n,
          dict_get before p = Some n -> get_product (db w) p <> None ->
          cart_item_is (db w') (Cart.id c) p
            (cart_quantity (db w) (Cart.id c) p + n))
    /\ (forall c' p,
          c' <> Cart.id c \/ get_product (db w) p = None
          \/ dict_get before p = None ->
          rows_of (db w') c' p = rows_of (db w) c' p).
Proof.
  intros Hg Hc Hi Hs Hnd Hkeys _ Hbad. unfold merge_cart. rewrite Hg. simpl.
  destruct (get_or_create_cart_spec user w Hc Hi)
    as (c & w1 & Hrun & Hcart & Hc1 & Hi1 & Hitems & Hprod & Hsess & Hmsg & _).
  unfold bind at 1. unfold get_session at 1. cbn beta iota.
  unfold bind at 1. rewrite Hrun.
  change (match s_cart (session w) with Some c1 => c1 | None => [] end)
    with (session_cart w).
  rewrite Hs. unfold bind at 1. rewrite for_each_app.
  destruct (merge_loop c before w1 Hi1 Hnd Hkeys)
    as (w' & Hloop & Hwf' & Hframe & Ha & Hb).
  rewrite Hloop. cbn [for_each]. unfold bind at 1. unfold merge_entry.
  rewrite (lookup_key_ill_formed bad _ w' Hbad).
  destruct (besides_cart_items_products _ _ Hframe)
    as (Hprod' & Hcarts' & Hsess' & _).
  assert (Hrows : forall c' p, rows_of (db w1) c' p = rows_of (db w) c' p).
  { intros. unfold rows_of. now rewrite Hitems. }
  exists c, w'. split; [reflexivity|]. split; [congruence|]. split; [|split].
  - unfold cart_of in *. now rewrite Hcarts'.
  - intros p n Hn Hp.
    rewrite (cart_quantity_rows (db w1) (db w) _ _ (eq_sym (Hrows _ _))).
    apply Ha; [assumption|].
    now rewrite (get_product_frame w w1 p Hprod).
  - intros c' p Hcase. rewrite <- Hrows. apply Hb.
    destruct Hcase as [H|[H|H]]; auto.
    right. left. now rewrite (get_product_frame w w1 p Hprod).
Qed.

(** The session cart [{A: 2, not-a-uuid: 4, B: 1}] at the login of the
    buyer: the receiver raises, CartItem(A, 2) is stored, nothing is
    stored for B, and the session cart still holds the three entries. *)
Lemma merge_cart_stops_at_ill_formed_key_witness :
  let cart := [("A", 2); ("not-a-uuid", 4); ("B", 1)] in
  let w := mkWorld (Sample.shop [] 2) (mkSession (Some cart) None None) [] in
  exists w',
    merge_cart (fw := Sample.framework) Sample.buyer w
    = (Raise ValidationError, w')
    /\ s_cart (session w') = Some cart
    /\ cart_item_is (db w') 1 "A" 2
    /\ rows_of (db w') 1 "B" = [].
Proof.
  intros cart w.
  destruct (merge_cart_stops_at_ill_formed_key Sample.framework w
              Sample.buyer [("A", 2)] [("B", 1)] "not-a-uuid" 4)
    as (c & w' & Hrun & Hsess & Hcart & Ha & Hb);
    try reflexivity.
  - repeat constructor; simpl; tauto.
  - repeat split; repeat constructor; simpl; try tauto; lia.
  - repeat constructor; simpl; tauto.
  - repeat constructor.
  - repeat constructor; simpl; lia.
  - exists w'. split; [exact Hrun|]. split; [now rewrite Hsess|].
    assert (Hc : c = Cart.mk 1 1).
    { vm_compute in Hrun. injection Hrun as <-.
      vm_compute in Hcart. now injection Hcart as <-. }
    subst c. split.
    + apply (Ha "A" 2 eq_refl). discriminate.
    + apply (Hb 1%nat "B"). right. right. reflexivity.
Defined.
